(** * The forecasting agent: repair loop, execution sandbox, response parser

    A shallow embedding of [src/agent.py], [src/tools_manager.py] and
    [src/memory_manager.py].

    Conventions of the embedding.
    - A Python [str] is a list of characters ([pystr]); the text functions
      below are exact on ASCII text, which is what every marker, fence and
      command word of the program is made of.  Characters outside ASCII have
      no case and are not white space in this model, while Python trims,
      splits at and changes the case of some of them: a statement that
      depends on the trimming, the splitting at white space or the case of
      a text that is not fixed takes that text to be ASCII
      ([PyStr.isascii]).
    - Python exceptions are values; fallible code returns a [pyresult].
      [except Exception] only catches exceptions whose class derives from
      [Exception] ([exc_catchable]); [SystemExit], [KeyboardInterrupt] and
      [GeneratorExit] do not.
    - Everything the program obtains from outside the repository (the Python
      interpreter behind [exec], pandas' date parser, pip, the file system,
      the forecasting call, the language model, the operator at the
      terminal) is a field of [Runtime] or of the [World] state.
    - Console output produced with [print] is not part of the state: no
      operation of the program reads it back.  Text printed by an executed
      snippet is captured and is part of the execution result. *)

From Stdlib Require Import String Ascii List ZArith Lia Bool DecimalString.
From stdpp Require Import gmap strings list fin_maps.

Open Scope Z_scope.

(** ** Python strings *)

Abbreviation pystr := (list ascii).
Coercion list_ascii_of_string : string >-> list.
Arguments list_ascii_of_string : simpl never.

Module PyStr.

(** [s.startswith(p)] *)
Fixpoint startswith (p s : pystr) : bool :=
  match p, s with
  | [], _ => true
  | _ :: _, [] => false
  | a :: p', b :: s' => Ascii.eqb a b && startswith p' s'
  end.

(** Lowest [k] with [sub] a prefix of [s[k:]], reported as [i + k]. *)
Fixpoint find_at (sub s : pystr) (i : nat) : option nat :=
  if startswith sub s then Some i
  else match s with
       | [] => None
       | _ :: s' => find_at sub s' (S i)
       end.

(** Python's treatment of a slice bound: negative bounds count from the end,
    and every bound is clipped to [0 .. len]. *)
Definition clip (n : nat) (i : Z) : nat :=
  let j := if i <? 0 then Z.of_nat n + i else i in
  Z.to_nat (Z.min (Z.max 0 j) (Z.of_nat n)).

(** [s.find(sub, start)]: the lowest index at or after [start] where [sub]
    occurs, or [-1]. *)
Definition find (s sub : pystr) (start : Z) : Z :=
  if Z.of_nat (length s) <? start then -1
  else let k := clip (length s) start in
       match find_at sub (drop k s) k with
       | Some i => Z.of_nat i
       | None => -1
       end.

(** [sub in s] *)
Definition contains (sub s : pystr) : bool :=
  match find_at sub s 0 with Some _ => true | None => false end.

(** [s[a:b]] and [s[a:]] *)
Definition slice (s : pystr) (a b : Z) : pystr :=
  let i := clip (length s) a in
  let j := clip (length s) b in
  take (j - i)%nat (drop i s).

Definition slice_from (s : pystr) (a : Z) : pystr :=
  drop (clip (length s) a) s.

(** [s.isascii()]: every character is below 128. *)
Definition isascii (s : pystr) : bool :=
  forallb (fun c => (nat_of_ascii c <? 128)%nat) s.

(** [c.isspace()] on ASCII: TAB, LF, VT, FF, CR, FS, GS, RS, US, space. *)
Definition isspace (c : ascii) : bool :=
  let n := nat_of_ascii c in
  ((9 <=? n) && (n <=? 13) || (28 <=? n) && (n <=? 32))%nat.

Fixpoint lstrip (s : pystr) : pystr :=
  match s with
  | c :: s' => if isspace c then lstrip s' else s
  | [] => []
  end.

Definition rstrip (s : pystr) : pystr := rev (lstrip (rev s)).

(** [s.strip()], for an ASCII [s] *)
Definition strip (s : pystr) : pystr := rstrip (lstrip s).

Definition lower_char (c : ascii) : ascii :=
  let n := nat_of_ascii c in
  if ((65 <=? n) && (n <=? 90))%nat then ascii_of_nat (n + 32) else c.

Definition upper_char (c : ascii) : ascii :=
  let n := nat_of_ascii c in
  if ((97 <=? n) && (n <=? 122))%nat then ascii_of_nat (n - 32) else c.

(** [s.lower()] and [s.upper()], for an ASCII [s] *)
Definition lower (s : pystr) : pystr := map lower_char s.
Definition upper (s : pystr) : pystr := map upper_char s.

(** [s.split(sep)] for a non-empty separator.  [skip] counts the characters
    of a separator occurrence that are still to be passed over, [cur] is the
    current piece, reversed. *)
Fixpoint split_go (sep s : pystr) (skip : nat) (cur : pystr) : list pystr :=
  match s with
  | [] => [rev cur]
  | c :: s' =>
      match skip with
      | S k => split_go sep s' k cur
      | O =>
          if startswith sep s
          then rev cur :: split_go sep s' (length sep - 1) []
          else split_go sep s' 0 (c :: cur)
      end
  end.

Definition split (s sep : pystr) : list pystr := split_go sep s 0 [].

(** [s.split(sep, 1)]: at most one cut, at the first occurrence. *)
Definition split1 (s sep : pystr) : list pystr :=
  match find_at sep s 0 with
  | Some i => [take i s; drop (i + length sep) s]
  | None => [s]
  end.

(** [s.replace(old, new)] for a non-empty [old]. *)
Fixpoint replace_go (old new s : pystr) (skip : nat) : pystr :=
  match s with
  | [] => []
  | c :: s' =>
      match skip with
      | S k => replace_go old new s' k
      | O =>
          if startswith old s
          then new ++ replace_go old new s' (length old - 1)
          else c :: replace_go old new s' 0
      end
  end.

Definition replace (s old new : pystr) : pystr := replace_go old new s 0.

(** [sep.join(parts)] *)
Fixpoint join (sep : pystr) (parts : list pystr) : pystr :=
  match parts with
  | [] => []
  | [p] => p
  | p :: rest => p ++ sep ++ join sep rest
  end.

Definition eqb (a b : pystr) : bool := bool_decide (a = b).

(** [str(n)] for a non-negative integer *)
Definition of_nat (n : nat) : pystr :=
  list_ascii_of_string (NilEmpty.string_of_uint (Nat.to_uint n)).

(** The truth value of a string: empty strings are false. *)
Definition truthy (s : pystr) : bool :=
  match s with [] => false | _ => true end.

(** The truth value of an attribute that is [None] or a string. *)
Definition truthy_opt (s : option pystr) : bool :=
  match s with Some s => truthy s | None => false end.

Definition nl : pystr := [ascii_of_nat 10].

End PyStr.

(** ** Exceptions and results *)

(** A raised exception: the name of its class, [str(e)], whether the class
    derives from [Exception], and the text [traceback.format_exc()] gives for
    it. *)
Record PyExc := {
  exc_type : pystr;
  exc_msg : pystr;
  exc_catchable : bool;
  exc_traceback : pystr
}.

(** An ordinary exception raised by the program or the libraries it calls. *)
Definition py_error (ty msg : pystr) : PyExc :=
  {| exc_type := ty; exc_msg := msg; exc_catchable := true;
     exc_traceback := ("Traceback (most recent call last):" : pystr) ++ PyStr.nl
                      ++ ty ++ (": " : pystr) ++ msg ++ PyStr.nl |}.

(** The outcome of running a piece of the program: a value, an exception in
    flight, or [Diverged] when the fuel given to the model ran out. *)
Inductive pyresult (A : Type) : Type :=
| Ok (a : A)
| Raise (e : PyExc)
| Diverged.
Arguments Ok {A} a.
Arguments Raise {A} e.
Arguments Diverged {A}.

(** [seq[1]]: the second element or an [IndexError]. *)
Definition item1 (l : list pystr) : pyresult pystr :=
  match l with
  | _ :: x :: _ => Ok x
  | _ => Raise (py_error "IndexError" "list index out of range")
  end.

(** [seq[0]] of the result of a [split], which is never empty. *)
Definition item0 (l : list pystr) : pystr :=
  match l with
  | x :: _ => x
  | [] => []
  end.

(** ** Python dictionaries

    A [dict] keeps its keys in insertion order; assigning to a key that is
    already present keeps its position. *)
Module PyDict.

Definition t (V : Type) : Type := list (pystr * V).

Fixpoint set {V} (k : pystr) (v : V) (d : t V) : t V :=
  match d with
  | [] => [(k, v)]
  | (k', v') :: d' =>
      if PyStr.eqb k k' then (k, v) :: d' else (k', v') :: set k v d'
  end.

Fixpoint get {V} (k : pystr) (d : t V) : option V :=
  match d with
  | [] => None
  | (k', v) :: d' => if PyStr.eqb k k' then Some v else get k d'
  end.

(** The dictionary built by inserting the pairs from left to right. *)
Definition of_pairs {V} (l : list (pystr * V)) : t V :=
  fold_left (fun d kv => set (fst kv) (snd kv) d) l [].

End PyDict.

(** ** Tabular data: the part of pandas the program touches *)
Module Pandas.

Inductive dtype := object_ | int64 | float64 | bool_ | datetime64.

(** [str(dtype)] *)
Definition dtype_name (d : dtype) : pystr :=
  match d with
  | object_ => "object"
  | int64 => "int64"
  | float64 => "float64"
  | bool_ => "bool"
  | datetime64 => "datetime64[ns]"
  end.

(** A cell of a column.  [NaN] stands for every missing value ([None],
    [NaN], [NaT]); numeric payloads are integers. *)
Inductive cell :=
| NaN
| Str (s : pystr)
| Int (z : Z)
| Boolean (b : bool)
| Timestamp (t : Z).

Record Series := {
  name : pystr;
  dtype_of : dtype;
  values : list cell
}.

Record DataFrame := {
  index_len : nat;
  columns : list Series
}.

(** [df.shape], [df.columns.tolist()], [len(df)] *)
Definition shape (df : DataFrame) : nat * nat :=
  (index_len df, length (columns df)).
Definition column_names (df : DataFrame) : list pystr :=
  map name (columns df).
Definition len (df : DataFrame) : nat := index_len df.

Definition isnull (c : cell) : bool :=
  match c with NaN => true | _ => false end.

Definition null_count (s : Series) : nat :=
  length (List.filter isnull (values s)).

(** [df.dtypes.to_dict()] and [df.isnull().sum().to_dict()] *)
Definition dtypes (df : DataFrame) : PyDict.t dtype :=
  PyDict.of_pairs (map (fun s => (name s, dtype_of s)) (columns df)).
Definition null_counts (df : DataFrame) : PyDict.t nat :=
  PyDict.of_pairs (map (fun s => (name s, null_count s)) (columns df)).

(** [label in df.columns] *)
Definition has_column (df : DataFrame) (k : pystr) : bool :=
  existsb (fun s => PyStr.eqb (name s) k) (columns df).

(** [df[label]]: a [Series] when exactly one column carries the label, a
    frame of all the columns carrying it when several do, a [KeyError] when
    none does. *)
Inductive selection :=
| NoColumn
| OneColumn (s : Series)
| ManyColumns (l : list Series).

Definition getitem (df : DataFrame) (k : pystr) : selection :=
  match List.filter (fun s => PyStr.eqb (name s) k) (columns df) with
  | [] => NoColumn
  | [s] => OneColumn s
  | l => ManyColumns l
  end.

(** [df[label] = series] for a label the frame already has: the column keeps
    its place and takes the type and the values of the series. *)
Definition setitem (df : DataFrame) (k : pystr) (s : Series) : DataFrame :=
  {| index_len := index_len df;
     columns := map (fun c => if PyStr.eqb (name c) k
                              then {| name := name c; dtype_of := dtype_of s;
                                      values := values s |}
                              else c) (columns df) |}.

Section Conversion.
(** pandas' parser of one date string: a time stamp, [None] for a string
    that reads as a missing value, or the exception pandas raises. *)
Variable parse_datetime : pystr -> pyresult (option Z).

Definition to_datetime_cell (c : cell) : pyresult cell :=
  match c with
  | NaN => Ok NaN
  | Timestamp t => Ok (Timestamp t)
  | Int z => Ok (Timestamp z)
  | Str s =>
      match parse_datetime s with
      | Ok (Some t) => Ok (Timestamp t)
      | Ok None => Ok NaN
      | Raise e => Raise e
      | Diverged => Diverged
      end
  | Boolean _ =>
      Raise (py_error "TypeError" "<class 'bool'> is not convertible to datetime")
  end.

Fixpoint to_datetime_cells (l : list cell) : pyresult (list cell) :=
  match l with
  | [] => Ok []
  | c :: l' =>
      match to_datetime_cell c with
      | Ok c' =>
          match to_datetime_cells l' with
          | Ok r => Ok (c' :: r)
          | Raise e => Raise e
          | Diverged => Diverged
          end
      | Raise e => Raise e
      | Diverged => Diverged
      end
  end.

(** [pd.to_datetime(df[label])] *)
Definition to_datetime (sel : selection) : pyresult Series :=
  match sel with
  | NoColumn => Raise (py_error "KeyError" "'date'")
  | OneColumn s =>
      match to_datetime_cells (values s) with
      | Ok vs => Ok {| name := name s; dtype_of := datetime64; values := vs |}
      | Raise e => Raise e
      | Diverged => Diverged
      end
  | ManyColumns _ =>
      Raise (py_error "ValueError" "cannot assemble with duplicate keys")
  end.
End Conversion.

End Pandas.

(** ** Values of the execution sandbox *)

(** A value bound in the namespace of an executed snippet. *)
Inductive pyobj :=
| PyModule (name : pystr)
| PyFrame (f : Pandas.DataFrame)
| PyInt (z : Z)
| PyStr (s : pystr)
| PyOpaque (repr : pystr).

Abbreviation Namespace := (PyDict.t pyobj).

(** What [exec(code, globals(), local_vars)] does: the exception it ends
    with, if any; the text written to standard output; the namespace it
    leaves; and the state in which it leaves the data frame that was bound to
    [df] (the frame is shared with the caller, so in-place changes stay). *)
Record ExecOutcome := {
  raised : option PyExc;
  stdout : pystr;
  final_locals : Namespace;
  dataset_after : option Pandas.DataFrame
}.

(** ** Results of [execute_code] ([tools_manager.py]) *)

Record DataInfo := {
  shape : nat * nat;
  columns : list pystr;
  dtypes : PyDict.t Pandas.dtype;
  null_counts : PyDict.t nat
}.

Record DebugInfo := {
  data_info : option DataInfo;
  imports_loaded : list pystr;
  execution_step : pystr
}.

(** The dictionary under the key ['error_context']; [err_debug_info] is its
    key ['debug_info']. *)
Record ErrorContext := {
  error_type : pystr;
  error_msg : pystr;
  err_debug_info : DebugInfo;
  traceback : pystr
}.

(** The dictionary [execute_code] returns.  The keys ['debug_info'] and
    ['error_context'] are present in some shapes only: [None] is an absent
    key. *)
Record ExecutionResult := {
  output : pystr;
  results : option Namespace;
  success : bool;
  debug_info : option DebugInfo;
  error_context : option ErrorContext
}.

(** ** Session memory ([memory_manager.py]) *)

Record Analysis := { analysis_text : pystr }.

(** An entry of the attempt history of a repair loop. *)
Record AttemptRecord := {
  attempt_number : nat;
  attempt_code : pystr;
  attempt_error : pystr;
  attempt_debug_info : option DebugInfo;
  attempt_error_context : option ErrorContext
}.

(** A stored interaction.  [i_fixes] is a reference to the attempt-history list
    of the turn, not a copy of it: see [World]. *)
Record Interaction := {
  i_timestamp : nat;
  i_query : pystr;
  i_response : pystr;
  i_code : option pystr;
  i_error : option pystr;
  i_fixes : option nat;
  i_result : option pystr
}.

Inductive MemoryContent :=
| dataset_info (target_column series_id_column : option pystr)
               (shape : nat * nat) (columns : list pystr)
| analysis (a : Analysis)
| interaction (i : Interaction).

Record MemoryRecord := {
  content : MemoryContent;
  stored_at : nat
}.

Record MemoryManager := {
  session_id : nat;
  short_term_memory : list MemoryRecord;
  long_term_memory : list MemoryRecord;
  conversation_history : list Interaction;
  last_execution : option Interaction
}.

(** ** The agent, the outside world, and the prompts *)

(** [ForecastingAgent] ([agent.py]).  [llm] is [None] until [initialize] has
    run, then the name of the selected model.  The [planner] attribute is
    set by [__init__] and never read; it is left out. *)
Record ForecastingAgent := {
  memory_manager : MemoryManager;
  llm : option pystr;
  current_data : option Pandas.DataFrame;
  current_context : gmap pystr pystr;
  _last_code : option pystr;
  _last_error : option pystr;
  _last_result : option pystr
}.

(** One conversation-history entry as it is written into a prompt; [h_fixes]
    is the attempt list the interaction refers to, read when the prompt is
    built. *)
Record HistoryEntry := {
  h_query : pystr;
  h_response : pystr;
  h_error : option pystr;
  h_fixes : option (list AttemptRecord)
}.

(** The prompts sent to the language model.  Each constructor is one of the
    f-string templates of [agent.py] and carries the values interpolated into
    it. *)
Inductive Prompt :=
| FixRequestPrompt (last_code last_result : option pystr) (instructions : pystr)
| QueryPrompt (data_info csv_path target_column series_id_column : option pystr)
              (last_analysis : option Analysis)
              (history : list HistoryEntry) (query : pystr)
| FixRetryPrompt (instructions : pystr) (last_code last_error : option pystr)
                 (rows : nat) (columns : list pystr)
                 (target_column series_id_column : option pystr)
                 (date_dtype : Pandas.dtype)
| RepairPrompt (error_text failed_code : pystr)
               (rows : nat) (columns : list pystr)
               (target_column series_id_column : option pystr)
               (date_dtype : Pandas.dtype)
               (previous_attempts : list (nat * pystr))
| RawPrompt (text : pystr).

(** Ghost events, recorded to state properties of runs: a call of
    [execute_code] that returned, and an append to an attempt history. *)
Inductive Event :=
| Executed (code : pystr) (r : ExecutionResult)
| Recorded (a : AttemptRecord).

(** The state outside the agent object.
    - [stdin]: the lines the operator will type; [input()] raises [EOFError]
      when none is left.
    - [llm_calls]: how many times the language model has been invoked.
    - [importable]: the third-party modules [__import__] finds.
    - [clock]: ticks of [datetime.now()].
    - [attempt_lists]: the attempt-history list objects created so far; list
      number [n] is what a reference [Some n] in an interaction points to.
    - [trace]: the ghost events so far. *)
Record World := {
  stdin : list pystr;
  llm_calls : nat;
  importable : list pystr;
  clock : nat;
  attempt_lists : list (list AttemptRecord);
  trace : list Event
}.

(** The collaborators outside the repository. *)
Record Runtime := {
  (** [exec(code, globals(), local_vars)] *)
  py_exec : pystr -> Namespace -> ExecOutcome;
  (** the date parser under [pd.to_datetime] *)
  parse_datetime : pystr -> pyresult (option Z);
  (** [ast.parse] followed by the walk over [Import] and [ImportFrom] nodes:
      the module roots found, or [None] when parsing raises *)
  ast_imports : pystr -> option (list pystr);
  (** [sys.stdlib_module_names] *)
  stdlib_module_names : list pystr;
  (** [pip install]: the modules that become importable, or [None] when the
      subprocess fails *)
  pip_install : pystr -> option (list pystr);
  (** [pd.read_csv] on a path *)
  read_csv_file : pystr -> pyresult Pandas.DataFrame;
  (** the statistics of [generate_descriptive_analysis] *)
  describe : Pandas.DataFrame -> option pystr -> option pystr -> pyresult Analysis;
  (** the body of [generate_forecast]: per-series Prophet fits, formatted *)
  prophet_forecast : Pandas.DataFrame -> option pystr -> option pystr -> pyresult pystr;
  (** [tabulate(value.head(), headers='keys', tablefmt='grid')] *)
  tabulate_head : Pandas.DataFrame -> pystr;
  (** [llm.invoke(prompt)] of the given model; the second argument is the
      number of earlier invocations *)
  llm_invoke : pystr -> nat -> Prompt -> pyresult pystr
}.

(** ** A state and exception monad *)

Definition M (S A : Type) : Type := S -> pyresult A * S.

Definition ret {S A} (a : A) : M S A := fun s => (Ok a, s).

Definition bind {S A B} (m : M S A) (k : A -> M S B) : M S B :=
  fun s =>
    match m s with
    | (Ok a, s') => k a s'
    | (Raise e, s') => (Raise e, s')
    | (Diverged, s') => (Diverged, s')
    end.

Definition raise {S A} (e : PyExc) : M S A := fun s => (Raise e, s).

Definition diverge {S A} : M S A := fun s => (Diverged, s).

(** [try: m  except Exception as e: handler e] *)
Definition try_except {S A} (m : M S A) (handler : PyExc -> M S A) : M S A :=
  fun s =>
    match m s with
    | (Raise e, s') => if exc_catchable e then handler e s' else (Raise e, s')
    | r => r
    end.

Definition get {S} : M S S := fun s => (Ok s, s).
Definition gets {S A} (f : S -> A) : M S A := fun s => (Ok (f s), s).
Definition modify {S} (f : S -> S) : M S unit := fun s => (Ok tt, f s).

(** A pure fallible value as a computation. *)
Definition lift {S A} (r : pyresult A) : M S A := fun s => (r, s).

Declare Scope py_scope.
Delimit Scope py_scope with py.
Notation "'let*' x ':=' m 'in' k" := (bind m (fun x => k))
  (at level 10, x name, m at level 100, k at level 200) : py_scope.
Notation "'let*' ' p ':=' m 'in' k" := (bind m (fun x => match x with p => k end))
  (at level 10, p pattern, m at level 100, k at level 200) : py_scope.
Open Scope py_scope.

(** *** Updates of the world *)

Definition set_stdin (l : list pystr) (w : World) : World :=
  {| stdin := l; llm_calls := llm_calls w; importable := importable w;
     clock := clock w; attempt_lists := attempt_lists w; trace := trace w |}.
Definition set_llm_calls (n : nat) (w : World) : World :=
  {| stdin := stdin w; llm_calls := n; importable := importable w;
     clock := clock w; attempt_lists := attempt_lists w; trace := trace w |}.
Definition set_importable (l : list pystr) (w : World) : World :=
  {| stdin := stdin w; llm_calls := llm_calls w; importable := l;
     clock := clock w; attempt_lists := attempt_lists w; trace := trace w |}.
Definition set_clock (n : nat) (w : World) : World :=
  {| stdin := stdin w; llm_calls := llm_calls w; importable := importable w;
     clock := n; attempt_lists := attempt_lists w; trace := trace w |}.
Definition set_attempt_lists (h : list (list AttemptRecord)) (w : World) : World :=
  {| stdin := stdin w; llm_calls := llm_calls w; importable := importable w;
     clock := clock w; attempt_lists := h; trace := trace w |}.
Definition log (ev : Event) (w : World) : World :=
  {| stdin := stdin w; llm_calls := llm_calls w; importable := importable w;
     clock := clock w; attempt_lists := attempt_lists w; trace := trace w ++ [ev] |}.

(** [input(...)] *)
Definition input : M World pystr :=
  fun w =>
    match stdin w with
    | [] => (Raise (py_error "EOFError" "EOF when reading a line"), w)
    | l :: rest => (Ok l, set_stdin rest w)
    end.

(** [datetime.now()] *)
Definition now : M World nat :=
  fun w => (Ok (clock w), set_clock (S (clock w)) w).

(** ** [tools_manager.py] *)

(** *** Rendering of values *)

Definition str_Z (z : Z) : pystr :=
  list_ascii_of_string (NilEmpty.string_of_int (Z.to_int z)).

(** [repr] of a string without quotes or backslashes in it. *)
Definition repr_str (s : pystr) : pystr :=
  ("'" : pystr) ++ s ++ ("'" : pystr).

(** [str] of a list of strings and of a pair of integers. *)
Definition str_list (l : list pystr) : pystr :=
  ("[" : pystr) ++ PyStr.join ", " (map repr_str l) ++ ("]" : pystr).
Definition str_shape (sh : nat * nat) : pystr :=
  ("(" : pystr) ++ PyStr.of_nat (fst sh) ++ (", " : pystr)
  ++ PyStr.of_nat (snd sh) ++ (")" : pystr).

Section Tools.
Variable rt : Runtime.

(** [str(value)], and the table [format_code_output] prints for a frame. *)
Definition str_obj (v : pyobj) : pystr :=
  match v with
  | PyModule n => ("<module " : pystr) ++ repr_str n ++ (">" : pystr)
  | PyFrame f => tabulate_head rt f
  | PyInt z => str_Z z
  | PyStr s => s
  | PyOpaque r => r
  end.

Definition repr_obj (v : pyobj) : pystr :=
  match v with
  | PyStr s => repr_str s
  | _ => str_obj v
  end.

(** [str(d)] of a dictionary of results. *)
Definition str_namespace (d : Namespace) : pystr :=
  ("{" : pystr)
  ++ PyStr.join ", "
       (map (fun kv => repr_str (fst kv) ++ (": " : pystr) ++ repr_obj (snd kv)) d)
  ++ ("}" : pystr).

(** [install_package]: [True] when pip succeeds. *)
Definition install_package (package : pystr) : M World bool :=
  fun w =>
    match pip_install rt package with
    | Some mods => (Ok true, set_importable (mods ++ importable w) w)
    | None => (Ok false, w)
    end.

(** The fallback of [extract_imports_from_code]: import lines found by
    their prefix. *)
Definition import_lines (code_snippet : pystr) : list pystr :=
  map PyStr.strip
    (List.filter
       (fun line => PyStr.startswith "import " (PyStr.strip line)
                    || PyStr.startswith "from " (PyStr.strip line))
       (PyStr.split code_snippet PyStr.nl)).

Definition imports_of_line (line : pystr) : list pystr :=
  if PyStr.startswith "import " line
  then map (fun name => item0 (PyStr.split (PyStr.strip name) "."))
           (PyStr.split (PyStr.slice_from line 7) ",")
  else
    let module :=
      PyStr.strip (PyStr.replace (item0 (PyStr.split line "import")) "from" "") in
    [item0 (PyStr.split module ".")].

(** [extract_imports_from_code].  [list(set(imports))] is rendered by
    [remove_dups]: the order Python gives the result is unspecified. *)
Definition extract_imports_from_code (code_snippet : pystr) : list pystr :=
  match ast_imports rt code_snippet with
  | Some imports => remove_dups imports
  | None => remove_dups (concat (map imports_of_line (import_lines code_snippet)))
  end.

(** [__import__(module)]: the module is loaded, or the import raises.  An
    empty name is refused with [ValueError]; a module that is not found
    gives [ModuleNotFoundError], which derives from [ImportError].  The
    names the program passes have no dot in them. *)
Definition import_module (module : pystr) (w : World) : pyresult unit :=
  match module with
  | [] => Raise (py_error "ValueError" "Empty module name")
  | _ =>
      if bool_decide (module ∈ importable w)
      then Ok tt
      else Raise (py_error "ModuleNotFoundError"
                    (("No module named " : pystr) ++ repr_str module))
  end.

(** [except ImportError] *)
Definition is_import_error (e : PyExc) : bool :=
  PyStr.eqb (exc_type e) "ImportError" || PyStr.eqb (exc_type e) "ModuleNotFoundError".

(** The first loop of [check_and_install_dependencies], lines 93 to 98: the
    modules of [required] outside the standard library whose import raises
    [ImportError].  Any other exception of an import leaves the loop. *)
Fixpoint missing_packages (required : list pystr) (w : World) : pyresult (list pystr) :=
  match required with
  | [] => Ok []
  | module :: rest =>
      if bool_decide (module ∈ stdlib_module_names rt)
      then missing_packages rest w
      else
        match import_module module w with
        | Ok _ => missing_packages rest w
        | Raise e =>
            if is_import_error e
            then match missing_packages rest w with
                 | Ok missing => Ok (module :: missing)
                 | Raise e' => Raise e'
                 | Diverged => Diverged
                 end
            else Raise e
        | Diverged => Diverged
        end
  end.

(** The installation loop of [check_and_install_dependencies]. *)
Fixpoint install_all (packages : list pystr) : M World bool :=
  match packages with
  | [] => ret true
  | package :: rest =>
      let* installed := install_package package in
      if installed
      then
        let* found := gets (fun w => bool_decide (package ∈ importable w)) in
        if found then install_all rest else ret false
      else ret false
  end.

Definition check_and_install_dependencies (code_snippet : pystr) : M World bool :=
  let required_imports := extract_imports_from_code code_snippet in
  let* missing := (fun w => (missing_packages required_imports w, w)) in
  match missing with
  | [] => ret true
  | _ =>
      let* user_input := input in
      if PyStr.eqb (PyStr.lower user_input) "yes"
      then install_all missing
      else ret false
  end.

(** [generate_forecast] *)
Definition generate_forecast (df : option Pandas.DataFrame)
    (target_column series_id_column : option pystr) : pyresult pystr :=
  match df with
  | None => Ok ("No data available for forecasting. Please analyze a dataset first." : pystr)
  | Some d => prophet_forecast rt d target_column series_id_column
  end.

(** *** [execute_code] *)

Definition data_info_of (df : Pandas.DataFrame) : DataInfo :=
  {| shape := Pandas.shape df;
     columns := Pandas.column_names df;
     dtypes := Pandas.dtypes df;
     null_counts := Pandas.null_counts df |}.

Definition at_step (step : pystr) (d : DebugInfo) : DebugInfo :=
  {| data_info := data_info d; imports_loaded := imports_loaded d;
     execution_step := step |}.

(** The namespace handed to [exec]. *)
Definition initial_locals (df : option Pandas.DataFrame) : Namespace :=
  let local_vars := [(("pd" : pystr), PyModule "pandas"); (("np" : pystr), PyModule "numpy")] in
  match df with
  | Some d => PyDict.set "df" (PyFrame d) local_vars
  | None => local_vars
  end.

(** The frame as [exec] leaves it: the object stays the caller's. *)
Definition after_exec (df : option Pandas.DataFrame) (o : ExecOutcome)
  : option Pandas.DataFrame :=
  match df, dataset_after o with
  | Some _, Some d' => Some d'
  | _, _ => df
  end.

(** The names kept in ['results']. *)
Definition returned (k : pystr) : bool :=
  negb (bool_decide (k ∈ [("df" : pystr); ("pd" : pystr); ("np" : pystr)]))
  && negb (PyStr.startswith "__" k).

(** What the [try] block of [execute_code] has done when it is left. *)
Record Attempted := {
  exit : pyresult (pystr * Namespace);
  debug_at_exit : DebugInfo;
  frame_at_exit : option Pandas.DataFrame
}.

(** Lines 260 to 264: the frame as it is bound to [df], with its [date]
    column converted, or the exception the conversion raises. *)
Definition bind_dataset (df : option Pandas.DataFrame)
  : pyresult (option Pandas.DataFrame) :=
  match df with
  | Some d =>
      if Pandas.has_column d "date"
      then match Pandas.to_datetime (parse_datetime rt) (Pandas.getitem d "date") with
           | Ok s => Ok (Some (Pandas.setitem d "date" s))
           | Raise e => Raise e
           | Diverged => Diverged
           end
      else Ok df
  | None => Ok None
  end.

(** The [try] block of [execute_code], lines 243 to 283. *)
Definition try_block (code_snippet : pystr) (df : option Pandas.DataFrame)
  : Attempted :=
  let debug_info :=
    {| data_info := option_map data_info_of df;
       imports_loaded := [];
       execution_step := "initializing" |} in
  match bind_dataset df with
  | Ok df1 =>
      let o := py_exec rt code_snippet (initial_locals df1) in
      match raised o with
      | Some e =>
          {| exit := Raise e;
             debug_at_exit := at_step "executing code" debug_info;
             frame_at_exit := after_exec df1 o |}
      | None =>
          let results :=
            List.filter (fun kv => returned (fst kv)) (final_locals o) in
          {| exit := Ok (stdout o, results);
             debug_at_exit := at_step "collecting results" debug_info;
             frame_at_exit := after_exec df1 o |}
      end
  | Raise e =>
      {| exit := Raise e; debug_at_exit := debug_info; frame_at_exit := df |}
  | Diverged =>
      {| exit := Diverged; debug_at_exit := debug_info; frame_at_exit := df |}
  end.

(** The message built by the [except] clause, lines 292 to 306. *)
Definition error_message (e : PyExc) (d : DebugInfo) : pystr :=
  ("Error executing code: " : pystr) ++ exc_msg e ++ PyStr.nl
  ++ PyStr.nl ++ ("Debug Information:" : pystr) ++ PyStr.nl
  ++ ("Error Type: " : pystr) ++ exc_type e ++ PyStr.nl
  ++ ("Last Execution Step: " : pystr) ++ execution_step d ++ PyStr.nl
  ++ match data_info d with
     | Some i =>
         PyStr.nl ++ ("DataFrame Info:" : pystr) ++ PyStr.nl
         ++ ("Shape: " : pystr) ++ str_shape (shape i) ++ PyStr.nl
         ++ ("Columns: " : pystr) ++ str_list (columns i) ++ PyStr.nl
         ++ ("Data Types:" : pystr) ++ PyStr.nl
         ++ concat (map (fun cd => ("  " : pystr) ++ fst cd ++ (": " : pystr)
                                  ++ Pandas.dtype_name (snd cd) ++ PyStr.nl)
                        (dtypes i))
         ++ ("Null Counts:" : pystr) ++ PyStr.nl
         ++ concat (map (fun cn => ("  " : pystr) ++ fst cn ++ (": " : pystr)
                                  ++ PyStr.of_nat (snd cn) ++ PyStr.nl)
                        (List.filter (fun cn => (0 <? snd cn)%nat) (null_counts i)))
     | None => []
     end.

(** Lines 231 and 232: a snippet that imports plotly gets two lines put
    in front of it. *)
Definition silence_plotly (code_snippet : pystr) : pystr :=
  if PyStr.contains "import plotly" code_snippet
  then ("import warnings" : pystr) ++ PyStr.nl
       ++ ("warnings.filterwarnings('ignore', 'Importing plotly failed')" : pystr)
       ++ PyStr.nl ++ code_snippet
  else code_snippet.

(** The [try] statement of [execute_code]: its block, and the [except]
    clause, which turns an exception that derives from [Exception] into a
    failure result.  The second component of the value is the state of the
    caller's frame afterwards. *)
Definition try_execute (code_snippet : pystr) (df : option Pandas.DataFrame)
  : M World (ExecutionResult * option Pandas.DataFrame) :=
  let a := try_block code_snippet df in
  match exit a with
  | Ok (out, res) =>
      ret ({| output := out; results := Some res; success := true;
              debug_info := Some (debug_at_exit a); error_context := None |},
           frame_at_exit a)
  | Raise e =>
      if exc_catchable e
      then
        let ctx := {| error_type := exc_type e; error_msg := exc_msg e;
                      err_debug_info := debug_at_exit a;
                      traceback := exc_traceback e |} in
        ret ({| output := error_message e (debug_at_exit a);
                results := None; success := false;
                debug_info := None; error_context := Some ctx |},
             frame_at_exit a)
      else fun w => (Raise e, w)
  | Diverged => diverge
  end.

(** [execute_code(code_snippet, df)] *)
Definition execute_code (code_snippet : pystr) (df : option Pandas.DataFrame)
  : M World (ExecutionResult * option Pandas.DataFrame) :=
  let code_snippet := silence_plotly code_snippet in
  let* satisfied := check_and_install_dependencies code_snippet in
  if negb satisfied
  then ret ({| output := "Required packages not installed. Cannot execute code.";
               results := None; success := false;
               debug_info := None; error_context := None |}, df)
  else try_execute code_snippet df.

(** [format_code_output] *)
Definition format_code_output (execution_result : ExecutionResult) : pystr :=
  let header := [PyStr.nl ++ ("=== Code Execution Results ===" : pystr)] in
  let body :=
    if success execution_result
    then
      (if PyStr.truthy (output execution_result)
       then [PyStr.nl ++ ("Output:" : pystr); output execution_result]
       else [])
      ++ match results execution_result with
         | Some ((_ :: _) as res) =>
             (PyStr.nl ++ ("Returned Variables:" : pystr))
             :: concat (map (fun kv => [PyStr.nl ++ fst kv ++ (":" : pystr);
                                        str_obj (snd kv)]) res)
         | _ => []
         end
    else [PyStr.nl ++ ("Execution Failed:" : pystr); output execution_result] in
  PyStr.join PyStr.nl (header ++ body).

End Tools.

(** ** [memory_manager.py] *)

Definition with_short_term (l : list MemoryRecord) (m : MemoryManager) : MemoryManager :=
  {| session_id := session_id m; short_term_memory := l;
     long_term_memory := long_term_memory m;
     conversation_history := conversation_history m;
     last_execution := last_execution m |}.

(** [store_dataset_info] and [store_analysis]: one record appended to the
    short-term memory, stamped with the time [t]. *)
Definition store_record (c : MemoryContent) (t : nat) (m : MemoryManager) : MemoryManager :=
  with_short_term (short_term_memory m ++ [{| content := c; stored_at := t |}]) m.

(** [store_interaction]; [t1] and [t2] are its two readings of the clock. *)
Definition store_interaction_at (t1 t2 : nat) (query response : pystr)
    (code error : option pystr) (fixes : option nat) (result : option pystr)
    (m : MemoryManager) : MemoryManager :=
  let i := {| i_timestamp := t1; i_query := query; i_response := response;
              i_code := code; i_error := error; i_fixes := fixes;
              i_result := result |} in
  {| session_id := session_id m;
     short_term_memory :=
       short_term_memory m ++ [{| content := interaction i; stored_at := t2 |}];
     long_term_memory := long_term_memory m;
     conversation_history := conversation_history m ++ [i];
     last_execution := Some i |}.

(** The ['last_analysis'] entry of [get_relevant_context]: the first
    analysis met when the short-term memory is read from its end. *)
Fixpoint first_analysis (l : list MemoryRecord) : option Analysis :=
  match l with
  | [] => None
  | r :: l' =>
      match content r with
      | analysis a => Some a
      | _ => first_analysis l'
      end
  end.

Definition last_analysis_of (m : MemoryManager) : option Analysis :=
  first_analysis (rev (short_term_memory m)).

(** ** [agent.py] *)

(** The whole state of a session: the agent object and the world around it. *)
Record State := {
  self : ForecastingAgent;
  world : World
}.

Definition on_self (f : ForecastingAgent -> ForecastingAgent) (s : State) : State :=
  {| self := f (self s); world := world s |}.
Definition on_world (f : World -> World) (s : State) : State :=
  {| self := self s; world := f (world s) |}.

(** A computation of the tools manager run inside a session. *)
Definition in_world {A} (m : M World A) : M State A :=
  fun s => let '(r, w) := m (world s) in (r, {| self := self s; world := w |}).

Definition with_memory (m : MemoryManager) (a : ForecastingAgent) : ForecastingAgent :=
  {| memory_manager := m; llm := llm a; current_data := current_data a;
     current_context := current_context a; _last_code := _last_code a;
     _last_error := _last_error a; _last_result := _last_result a |}.
Definition with_current_data (d : option Pandas.DataFrame) (a : ForecastingAgent)
  : ForecastingAgent :=
  {| memory_manager := memory_manager a; llm := llm a; current_data := d;
     current_context := current_context a; _last_code := _last_code a;
     _last_error := _last_error a; _last_result := _last_result a |}.
Definition with_last (code error result : option pystr) (a : ForecastingAgent)
  : ForecastingAgent :=
  {| memory_manager := memory_manager a; llm := llm a;
     current_data := current_data a; current_context := current_context a;
     _last_code := code; _last_error := error; _last_result := result |}.

(** What a turn hands back: a text, or the analysis dictionary that
    [process_dataset] returns. *)
Inductive Reply :=
| Text (s : pystr)
| AnalysisOut (a : Analysis).

(** *** The response parser *)

Record Parsed := {
  p_action : option pystr;
  p_code : option pystr;
  p_explanation : option pystr
}.

Definition fence : pystr := ("```python" : pystr) ++ PyStr.nl.
Definition ticks : pystr := "```".

(** [text.split(marker, 1)[1].strip()] *)
Definition after_marker (text marker : pystr) : pyresult pystr :=
  match item1 (PyStr.split1 text marker) with
  | Ok r => Ok (PyStr.strip r)
  | Raise e => Raise e
  | Diverged => Diverged
  end.

(** The code between the fences, lines 267 to 270. *)
Definition extracted_code (response_text : pystr) : option pystr :=
  let start := PyStr.find response_text fence 0 + 10 in
  let end_ := PyStr.find response_text ticks start in
  if (start >? 9) && (end_ >? start)
  then Some (PyStr.strip (PyStr.slice response_text start end_))
  else None.

(** The branch taken when the response carries the code-generation marker,
    lines 265 to 274. *)
Definition parse_code_generation (response_text : pystr) : pyresult Parsed :=
  let code := extracted_code response_text in
  if PyStr.contains "EXPLANATION:" response_text
  then match after_marker response_text "EXPLANATION:" with
       | Ok e => Ok {| p_action := Some ("CODE_GENERATION" : pystr);
                       p_code := code; p_explanation := Some e |}
       | Raise e => Raise e
       | Diverged => Diverged
       end
  else Ok {| p_action := Some ("CODE_GENERATION" : pystr);
             p_code := code; p_explanation := None |}.

(** The loop over the lines of the response, lines 276 to 280: [action] and
    [explanation] are the two variables it assigns. *)
Fixpoint parse_lines (lines : list pystr) (action explanation : option pystr)
  : pyresult (option pystr * option pystr) :=
  match lines with
  | [] => Ok (action, explanation)
  | line :: rest =>
      if PyStr.startswith "ACTION:" line
      then match after_marker line ":" with
           | Ok v => parse_lines rest (Some (PyStr.upper v)) explanation
           | Raise e => Raise e
           | Diverged => Diverged
           end
      else if PyStr.startswith "EXPLANATION:" line
      then match after_marker line ":" with
           | Ok v => parse_lines rest action (Some v)
           | Raise e => Raise e
           | Diverged => Diverged
           end
      else parse_lines rest action explanation
  end.

(** Lines 263 to 280 of [_plan_and_execute]. *)
Definition parse_response (response_text : pystr) : pyresult Parsed :=
  if PyStr.contains "ACTION: CODE_GENERATION" response_text
  then parse_code_generation response_text
  else match parse_lines (PyStr.split response_text PyStr.nl) None None with
       | Ok (action, explanation) =>
           Ok {| p_action := action; p_code := None; p_explanation := explanation |}
       | Raise e => Raise e
       | Diverged => Diverged
       end.

(** The code block of a repair response, lines 389 to 395: the new code and,
    when the text after the block has one, the new explanation. *)
Definition parse_repair (new_code : pystr) : pyresult (option (pystr * option pystr)) :=
  let start := PyStr.find new_code fence 0 in
  let end_ := PyStr.find new_code ticks (start + 10) in
  if (start >=? 0) && (end_ >? start + 10)
  then
    let code := PyStr.strip (PyStr.slice new_code (start + 10) end_) in
    let rest := PyStr.slice_from new_code end_ in
    if PyStr.contains "EXPLANATION:" rest
    then match after_marker rest "EXPLANATION:" with
         | Ok e => Ok (Some (code, Some e))
         | Raise e => Raise e
         | Diverged => Diverged
         end
    else Ok (Some (code, None))
  else Ok None.

(** How an iteration of the repair loop ends. *)
Inductive Flow :=
| Continue (code : pystr) (explanation : option pystr)
| Return (r : Reply)
| Next
| Break.

Section Agent.
Variable rt : Runtime.

(** [self.llm.invoke(prompt)] *)
Definition invoke (prompt : Prompt) : M State pystr :=
  fun s =>
    match llm (self s) with
    | None =>
        (Raise (py_error "AttributeError" "'NoneType' object has no attribute 'invoke'"), s)
    | Some model =>
        (llm_invoke rt model (llm_calls (world s)) prompt,
         on_world (set_llm_calls (S (llm_calls (world s)))) s)
    end.

(** [self.current_context.get(key)] *)
Definition context_get (key : pystr) : M State (option pystr) :=
  gets (fun s => current_context (self s) !! key).

Definition store_interaction (query response : pystr) (code error : option pystr)
    (fixes : option nat) (result : option pystr) : M State unit :=
  let* t1 := in_world now in
  let* t2 := in_world now in
  modify (on_self (fun a =>
    with_memory (store_interaction_at t1 t2 query response code error fixes result
                   (memory_manager a)) a)).

Definition store_memory (c : MemoryContent) : M State unit :=
  let* t := in_world now in
  modify (on_self (fun a => with_memory (store_record c t (memory_manager a)) a)).

(** [pd.read_csv(csv_path)] *)
Definition read_csv (csv_path : option pystr) : pyresult Pandas.DataFrame :=
  match csv_path with
  | None =>
      Raise (py_error "ValueError"
               "Invalid file path or buffer object type: <class 'NoneType'>")
  | Some path => read_csv_file rt path
  end.

(** [process_dataset] *)
Definition process_dataset (csv_path target_column series_id_column : option pystr)
  : M State Analysis :=
  let* df := lift (read_csv csv_path) in
  let* _ := store_memory (dataset_info target_column series_id_column
                            (Pandas.shape df) (Pandas.column_names df)) in
  let* a := lift (describe rt df target_column series_id_column) in
  let* _ := store_memory (analysis a) in
  ret a.

(** The attempt-history list of a turn lives in the world, so that the
    interactions that were handed the list see its later growth. *)
Definition new_attempt_history : M State nat :=
  fun s =>
    (Ok (length (attempt_lists (world s))),
     on_world (fun w => set_attempt_lists (attempt_lists w ++ [[]]) w) s).

Definition read_attempt_history (ref : nat) : M State (list AttemptRecord) :=
  gets (fun s => default [] (attempt_lists (world s) !! ref)).

Definition append_attempt (ref : nat) (a : AttemptRecord) : M State unit :=
  modify (on_world (fun w =>
    log (Recorded a)
        (set_attempt_lists (alter (fun l => l ++ [a]) ref (attempt_lists w)) w))).

(** The "Data Context" lines of the fix and repair prompts: what they read
    from the current data, or the exception that reading raises. *)
Definition data_context : M State (nat * list pystr * Pandas.dtype) :=
  let* data := gets (fun s => current_data (self s)) in
  match data with
  | None => raise (py_error "TypeError" "object of type 'NoneType' has no len()")
  | Some d =>
      match Pandas.getitem d "date" with
      | Pandas.NoColumn => raise (py_error "KeyError" "'date'")
      | Pandas.OneColumn s =>
          ret (Pandas.len d, Pandas.column_names d, Pandas.dtype_of s)
      | Pandas.ManyColumns _ =>
          raise (py_error "AttributeError" "'DataFrame' object has no attribute 'dtype'")
      end
  end.

(** The conversation history as the query prompt shows it: the last five
    interactions. *)
Definition history_entries (s : State) : list HistoryEntry :=
  let h := conversation_history (memory_manager (self s)) in
  map (fun i => {| h_query := i_query i; h_response := i_response i;
                   h_error := i_error i;
                   h_fixes := option_map
                                (fun ref => default [] (attempt_lists (world s) !! ref))
                                (i_fixes i) |})
      (drop (length h - 5) h).

(** The query prompt, lines 147 to 185. *)
Definition query_prompt (query : pystr) : M State Prompt :=
  let* last := gets (fun s => last_analysis_of (memory_manager (self s))) in
  let* history := gets history_entries in
  let* info := context_get "data_info" in
  let* csv := context_get "csv_path" in
  let* target := context_get "target_column" in
  let* sid := context_get "series_id_column" in
  ret (QueryPrompt info csv target sid last history query).

(** The execution step of the repair loop, lines 306 to 311: run the code on
    the current data and remember code, output and formatted result. *)
Definition execute_and_remember (code : pystr) : M State ExecutionResult :=
  let* data := gets (fun s => current_data (self s)) in
  let* '(result, data') := in_world (execute_code rt code data) in
  let* _ := modify (on_world (log (Executed code result))) in
  let* _ := modify (on_self (with_current_data data')) in
  let last_error :=
    if success result then str_namespace rt (default [] (results result))
    else output result in
  let* _ := modify (on_self (with_last (Some code) (Some last_error)
                               (Some (format_code_output rt result)))) in
  ret result.

Definition cancelled : Reply := Text "Code execution cancelled by user".

(** [process_query], [_plan_and_execute] and the [while True] loop of the
    latter call each other.  Each body is written over the functions it
    calls; [process_query], [plan_and_execute] and [repair_loop] below tie
    them together. *)

(** [process_query(query)], lines 98 to 193. *)
Definition process_query_body
    (plan_and_execute : pystr -> pystr -> M State Reply)
    (query : pystr) : M State Reply :=
  if PyStr.startswith "fix" (PyStr.lower query)
  then
    let* last_code := gets (fun s => _last_code (self s)) in
    let* last_result := gets (fun s => _last_result (self s)) in
    if negb (PyStr.truthy_opt last_code) || negb (PyStr.truthy_opt last_result)
    then ret (Text "No previous code execution to fix. Please run a command first.")
    else
      let fix_instructions := PyStr.strip (PyStr.slice_from query 3) in
      if negb (PyStr.truthy fix_instructions)
      then ret (Text "Please provide instructions for the fix, e.g., 'fix write results to csv'")
      else
        let* response := invoke (FixRequestPrompt last_code last_result fix_instructions) in
        plan_and_execute response query
  else
    let* model := gets (fun s => llm (self s)) in
    match model with
    | None => ret (Text "Error: LLM not initialized")
    | Some _ =>
        try_except
          (let* prompt := query_prompt query in
           let* response := invoke prompt in
           let* _ := store_interaction query response None None None None in
           plan_and_execute response query)
          (fun e => ret (Text (("Error processing query: " : pystr) ++ exc_msg e)))
    end.

(** [_plan_and_execute(llm_response, original_query)], lines 211 to 460.
    The two [hasattr] tests of line 219 always succeed, since [__init__]
    sets both attributes; the branch they guard is left out. *)
Definition plan_and_execute_body
    (plan_and_execute : pystr -> pystr -> M State Reply)
    (repair_loop : pystr -> nat -> nat -> pystr -> option pystr -> M State Flow)
    (llm_response original_query : pystr) : M State Reply :=
  try_except
    (if PyStr.startswith "fix" (PyStr.lower original_query)
     then
       let fix_instructions := PyStr.strip (PyStr.slice_from original_query 3) in
       let* last_code := gets (fun s => _last_code (self s)) in
       let* last_error := gets (fun s => _last_error (self s)) in
       let* '(rows, cols, date_dtype) := data_context in
       let* target := context_get "target_column" in
       let* sid := context_get "series_id_column" in
       let* fix_response :=
         invoke (FixRetryPrompt fix_instructions last_code last_error
                   rows cols target sid date_dtype) in
       plan_and_execute fix_response original_query
     else
       let* parsed := lift (parse_response llm_response) in
       match p_action parsed with
       | None => ret (Text "Couldn't determine appropriate action")
       | Some action =>
           if negb (PyStr.truthy action)
           then ret (Text "Couldn't determine appropriate action")
           else if PyStr.eqb action "CODE_GENERATION"
           then
             if negb (PyStr.truthy_opt (p_code parsed))
             then ret (Text "No code was generated")
             else
               let* history := new_attempt_history in
               let* flow :=
                 repair_loop original_query history 0%nat
                   (default [] (p_code parsed)) (p_explanation parsed) in
               match flow with
               | Return r => ret r
               | _ =>
                   let* r := invoke (RawPrompt original_query) in
                   ret (Text r)
               end
           else if PyStr.eqb action "FORECAST"
           then
             let* data := gets (fun s => current_data (self s)) in
             match data with
             | None => ret (Text "Please analyze a dataset first using the 'analyze' command.")
             | Some _ =>
                 let* target := context_get "target_column" in
                 let* sid := context_get "series_id_column" in
                 let* r := lift (generate_forecast rt data target sid) in
                 ret (Text r)
             end
           else if PyStr.eqb action "DATA_ANALYSIS"
           then
             let* csv := context_get "csv_path" in
             let* target := context_get "target_column" in
             let* sid := context_get "series_id_column" in
             let* a := process_dataset csv target sid in
             ret (AnalysisOut a)
           else if PyStr.eqb action "CODE_EXECUTION"
           then
             let* data := gets (fun s => current_data (self s)) in
             match data with
             | None => ret (Text "Please analyze a dataset first using the 'analyze' command.")
             | Some _ =>
                 let* user_input := in_world input in
                 if PyStr.eqb (PyStr.lower user_input) "yes"
                 then
                   (* the explanation is what gets executed; when there is
                      none, the test for a plotly import raises *)
                   match p_explanation parsed with
                   | None =>
                       raise (py_error "TypeError"
                                "argument of type 'NoneType' is not iterable")
                   | Some snippet =>
                       let* '(result, data') :=
                         in_world (execute_code rt snippet data) in
                       let* _ := modify (on_world (log (Executed snippet result))) in
                       let* _ := modify (on_self (with_current_data data')) in
                       ret (Text (format_code_output rt result))
                   end
                 else ret (Text "Code execution cancelled.")
             end
           else
             let* r := invoke (RawPrompt original_query) in
             ret (Text r)
       end)
    (fun e => ret (Text (("Error executing action: " : pystr) ++ exc_msg e))).

(** One iteration of the [while True] loop, lines 291 to 423, with the
    variables of the loop as arguments: the attempt history (a reference),
    the attempt counter, the code and its explanation.  The error analysis
    and the proposed fixes of a repair response are only printed (lines 379
    to 386); the splits that extract them are guarded and cannot raise. *)
Definition repair_loop_body
    (repair_loop : pystr -> nat -> nat -> pystr -> option pystr -> M State Flow)
    (process_query : pystr -> M State Reply)
    (original_query : pystr) (history : nat)
    (attempt : nat) (code : pystr) (explanation : option pystr) : M State Flow :=
  let attempt := S attempt in
  let* user_input := in_world input in
  let user_input := PyStr.lower user_input in
  if PyStr.eqb user_input "quit"
  then ret (Return cancelled)
  else if negb (PyStr.eqb user_input "yes")
  then repair_loop original_query history attempt code explanation
  else
    let* result := execute_and_remember code in
    if success result
    then ret (Return (Text (format_code_output rt result)))
    else
      let* _ := append_attempt history
                  {| attempt_number := attempt; attempt_code := code;
                     attempt_error := output result;
                     attempt_debug_info := debug_info result;
                     attempt_error_context := error_context result |} in
      let* '(rows, cols, date_dtype) := data_context in
      let* target := context_get "target_column" in
      let* sid := context_get "series_id_column" in
      let* attempts := read_attempt_history history in
      let* fix_response :=
        invoke (RepairPrompt (output result) code rows cols target sid date_dtype
                  (map (fun a => (attempt_number a, attempt_error a)) attempts)) in
      let* flow :=
        try_except
          (let* found := lift (parse_repair fix_response) in
           match found with
           | Some (code', explanation') =>
               ret (Continue code'
                      (match explanation' with
                       | Some e => Some e
                       | None => explanation
                       end))
           | None =>
               let* choice := in_world input in
               if PyStr.eqb choice "2"
               then
                 let* r := process_query original_query in
                 ret (Return r)
               else if PyStr.eqb choice "3"
               then ret (Return cancelled)
               else ret Next
           end)
          (fun e =>
             let* user_input := in_world input in
             if negb (PyStr.eqb (PyStr.lower user_input) "yes")
             then ret Break
             else ret Next) in
      match flow with
      | Continue code' explanation' =>
          repair_loop original_query history attempt code' explanation'
      | Next =>
          let* _ := store_interaction original_query fix_response (Some code)
                      (Some (output result)) (Some history) None in
          repair_loop original_query history attempt code explanation
      | other => ret other
      end.

(** A call that costs one unit of fuel. *)
Definition call {A} (fuel : nat) (f : nat -> M State A) : M State A :=
  match fuel with
  | O => diverge
  | S fuel' => f fuel'
  end.

(** The three functions.  [fuel] bounds the depth of the calls between them
    and the number of iterations of the loop; a computation that needs more
    ends as [Diverged].  No path that returns before its first call or
    iteration needs fuel.  Python's own recursion limit is not modelled. *)
Fixpoint process_query (fuel : nat) (query : pystr) {struct fuel} : M State Reply :=
  process_query_body
    (fun response query' =>
       call fuel (fun fuel' => plan_and_execute fuel' response query'))
    query

with plan_and_execute (fuel : nat) (llm_response original_query : pystr)
       {struct fuel} : M State Reply :=
  plan_and_execute_body
    (fun response query' =>
       call fuel (fun fuel' => plan_and_execute fuel' response query'))
    (fun query' history attempt code explanation =>
       call fuel (fun fuel' =>
         repair_loop fuel' query' history attempt code explanation))
    llm_response original_query

with repair_loop (fuel : nat) (original_query : pystr) (history : nat)
       (attempt : nat) (code : pystr) (explanation : option pystr)
       {struct fuel} : M State Flow :=
  repair_loop_body
    (fun query' history' attempt' code' explanation' =>
       call fuel (fun fuel' =>
         repair_loop fuel' query' history' attempt' code' explanation'))
    (fun query' => call fuel (fun fuel' => process_query fuel' query'))
    original_query history attempt code explanation.

End Agent.

(** ** A concrete runtime for the examples

    The examples below run the program on an interpreter that knows a handful
    of snippets, a parser of ISO dates, no pip, an empty disk and a scripted
    language model.  On the inputs used it behaves as Python and pandas do. *)
Module Sample.

Definition digit (c : ascii) : option Z :=
  let n := Z.of_nat (nat_of_ascii c) in
  if (48 <=? n) && (n <=? 57) then Some (n - 48) else None.

Fixpoint number (s : pystr) (acc : Z) : option Z :=
  match s with
  | [] => Some acc
  | c :: s' =>
      match digit c with
      | Some d => number s' (10 * acc + d)
      | None => None
      end
  end.

(** Days from 1970-01-01 to the given day of the proleptic Gregorian
    calendar. *)
Definition days_from_civil (y m d : Z) : Z :=
  let y := if m <=? 2 then y - 1 else y in
  let era := y / 400 in
  let yoe := y - era * 400 in
  let doy := (153 * (if 2 <? m then m - 3 else m + 9) + 2) / 5 + d - 1 in
  let doe := yoe * 365 + yoe / 4 - yoe / 100 + doy in
  era * 146097 + doe - 719468.

(** [YYYY-MM-DD] to nanoseconds since the epoch; the empty string reads as
    a missing value; anything else is refused. *)
Definition iso_date (s : pystr) : pyresult (option Z) :=
  match s with
  | [] => Ok None
  | _ =>
      match number (take 4 s) 0, number (take 2 (drop 5 s)) 0,
            number (take 2 (drop 8 s)) 0 with
      | Some y, Some m, Some d =>
          if (length s =? 10)%nat
             && PyStr.eqb (take 1 (drop 4 s)) "-"
             && PyStr.eqb (take 1 (drop 7 s)) "-"
             && (1 <=? m) && (m <=? 12) && (1 <=? d) && (d <=? 31)
          then Ok (Some (days_from_civil y m d * 86400000000000))
          else Raise (py_error "ValueError"
                        (("Unknown datetime string format, unable to parse: " : pystr) ++ s))
      | _, _, _ =>
          Raise (py_error "ValueError"
                   (("Unknown datetime string format, unable to parse: " : pystr) ++ s))
      end
  end.

Definition system_exit : PyExc :=
  {| exc_type := "SystemExit"; exc_msg := "1"; exc_catchable := false;
     exc_traceback := [] |}.

Definition sum_ints (l : list Pandas.cell) : Z :=
  fold_right (fun c acc => match c with Pandas.Int z => z + acc | _ => acc end) 0 l.

Definition bound_frame (ns : Namespace) : option Pandas.DataFrame :=
  match PyDict.get "df" ns with
  | Some (PyFrame d) => Some d
  | _ => None
  end.

Definition finished (out : pystr) (ns : Namespace) : ExecOutcome :=
  {| raised := None; stdout := out; final_locals := ns;
     dataset_after := bound_frame ns |}.

Definition failed (e : PyExc) (ns : Namespace) : ExecOutcome :=
  {| raised := Some e; stdout := []; final_locals := ns;
     dataset_after := bound_frame ns |}.

(** The snippets the sample interpreter knows. *)
Definition exec (code : pystr) (ns : Namespace) : ExecOutcome :=
  if PyStr.eqb code "raise ValueError('boom')"
  then failed (py_error "ValueError" "boom") ns
  else if PyStr.eqb code "sys.exit(1)"
  then failed system_exit ns
  else if PyStr.eqb code "df.head()"
  then match bound_frame ns with
       | Some _ => finished [] ns
       | None => failed (py_error "NameError" "name 'df' is not defined") ns
       end
  else if PyStr.eqb code "result = df['value'].sum()"
  then match bound_frame ns with
       | Some d =>
           match Pandas.getitem d "value" with
           | Pandas.OneColumn s =>
               finished [] (PyDict.set "result" (PyInt (sum_ints (Pandas.values s))) ns)
           | _ => failed (py_error "KeyError" "'value'") ns
           end
       | None => failed (py_error "NameError" "name 'df' is not defined") ns
       end
  else failed (py_error "SyntaxError" "invalid syntax") ns.

Definition runtime (oracle : nat -> Prompt -> pyresult pystr) : Runtime :=
  {| py_exec := exec;
     parse_datetime := iso_date;
     ast_imports := fun code =>
       if PyStr.contains "import" code then None else Some [];
     stdlib_module_names := [("sys" : pystr); ("os" : pystr); ("json" : pystr)];
     pip_install := fun _ => None;
     read_csv_file := fun path =>
       Raise (py_error "FileNotFoundError"
                (("[Errno 2] No such file or directory: " : pystr) ++ repr_str path));
     describe := fun _ _ _ => Ok {| analysis_text := "analysis" |};
     prophet_forecast := fun _ _ _ => Ok ("=== Forecasting Results ===" : pystr);
     tabulate_head := fun _ => "<table>";
     llm_invoke := fun _ n p => oracle n p |}.

(** A frame as [read_csv] gives it: dates are still strings. *)
Definition sales : Pandas.DataFrame :=
  {| Pandas.index_len := 3;
     Pandas.columns :=
       [ {| Pandas.name := "date"; Pandas.dtype_of := Pandas.object_;
            Pandas.values := [Pandas.Str "2024-01-01"; Pandas.Str "2024-01-02";
                              Pandas.Str "2024-01-03"] |};
         {| Pandas.name := "value"; Pandas.dtype_of := Pandas.int64;
            Pandas.values := [Pandas.Int 1; Pandas.Int 2; Pandas.Int 3] |};
         {| Pandas.name := "series"; Pandas.dtype_of := Pandas.object_;
            Pandas.values := [Pandas.Str "a"; Pandas.Str "b"; Pandas.Str "c"] |} ] |}.

(** The same frame once its dates have been converted. *)
Definition dated : Pandas.DataFrame :=
  {| Pandas.index_len := 3;
     Pandas.columns :=
       [ {| Pandas.name := "date"; Pandas.dtype_of := Pandas.datetime64;
            Pandas.values := [Pandas.Timestamp 1704067200000000000;
                              Pandas.Timestamp 1704153600000000000;
                              Pandas.Timestamp 1704240000000000000] |};
         {| Pandas.name := "value"; Pandas.dtype_of := Pandas.int64;
            Pandas.values := [Pandas.Int 1; Pandas.Int 2; Pandas.Int 3] |};
         {| Pandas.name := "series"; Pandas.dtype_of := Pandas.object_;
            Pandas.values := [Pandas.Str "a"; Pandas.Str "b"; Pandas.Str "c"] |} ] |}.

(** A frame whose date column cannot be read as dates. *)
Definition undated : Pandas.DataFrame :=
  {| Pandas.index_len := 1;
     Pandas.columns :=
       [ {| Pandas.name := "date"; Pandas.dtype_of := Pandas.object_;
            Pandas.values := [Pandas.Str "soon"] |} ] |}.

Definition quiet_world (lines : list pystr) : World :=
  {| stdin := lines; llm_calls := 0; importable := []; clock := 0;
     attempt_lists := []; trace := [] |}.

Definition fresh_memory : MemoryManager :=
  {| session_id := 0; short_term_memory := []; long_term_memory := [];
     conversation_history := []; last_execution := None |}.

(** The agent after [initialize], before any dataset is analysed. *)
Definition fresh_agent : ForecastingAgent :=
  {| memory_manager := fresh_memory; llm := Some ("llama2" : pystr);
     current_data := None; current_context := ∅;
     _last_code := None; _last_error := None; _last_result := None |}.

(** The agent after [analyze sales.csv value series]. *)
Definition loaded_agent : ForecastingAgent :=
  {| memory_manager := fresh_memory; llm := Some ("llama2" : pystr);
     current_data := Some sales;
     current_context :=
       <[("csv_path" : pystr) := ("sales.csv" : pystr)]>
         (<[("target_column" : pystr) := ("value" : pystr)]>
            (<[("series_id_column" : pystr) := ("series" : pystr)]> ∅));
     _last_code := None; _last_error := None; _last_result := None |}.

Definition session (a : ForecastingAgent) (lines : list pystr) : State :=
  {| self := a; world := quiet_world lines |}.

(** The agent after a turn that ran generated code without a dataset. *)
Definition coded_agent : ForecastingAgent :=
  with_last (Some ("x = 1" : pystr)) (Some ("{'x': 1}" : pystr))
    (Some ("=== Code Execution Results ===" : pystr)) fresh_agent.

(** A language model that is not asked anything in the example at hand. *)
Definition mute : nat -> Prompt -> pyresult pystr :=
  fun _ _ => Ok ([] : pystr).

(** Responses of the language model. *)
Definition closed_block : pystr :=
  "ACTION: CODE_GENERATION
CODE:
```python
raise ValueError('boom')
```
EXPLANATION: fails".



Definition two_actions : pystr :=
  "ACTION: forecast
EXPLANATION: the user wants a forecast
ACTION: general
EXPLANATION: on second thought".

(** A repair response with a working snippet. *)
Definition repaired : pystr :=
  "ERROR ANALYSIS: the snippet raised
PROPOSED FIXES: sum the column
CODE:
```python
result = df['value'].sum()
```
EXPLANATION: sums the values".

End Sample.

(** ** Notions used in the statements *)

(** [sub] occurs in [s] at index [i]. *)
Definition occurs_at (sub s : pystr) (i : nat) : Prop :=
  PyStr.startswith sub (drop i s) = true.

(** [i] is the first index at or after [from] where [sub] occurs in [s]. *)
Definition first_at (sub s : pystr) (from i : nat) : Prop :=
  (from <= i)%nat /\ occurs_at sub s i
  /\ forall j, (from <= j < i)%nat -> ~ occurs_at sub s j.


(** The diagnostic bundle of a failure result: the data frame description
    kept under [error_context], [debug_info], [data_info]. *)
Definition bundle (r : ExecutionResult) : option DataInfo :=
  match error_context r with
  | Some c => data_info (err_debug_info c)
  | None => None
  end.

(** The snippet leaves the frame bound to [df] as it found it. *)
Definition frame_untouched (rt : Runtime) (code : pystr) : Prop :=
  forall ns d, PyDict.get "df" ns = Some (PyFrame d) ->
    dataset_after (py_exec rt (silence_plotly code) ns) = Some d.


(** The attempt record the loop appends for a failed result. *)
Definition records (a : AttemptRecord) (code : pystr) (r : ExecutionResult) : Prop :=
  attempt_code a = code /\ attempt_error a = output r
  /\ attempt_debug_info a = debug_info r
  /\ attempt_error_context a = error_context r.

(** The shape of the events of a run.  A successful execution is the last
    event, and [done r res] holds of its result [r] and of the outcome [res]
    of the run; a failed execution is followed by the rest of the run, with
    or without the attempt record that describes it in between.  An attempt
    record occurs nowhere else. *)
Inductive run_trace {A} (done : ExecutionResult -> pyresult A -> Prop)
  : list Event -> pyresult A -> Prop :=
| run_nil res : run_trace done [] res
| run_succeeded code r res :
    success r = true -> done r res ->
    run_trace done [Executed code r] res
| run_failed code r evs res :
    success r = false ->
    run_trace done evs res ->
    run_trace done (Executed code r :: evs) res
| run_recorded code r a evs res :
    success r = false -> records a code r ->
    run_trace done evs res ->
    run_trace done (Executed code r :: Recorded a :: evs) res.

(** What is asked of the events [evs] of a run with outcome [res]:
    an attempt record comes right after a failed execution, which it
    describes; a successful execution is the last event, and [done] holds of
    its result and the outcome. *)
Definition orderly {A} (done : ExecutionResult -> pyresult A -> Prop)
    (evs : list Event) (res : pyresult A) : Prop :=
  (forall before a after, evs = before ++ Recorded a :: after ->
     exists before' code r,
       before = before' ++ [Executed code r]
       /\ success r = false /\ records a code r)
  /\ (forall before code r after, evs = before ++ Executed code r :: after ->
        success r = true -> after = [] /\ done r res).

(** A computation extends the trace by events that satisfy [Q] together with
    its outcome. *)
Definition emits {A} (m : M State A) (Q : list Event -> pyresult A -> Prop) : Prop :=
  forall s, exists evs,
    trace (world (snd (m s))) = trace (world s) ++ evs /\ Q evs (fst (m s)).

(** A postcondition that accepts a failure before any event. *)
Definition quiet_fail {A} (Q : list Event -> pyresult A -> Prop) : Prop :=
  (forall e, Q [] (Raise e)) /\ Q [] Diverged.

(** What a turn, and what an iteration of the repair loop, hands back right
    after a successful execution: the formatted result. *)
Definition reply_done (rt : Runtime) (r : ExecutionResult) (res : pyresult Reply) : Prop :=
  res = Ok (Text (format_code_output rt r)).
Definition flow_done (rt : Runtime) (r : ExecutionResult) (res : pyresult Flow) : Prop :=
  res = Ok (Return (Text (format_code_output rt r))).

(** A computation leaves the trace alone. *)
Definition silent {A} (m : M State A) : Prop :=
  forall s, trace (world (snd (m s))) = trace (world s).
Definition silent_in_world {A} (m : M World A) : Prop :=
  forall w, trace (snd (m w)) = trace w.

(** ** [ollama_manager.py], [ForecastingAgent.initialize] and [main.py] *)

(** *** More of Python *)

(** [s.split()], for an ASCII [s]: the maximal runs of characters that are
    not white space. *)
Fixpoint words_go (s cur : pystr) : list pystr :=
  match s with
  | [] => match cur with [] => [] | _ => [rev cur] end
  | c :: s' =>
      if PyStr.isspace c
      then match cur with
           | [] => words_go s' []
           | _ => rev cur :: words_go s' []
           end
      else words_go s' (c :: cur)
  end.

Definition words (s : pystr) : list pystr := words_go s [].

Definition digit_value (c : ascii) : option Z :=
  let n := Z.of_nat (nat_of_ascii c) in
  if (48 <=? n) && (n <=? 57) then Some (n - 48) else None.

(** The digits of an integer literal: at least one digit, and single
    underscores between digits only.  [after_digit] says whether the
    character before was a digit. *)
Fixpoint int_digits (s : pystr) (acc : Z) (after_digit : bool) : option Z :=
  match s with
  | [] => if after_digit then Some acc else None
  | c :: s' =>
      match digit_value c with
      | Some d => int_digits s' (10 * acc + d) true
      | None =>
          if Ascii.eqb c "_" && after_digit
          then int_digits s' acc false
          else None
      end
  end.

(** [int(s)] for a string: blanks around, an optional sign, digits. *)
Definition py_int (s : pystr) : pyresult Z :=
  let t := PyStr.strip s in
  let signed :=
    match t with
    | c :: rest =>
        if Ascii.eqb c "-" then (true, rest)
        else if Ascii.eqb c "+" then (false, rest)
        else (false, t)
    | [] => (false, t)
    end in
  match int_digits (snd signed) 0 false with
  | Some n => Ok (if fst signed then - n else n)
  | None =>
      Raise (py_error "ValueError"
               (("invalid literal for int() with base 10: " : pystr) ++ repr_str s))
  end.

(** [l[i]]: negative indices count from the end. *)
Definition py_index {A} (l : list A) (i : Z) : pyresult A :=
  let j := if i <? 0 then i + Z.of_nat (length l) else i in
  if (0 <=? j) && (j <? Z.of_nat (length l))
  then match l !! Z.to_nat j with
       | Some x => Ok x
       | None => Raise (py_error "IndexError" "list index out of range")
       end
  else Raise (py_error "IndexError" "list index out of range").

(** *** The host of a session *)

(** One pass through the [try] block of [get_available_models]: the model
    names the service lists, a [RequestException] (no connection, a time-out,
    an HTTP error status, a body that is not JSON), or any other exception
    (a [KeyError] for an answer without the expected keys). *)
Inductive Fetch :=
| Listed (names : list pystr)
| RequestFailed (e : PyExc)
| Broken (e : PyExc).

(** What the program meets outside the agent and its runtime.
    - [service n]: what request number [n] to the Ollama service gives.
    - [write_memory]: [os.makedirs], [open] and [json.dump] of
      [save_to_disk], for a session identifier and the two memories.
    - [render_analysis]: [format_analysis_output], which formats the
      statistics with tabulate. *)
Record Host := {
  service : nat -> Fetch;
  write_memory : nat -> list MemoryRecord -> list MemoryRecord -> pyresult unit;
  render_analysis : Analysis -> pyresult pystr
}.

(** The state of the whole process: the session, the requests sent to the
    service, the seconds slept between them, and the memory files written
    (session identifier, short-term and long-term memory). *)
Record Process := {
  session : State;
  requests : nat;
  slept : Z;
  written : list (nat * list MemoryRecord * list MemoryRecord)
}.

Definition on_session (f : State -> State) (p : Process) : Process :=
  {| session := f (session p); requests := requests p; slept := slept p;
     written := written p |}.

(** A computation of the agent run inside the process. *)
Definition in_session {A} (m : M State A) : M Process A :=
  fun p => let '(r, s) := m (session p) in
           (r, {| session := s; requests := requests p; slept := slept p;
                  written := written p |}).

Section Startup.
Variable rt : Runtime.
Variable host : Host.

(** [requests.get(...)], [raise_for_status()] and the reading of the names. *)
Definition fetch_models : M Process Fetch :=
  fun p => (Ok (service host (requests p)),
            {| session := session p; requests := S (requests p);
               slept := slept p; written := written p |}).

(** [time.sleep(seconds)] *)
Definition sleep (seconds : Z) : M Process unit :=
  fun p =>
    if seconds <? 0
    then (Raise (py_error "ValueError" "sleep length must be non-negative"), p)
    else (Ok tt, {| session := session p; requests := requests p;
                    slept := slept p + seconds; written := written p |}).

Definition fallback_models : list pystr := [("llama2" : pystr); ("codellama" : pystr)].

(** The [for attempt in range(max_retries)] loop of [get_available_models];
    [remaining] counts the iterations left.  Falling out of the loop, the
    function returns [None]. *)
Fixpoint get_models_from (remaining : nat) (attempt max_retries retry_delay : Z)
  : M Process (option (list pystr)) :=
  match remaining with
  | O => ret None
  | S remaining' =>
      let* answer := fetch_models in
      match answer with
      | Listed names => ret (Some names)
      | RequestFailed e =>
          if attempt =? max_retries - 1
          then ret (Some fallback_models)
          else
            let* _ := sleep retry_delay in
            get_models_from remaining' (attempt + 1) max_retries retry_delay
      | Broken e => raise e
      end
  end.

(** [get_available_models(max_retries, retry_delay)] *)
Definition get_available_models (max_retries retry_delay : Z)
  : M Process (option (list pystr)) :=
  get_models_from (Z.to_nat max_retries) 0 max_retries retry_delay.

(** [initialize_llm(model_name)]: the model is handed back once the test
    invocation has answered; any exception is raised again. *)
Definition initialize_llm (model_name : pystr) : M State pystr :=
  fun s =>
    match llm_invoke rt model_name (llm_calls (world s)) (RawPrompt "test") with
    | Ok _ => (Ok model_name, on_world (set_llm_calls (S (llm_calls (world s)))) s)
    | Raise e => (Raise e, on_world (set_llm_calls (S (llm_calls (world s)))) s)
    | Diverged => (Diverged, on_world (set_llm_calls (S (llm_calls (world s)))) s)
    end.

Definition with_llm (model : option pystr) (a : ForecastingAgent) : ForecastingAgent :=
  {| memory_manager := memory_manager a; llm := model;
     current_data := current_data a; current_context := current_context a;
     _last_code := _last_code a; _last_error := _last_error a;
     _last_result := _last_result a |}.

(** [ForecastingAgent.initialize], with the default arguments of
    [get_available_models]. *)
Definition initialize : M Process unit :=
  let* models := get_available_models 3 1 in
  match models with
  | None =>
      (* [enumerate(models)] in the loop that prints the list *)
      raise (py_error "TypeError" "'NoneType' object is not iterable")
  | Some l =>
      let* answer := in_session (in_world input) in
      let* number := lift (py_int answer) in
      let* model_name := lift (py_index l (number - 1)) in
      let* handle := in_session (initialize_llm model_name) in
      in_session (modify (on_self (with_llm (Some handle))))
  end.

(** [save_session], that is [MemoryManager.save_to_disk]. *)
Definition save_session : M Process unit :=
  fun p =>
    let m := memory_manager (self (session p)) in
    match write_memory host (session_id m) (short_term_memory m) (long_term_memory m) with
    | Ok _ =>
        (Ok tt, {| session := session p; requests := requests p; slept := slept p;
                   written := written p ++ [(session_id m, short_term_memory m,
                                             long_term_memory m)] |})
    | Raise e => (Raise e, p)
    | Diverged => (Diverged, p)
    end.

(** *** The command loop of [main.py] *)

Definition help_text : list pystr :=
  [ PyStr.nl ++ ("Available commands:" : pystr);
    ("analyze <csv_path> <target_column> <series_id_column> - Analyze a new dataset" : pystr);
    ("help - Show this help message" : pystr);
    ("/bye - Exit the program" : pystr);
    ("You can also ask general questions about the data or request forecasts!" : pystr) ].

Definition usage : pystr :=
  "Usage: analyze <csv_path> <target_column> <series_id_column>".

(** [print(response)] of what [process_query] returned. *)
Definition str_reply (r : Reply) : pystr :=
  match r with
  | Text s => s
  | AnalysisOut a => analysis_text a
  end.

Definition with_dataset (df : Pandas.DataFrame) (context : gmap pystr pystr)
    (a : ForecastingAgent) : ForecastingAgent :=
  {| memory_manager := memory_manager a; llm := llm a;
     current_data := Some df; current_context := context;
     _last_code := _last_code a; _last_error := _last_error a;
     _last_result := _last_result a |}.

(** The context [main] builds for an analysed file, lines 59 to 64. *)
Definition analysis_context (csv_path target_column series_id_column : pystr)
    (df : Pandas.DataFrame) : gmap pystr pystr :=
  <[("csv_path" : pystr) := csv_path]>
    (<[("target_column" : pystr) := target_column]>
       (<[("series_id_column" : pystr) := series_id_column]>
          (<[("data_info" : pystr) :=
               ("CSV with " : pystr) ++ PyStr.of_nat (Pandas.len df)
               ++ (" rows, columns: " : pystr)
               ++ PyStr.join ", " (Pandas.column_names df)]> ∅))).

(** How an iteration of the command loop ends, with the lines [main] has
    printed in it. *)
Inductive Turn :=
| Again (printed : list pystr)
| Bye (printed : list pystr).

(** The [analyze] command, lines 51 to 66. *)
Definition analyze (command : pystr) : M Process Turn :=
  match words command with
  | [_; csv_path; target_column; series_id_column] =>
      let* df := lift (read_csv rt (Some csv_path)) in
      let* _ := in_session (modify (on_self
                  (with_dataset df (analysis_context csv_path target_column
                                      series_id_column df)))) in
      let* a := in_session (process_dataset rt (Some csv_path) (Some target_column)
                              (Some series_id_column)) in
      let* text := lift (render_analysis host a) in
      ret (Again [text])
  | _ => ret (Again [usage])
  end.

(** One iteration of the [while True] loop of [main], lines 41 to 74.
    [fuel] is the fuel given to [process_query]. *)
Definition main_turn (fuel : nat) : M Process Turn :=
  try_except
    (let* line := in_session (in_world input) in
     let command := PyStr.strip line in
     if PyStr.eqb command "/bye"
     then
       let* _ := save_session in
       ret (Bye [("Session saved. Goodbye!" : pystr)])
     else if PyStr.eqb command "help"
     then ret (Again help_text)
     else if PyStr.startswith "analyze" command
     then analyze command
     else
       let* response := in_session (process_query rt fuel command) in
       ret (Again [PyStr.nl ++ ("Agent Response:" : pystr); str_reply response]))
    (fun e => ret (Again [("Error: " : pystr) ++ exc_msg e])).

(** The loop: the lines printed until [/bye].  [fuel] bounds the number of
    iterations as well. *)
Fixpoint main_loop (fuel : nat) : M Process (list pystr) :=
  match fuel with
  | O => diverge
  | S fuel' =>
      let* t := main_turn fuel in
      match t with
      | Bye printed => ret printed
      | Again printed =>
          let* rest := main_loop fuel' in
          ret (printed ++ rest)
      end
  end.

(** [main()]: the agent is initialised outside the [try] of the loop. *)
Definition main (fuel : nat) : M Process (list pystr) :=
  let* _ := initialize in
  let* printed := main_loop fuel in
  ret ((PyStr.nl ++ ("Forecast Agent initialized. Type 'help' for available commands." : pystr))
       :: printed).

End Startup.

(** ** More material for the examples *)
Module Bench.

(** Three more snippets that only read [df]: one looks up a column, one
    mentions plotly in a comment, one guards an import of its own. *)
Definition missing_column : pystr := "df['price']".

Definition plotly_comment : pystr :=
  "# import plotly
df.head()".

Definition guarded_import : pystr :=
  "try:
    import seaborn
except ImportError:
    pass
df.head()".

(** The sample interpreter with these snippets, in an installation without
    seaborn. *)
Definition exec (code : pystr) (ns : Namespace) : ExecOutcome :=
  if PyStr.eqb code missing_column
  then match Sample.bound_frame ns with
       | Some d =>
           if Pandas.has_column d "price"
           then Sample.finished [] ns
           else Sample.failed (py_error "KeyError" "'price'") ns
       | None => Sample.failed (py_error "NameError" "name 'df' is not defined") ns
       end
  else if PyStr.eqb code plotly_comment || PyStr.eqb code guarded_import
  then Sample.exec "df.head()" ns
  else if PyStr.eqb code (silence_plotly plotly_comment)
  then Sample.exec "df.head()" (PyDict.set "warnings" (PyModule "warnings") ns)
  else Sample.exec code ns.

(** What [ast.parse] and the walk over the tree report for them. *)
Definition parsed_imports (base : pystr -> option (list pystr)) (code : pystr)
  : option (list pystr) :=
  if PyStr.eqb code plotly_comment then Some []
  else if PyStr.eqb code (silence_plotly plotly_comment) then Some [("warnings" : pystr)]
  else if PyStr.eqb code guarded_import then Some [("seaborn" : pystr)]
  else base code.

(** The sample runtime with a package index and a file: pip installs what it
    is asked for, and the package gives a module of the same name, except
    that of [broken], which cannot be installed; [sales.csv] holds the sample
    frame; and the analysis raises [KeyError] for a target column the frame
    does not have. *)
Definition runtime (broken : pystr) (oracle : nat -> Prompt -> pyresult pystr)
  : Runtime :=
  let base := Sample.runtime oracle in
  {| py_exec := exec;
     parse_datetime := parse_datetime base;
     ast_imports := parsed_imports (ast_imports base);
     stdlib_module_names := ("warnings" : pystr) :: stdlib_module_names base;
     pip_install := fun package =>
       if PyStr.eqb package broken then None else Some [package];
     read_csv_file := fun path =>
       if PyStr.eqb path "sales.csv" then Ok Sample.sales else read_csv_file base path;
     describe := fun df target sid =>
       if Pandas.has_column df (default [] target)
       then describe base df target sid
       else Raise (py_error "KeyError" (repr_str (default [] target)));
     prophet_forecast := prophet_forecast base;
     tabulate_head := tabulate_head base;
     llm_invoke := llm_invoke base |}.

(** A service that is down for the first [n] requests. *)
Definition down_for (n : nat) (names : list pystr) : nat -> Fetch :=
  fun k => if (k <? n)%nat
           then RequestFailed (py_error "ConnectionError" "Connection refused")
           else Listed names.

Definition host (service : nat -> Fetch) : Host :=
  {| service := service;
     write_memory := fun _ _ _ => Ok tt;
     render_analysis := fun a => Ok (analysis_text a) |}.

Definition process (s : State) : Process :=
  {| session := s; requests := 0; slept := 0; written := [] |}.

(** The agent before [initialize]. *)
Definition new_agent : ForecastingAgent :=
  {| memory_manager := Sample.fresh_memory; llm := None;
     current_data := None; current_context := ∅;
     _last_code := None; _last_error := None; _last_result := None |}.

End Bench.

(** ** Notions used in the further statements *)

(** Every run of [m] takes a state to one that is [R]-related to it. *)
Definition keeps {A} (R : State -> State -> Prop) (m : M State A) : Prop :=
  forall s, R s (snd (m s)).

(** What a turn may do to the agent: the memories are appended to, and the
    model, the context, the session identifier and the long-term memory stay
    as they are. *)
Definition settled (a a' : ForecastingAgent) : Prop :=
  llm a' = llm a
  /\ current_context a' = current_context a
  /\ session_id (memory_manager a') = session_id (memory_manager a)
  /\ long_term_memory (memory_manager a') = long_term_memory (memory_manager a)
  /\ short_term_memory (memory_manager a) `prefix_of` short_term_memory (memory_manager a')
  /\ conversation_history (memory_manager a)
     `prefix_of` conversation_history (memory_manager a').

(** [last_execution] is the latest entry of the conversation history. *)
Definition latest_recorded (m : MemoryManager) : Prop :=
  last_execution m = last (conversation_history m).

(** * Properties *)

(** ** Text functions *)
Section Text.
Import PyStr.

Lemma startswith_spec (p s : pystr) :
  startswith p s = true <-> exists r, s = p ++ r.
Proof.
  revert s. induction p as [|a p IH]; intros s; simpl.
  - split; [intros _; exists s; reflexivity | reflexivity].
  - destruct s as [|b s].
    + split; [discriminate | intros [r Hr]; discriminate].
    + rewrite andb_true_iff, Ascii.eqb_eq, IH. split.
      * intros [-> [r ->]]. exists r. reflexivity.
      * intros [r Hr]. injection Hr as -> ->. split; [reflexivity | exists r; reflexivity].
Qed.

Lemma startswith_app (p r : pystr) : startswith p (p ++ r) = true.
Proof. apply startswith_spec. exists r. reflexivity. Qed.

Lemma startswith_nil (p : pystr) : p <> [] -> startswith p [] = false.
Proof. destruct p; [congruence | reflexivity]. Qed.

(** [find_at] returns the first occurrence. *)
Lemma find_at_Some (sub s : pystr) (i k : nat) :
  find_at sub s i = Some k <->
  (i <= k)%nat /\ occurs_at sub s (k - i)
  /\ forall j, (j < k - i)%nat -> ~ occurs_at sub s j.
Proof.
  unfold occurs_at. revert i k.
  induction s as [|c s IH]; intros i k; simpl.
  - destruct (startswith sub []) eqn:E.
    + split.
      * intros [= <-]. replace (i - i)%nat with 0%nat by lia.
        split; [lia | split; [exact E | intros j Hj; lia]].
      * intros (Hik & Ho & Hfirst).
        destruct (decide (k - i = 0)%nat) as [Hz|Hz].
        { f_equal. lia. }
        exfalso. apply (Hfirst 0%nat); [lia | exact E].
    + split; [discriminate|].
      intros (_ & Ho & _). rewrite drop_nil in Ho. congruence.
  - destruct (startswith sub (c :: s)) eqn:E.
    + split.
      * intros [= <-]. replace (i - i)%nat with 0%nat by lia.
        split; [lia | split; [exact E | intros j Hj; lia]].
      * intros (Hik & Ho & Hfirst).
        destruct (decide (k - i = 0)%nat) as [Hz|Hz].
        { f_equal. lia. }
        exfalso. apply (Hfirst 0%nat); [lia | exact E].
    + rewrite IH. split.
      * intros (Hik & Ho & Hfirst).
        replace (k - i)%nat with (S (k - S i)) by lia.
        split; [lia | split; [exact Ho|]].
        intros [|j] Hj; simpl; [congruence|]. apply Hfirst. lia.
      * intros (Hik & Ho & Hfirst).
        destruct (k - i)%nat as [|n] eqn:En; [simpl in Ho; congruence|].
        replace (k - S i)%nat with n by lia.
        split; [lia | split; [exact Ho|]].
        intros j Hj. apply (Hfirst (S j)). lia.
Qed.


Lemma occurs_at_bound (sub s : pystr) (i : nat) :
  sub <> [] -> occurs_at sub s i -> (i < length s)%nat.
Proof.
  intros Hsub Ho. unfold occurs_at in Ho.
  destruct (decide (i < length s)%nat) as [|Hge]; [assumption|].
  rewrite drop_ge in Ho by lia.
  rewrite startswith_nil in Ho by assumption. discriminate.
Qed.

Lemma clip_of_nat (n i : nat) : (i <= n)%nat -> clip n (Z.of_nat i) = i.
Proof.
  intros H. unfold clip.
  destruct (Z.ltb_spec (Z.of_nat i) 0); lia.
Qed.

(** [s.find(sub, from)] is the first occurrence at or after [from]. *)
Lemma find_first (s sub : pystr) (from i : nat) :
  sub <> [] -> first_at sub s from i ->
  find s sub (Z.of_nat from) = Z.of_nat i.
Proof.
  intros Hsub (Hle & Ho & Hfirst).
  pose proof (occurs_at_bound _ _ _ Hsub Ho) as Hi.
  unfold find.
  destruct (Z.ltb_spec (Z.of_nat (length s)) (Z.of_nat from)); [lia|].
  rewrite clip_of_nat by lia.
  assert (find_at sub (drop from s) from = Some i) as ->; [|reflexivity].
  apply find_at_Some. unfold occurs_at in *.
  split; [assumption|]. split.
  - rewrite drop_drop. replace (from + (i - from))%nat with i by lia. exact Ho.
  - intros j Hj. rewrite drop_drop. apply Hfirst. lia.
Qed.



Lemma contains_true (sub s : pystr) :
  contains sub s = true <-> exists i, find_at sub s 0 = Some i.
Proof.
  unfold contains. destruct (find_at sub s 0) as [i|].
  - split; [intros _; exists i; reflexivity | reflexivity].
  - split; [discriminate | intros [i Hi]; discriminate].
Qed.

(** Case folding does not touch a lower-case prefix. *)
Lemma lower_app (a b : pystr) : lower (a ++ b) = lower a ++ lower b.
Proof. apply map_app. Qed.

Lemma startswith_fix_lower (query : pystr) :
  startswith "fix" query = true -> startswith "fix" (lower query) = true.
Proof.
  intros H. apply startswith_spec in H as [r ->].
  rewrite lower_app. apply startswith_spec. exists (lower r). reflexivity.
Qed.

End Text.

(** ** The response parser *)
Section Parser.
Import PyStr.

Lemma after_marker_contains (text marker : pystr) :
  contains marker text = true -> exists r, after_marker text marker = Ok r.
Proof.
  intros H. apply contains_true in H as [i Hi].
  unfold after_marker, split1. rewrite Hi. simpl. eauto.
Qed.

Lemma parse_code_generation_ok (text : pystr) :
  exists p, parse_code_generation text = Ok p
            /\ p_action p = Some ("CODE_GENERATION" : pystr)
            /\ p_code p = extracted_code text.
Proof.
  unfold parse_code_generation.
  destruct (contains "EXPLANATION:" text) eqn:E.
  - destruct (after_marker_contains _ _ E) as [r ->]. eauto.
  - eauto.
Qed.

Lemma fence_length : length fence = 10%nat.
Proof. reflexivity. Qed.



(** An empty block: the closing fence right after the opening one. *)
Lemma extracted_code_empty (text : pystr) (i : nat) :
  first_at fence text 0 i -> first_at ticks text (i + 10) (i + 10) ->
  extracted_code text = None.
Proof.
  intros Hi Hj. unfold extracted_code.
  assert (fence <> []) as Hf by discriminate.
  assert (ticks <> []) as Ht by discriminate.
  change 0 with (Z.of_nat 0). rewrite (find_first _ _ _ _ Hf Hi).
  replace (Z.of_nat i + 10) with (Z.of_nat (i + 10)) by lia.
  rewrite (find_first _ _ _ _ Ht Hj).
  destruct (Z.gtb_spec (Z.of_nat (i + 10)) (Z.of_nat (i + 10))); [lia|].
  rewrite andb_false_r. reflexivity.
Qed.

(** A line that starts with a marker ending in its first colon: what
    follows the marker, trimmed. *)
Lemma after_colon_action (rest : pystr) :
  after_marker (("ACTION:" : pystr) ++ rest) ":" = Ok (strip rest).
Proof. reflexivity. Qed.

Lemma after_colon_explanation (rest : pystr) :
  after_marker (("EXPLANATION:" : pystr) ++ rest) ":" = Ok (strip rest).
Proof. reflexivity. Qed.

Lemma action_line (line : pystr) :
  startswith "ACTION:" line = true ->
  after_marker line ":" = Ok (strip (drop 7 line))
  /\ startswith "EXPLANATION:" line = false.
Proof.
  intros H. apply startswith_spec in H as [rest ->].
  split; reflexivity.
Qed.

Lemma explanation_line (line : pystr) :
  startswith "EXPLANATION:" line = true ->
  after_marker line ":" = Ok (strip (drop 12 line))
  /\ startswith "ACTION:" line = false.
Proof.
  intros H. apply startswith_spec in H as [rest ->].
  split; reflexivity.
Qed.

#[local] Arguments after_marker : simpl never.
#[local] Arguments startswith : simpl never.

(** The loop over the lines never raises. *)
Lemma parse_lines_ok (lines : list pystr) (action explanation : option pystr) :
  exists a e, parse_lines lines action explanation = Ok (a, e).
Proof.
  revert action explanation.
  induction lines as [|line rest IH]; intros action explanation; simpl.
  - eauto.
  - destruct (startswith "ACTION:" line) eqn:Ea.
    + destruct (action_line _ Ea) as [-> _]. apply IH.
    + destruct (startswith "EXPLANATION:" line) eqn:Ee.
      * destruct (explanation_line _ Ee) as [-> _]. apply IH.
      * apply IH.
Qed.




End Parser.

(** ** Unfolding the three functions of the agent *)
Section Unfolding.
Variable rt : Runtime.

Lemma process_query_unfold (fuel : nat) (query : pystr) :
  process_query rt fuel query =
  process_query_body rt
    (fun response query' =>
       call fuel (fun fuel' => plan_and_execute rt fuel' response query'))
    query.
Proof. destruct fuel; reflexivity. Qed.

Lemma plan_and_execute_unfold (fuel : nat) (llm_response original_query : pystr) :
  plan_and_execute rt fuel llm_response original_query =
  plan_and_execute_body rt
    (fun response query' =>
       call fuel (fun fuel' => plan_and_execute rt fuel' response query'))
    (fun query' history attempt code explanation =>
       call fuel (fun fuel' =>
         repair_loop rt fuel' query' history attempt code explanation))
    llm_response original_query.
Proof. destruct fuel; reflexivity. Qed.

Lemma repair_loop_unfold (fuel : nat) (original_query : pystr) (history attempt : nat)
    (code : pystr) (explanation : option pystr) :
  repair_loop rt fuel original_query history attempt code explanation =
  repair_loop_body rt
    (fun query' history' attempt' code' explanation' =>
       call fuel (fun fuel' =>
         repair_loop rt fuel' query' history' attempt' code' explanation'))
    (fun query' => call fuel (fun fuel' => process_query rt fuel' query'))
    original_query history attempt code explanation.
Proof. destruct fuel; reflexivity. Qed.


End Unfolding.

(** ** The parser: code blocks and repeated markers *)









(** ** The turn handler *)

(** C7.  When no last code or no last result is recorded, a query beginning
    with "fix" returns exactly the notice, raises nothing, and leaves the
    whole state (memory, last-execution fields, the world) as it was. *)
Theorem C7_fix_without_previous_execution (rt : Runtime) (fuel : nat)
    (query : pystr) (st : State) :
  PyStr.startswith "fix" query = true ->
  _last_code (self st) = None \/ _last_result (self st) = None ->
  process_query rt fuel query st
  = (Ok (Text "No previous code execution to fix. Please run a command first."), st).
Proof.
  intros Hfix Hlast.
  rewrite process_query_unfold. unfold process_query_body, bind, gets.
  rewrite (startswith_fix_lower _ Hfix).
  destruct Hlast as [-> | ->]; simpl.
  - reflexivity.
  - rewrite orb_true_r. reflexivity.
Qed.

Lemma C7_fix_without_previous_execution_witness :
  process_query (Sample.runtime (fun _ _ => Ok Sample.closed_block)) 5 "fix"
    (Sample.session Sample.fresh_agent [])
  = (Ok (Text "No previous code execution to fix. Please run a command first."),
     Sample.session Sample.fresh_agent []).
Proof.
  apply C7_fix_without_previous_execution.
  - vm_compute. reflexivity.
  - left. reflexivity.
Defined.

(** C10.  With a previous execution on record, the query "fix" (followed by
    nothing but blanks) returns the request for instructions; the state,
    which includes the count of oracle invocations, is unchanged. *)
Theorem C10_fix_without_instructions (rt : Runtime) (fuel : nat) (st : State)
    (blanks code result : pystr) :
  _last_code (self st) = Some code -> code <> [] ->
  _last_result (self st) = Some result -> result <> [] ->
  PyStr.strip blanks = [] ->
  process_query rt fuel (("fix" : pystr) ++ blanks) st
  = (Ok (Text "Please provide instructions for the fix, e.g., 'fix write results to csv'"),
     st).
Proof.
  intros Hcode Hc Hresult Hr Hblank.
  rewrite process_query_unfold. unfold process_query_body, bind, gets.
  rewrite lower_app.
  change (PyStr.startswith "fix" (PyStr.lower "fix" ++ PyStr.lower blanks)) with true.
  cbv beta iota. rewrite Hcode, Hresult.
  destruct code as [|c code]; [congruence|].
  destruct result as [|r result]; [congruence|].
  cbn [PyStr.truthy_opt PyStr.truthy negb orb].
  assert (PyStr.slice_from (("fix" : pystr) ++ blanks) 3 = blanks) as ->.
  { unfold PyStr.slice_from. change 3 with (Z.of_nat 3).
    rewrite clip_of_nat; [reflexivity|].
    rewrite length_app. change (length ("fix" : pystr)) with 3%nat. lia. }
  rewrite Hblank. reflexivity.
Qed.

Lemma C10_fix_without_instructions_witness :
  process_query (Sample.runtime (fun _ _ => Ok Sample.closed_block)) 5
    (("fix" : pystr) ++ []) (Sample.session Sample.coded_agent [])
  = (Ok (Text "Please provide instructions for the fix, e.g., 'fix write results to csv'"),
     Sample.session Sample.coded_agent []).
Proof.
  apply (C10_fix_without_instructions _ _ _ _ ("x = 1" : pystr)
           ("=== Code Execution Results ===" : pystr)).
  - reflexivity.
  - discriminate.
  - reflexivity.
  - discriminate.
  - reflexivity.
Defined.

(** C8 at its failing input: an oracle that refuses the connection.  On the
    fix path the exception leaves [process_query]; on the ordinary path the
    same failure becomes a message. *)
Theorem C8_fix_path_lets_oracle_failure_out (fuel : nat) :
  let refusing := Sample.runtime
                    (fun _ _ => Raise (py_error "ConnectionError" "Connection refused")) in
  fst (process_query refusing fuel "fix write results to csv"
         (Sample.session Sample.coded_agent []))
  = Raise (py_error "ConnectionError" "Connection refused")
  /\ fst (process_query refusing fuel "write results to csv"
            (Sample.session Sample.coded_agent []))
     = Ok (Text "Error processing query: Connection refused").
Proof.
  split; rewrite process_query_unfold; vm_compute; reflexivity.
Qed.

(** C6 at its failing input: no dataset is loaded.  The forecast action
    answers with the explicit message; the data-analysis action goes on to
    read a CSV file whose path is missing and answers with the error that
    raises. *)
Theorem C6_data_analysis_without_dataset (rt : Runtime) (fuel : nat) :
  fst (plan_and_execute rt fuel "ACTION: FORECAST" "forecast next week"
         (Sample.session Sample.fresh_agent []))
  = Ok (Text "Please analyze a dataset first using the 'analyze' command.")
  /\ fst (plan_and_execute rt fuel "ACTION: DATA_ANALYSIS" "describe the data"
            (Sample.session Sample.fresh_agent []))
     = Ok (Text "Error executing action: Invalid file path or buffer object type: <class 'NoneType'>").
Proof.
  split; rewrite plan_and_execute_unfold; vm_compute; reflexivity.
Qed.

(** ** The execution sandbox *)
Section Sandbox.
Variable rt : Runtime.

Lemma check_without_imports (code : pystr) (w : World) :
  extract_imports_from_code rt code = [] ->
  check_and_install_dependencies rt code w = (Ok true, w).
Proof.
  intros H. unfold check_and_install_dependencies. rewrite H. reflexivity.
Qed.

Lemma execute_code_checked (code : pystr) (df : option Pandas.DataFrame) (w w1 : World) :
  check_and_install_dependencies rt (silence_plotly code) w = (Ok true, w1) ->
  execute_code rt code df w = try_execute rt (silence_plotly code) df w1.
Proof.
  intros H. unfold execute_code, bind. rewrite H. reflexivity.
Qed.

(** The ways [execute_code] can return a result. *)
Lemma execute_code_returns (code : pystr) (df : option Pandas.DataFrame)
    (w w' : World) (r : ExecutionResult) (df' : option Pandas.DataFrame) :
  execute_code rt code df w = (Ok (r, df'), w') ->
  (error_context r = None /\ success r = false /\ df' = df)
  \/ exists w1,
       check_and_install_dependencies rt (silence_plotly code) w = (Ok true, w1)
       /\ try_execute rt (silence_plotly code) df w1 = (Ok (r, df'), w').
Proof.
  unfold execute_code, bind.
  destruct (check_and_install_dependencies rt (silence_plotly code) w)
    as [[[|] | e |] w1] eqn:E; try discriminate.
  - intros H. right. exists w1. split; [reflexivity | exact H].
  - simpl. intros [= <- <- <-]. left. repeat split.
Qed.

Lemma initial_locals_df (d : Pandas.DataFrame) :
  PyDict.get "df" (initial_locals (Some d)) = Some (PyFrame d).
Proof. reflexivity. Qed.


(** C1 (as amended).  When the dependency check has passed, the frame has
    been bound, and evaluating the snippet raises an exception whose class
    derives from [Exception], [execute_code] returns a result: its [success]
    is false, its [error_context] names the class of the exception, and the
    execution step kept in the [debug_info] of that [error_context] is
    "executing code", the last stage recorded before the snippet ran.
    Nothing is raised to the caller. *)
Theorem C1_exception_becomes_failure_result (code : pystr)
    (df df1 : option Pandas.DataFrame) (w w1 : World) (e : PyExc) :
  check_and_install_dependencies rt (silence_plotly code) w = (Ok true, w1) ->
  bind_dataset rt df = Ok df1 ->
  raised (py_exec rt (silence_plotly code) (initial_locals df1)) = Some e ->
  exc_catchable e = true ->
  exists r df',
    execute_code rt code df w = (Ok (r, df'), w1)
    /\ success r = false
    /\ exists c, error_context r = Some c
                 /\ error_type c = exc_type e
                 /\ error_msg c = exc_msg e
                 /\ execution_step (err_debug_info c) = ("executing code" : pystr).
Proof.
  intros Hcheck Hbind Hraised Hcatch.
  rewrite (execute_code_checked _ _ _ _ Hcheck).
  unfold try_execute, try_block. rewrite Hbind. cbv zeta. rewrite Hraised.
  cbn [exit debug_at_exit frame_at_exit]. rewrite Hcatch.
  eexists _, _. split; [reflexivity|]. split; [reflexivity|].
  eexists. split; [reflexivity|]. repeat split.
Qed.


End Sandbox.

(** The theorem at work: the sample snippet that raises [ValueError], on the
    sample frame. *)
Lemma C1_exception_becomes_failure_result_witness :
  exists r df',
    execute_code (Sample.runtime Sample.mute) "raise ValueError('boom')"
      (Some Sample.sales) (Sample.quiet_world [])
    = (Ok (r, df'), Sample.quiet_world [])
    /\ success r = false
    /\ exists c, error_context r = Some c
                 /\ error_type c = ("ValueError" : pystr)
                 /\ error_msg c = ("boom" : pystr)
                 /\ execution_step (err_debug_info c) = ("executing code" : pystr).
Proof.
  eapply (C1_exception_becomes_failure_result (Sample.runtime Sample.mute)
            "raise ValueError('boom')" (Some Sample.sales) _ _ _
            (py_error "ValueError" "boom")).
  - vm_compute. reflexivity.
  - vm_compute. reflexivity.
  - vm_compute. reflexivity.
  - reflexivity.
Defined.

(** C1 as stated fails.  Evaluating [sys.exit(1)] raises [SystemExit], which
    does not derive from [Exception]: [execute_code] raises it to its caller.
    And the failure result of a snippet that raises [ValueError] has no
    [debug_info] of its own: the execution step is kept under
    [error_context]. *)
Lemma C1_counterexample :
  (raised (py_exec (Sample.runtime Sample.mute) (silence_plotly "sys.exit(1)")
             (initial_locals (Some Sample.sales)))
   = Some Sample.system_exit
   /\ fst (execute_code (Sample.runtime Sample.mute) "sys.exit(1)"
             (Some Sample.sales) (Sample.quiet_world []))
      = Raise Sample.system_exit)
  /\ exists r df' w',
       execute_code (Sample.runtime Sample.mute) "raise ValueError('boom')"
         (Some Sample.sales) (Sample.quiet_world [])
       = (Ok (r, df'), w')
       /\ success r = false /\ debug_info r = None.
Proof.
  split.
  - split; vm_compute; reflexivity.
  - eexists _, _, _. split; [vm_compute; reflexivity|]. split; reflexivity.
Qed.



(** ** Dictionaries and frames *)
Section Frames.

Lemma get_set {V} (k k' : pystr) (v : V) (d : PyDict.t V) :
  PyDict.get k (PyDict.set k' v d) = if PyStr.eqb k k' then Some v else PyDict.get k d.
Proof.
  unfold PyStr.eqb. induction d as [|[k0 v0] d IH]; simpl.
  - unfold PyStr.eqb. reflexivity.
  - unfold PyStr.eqb in *.
    destruct (bool_decide_reflect (k' = k0)) as [->|Hne]; simpl; unfold PyStr.eqb.
    + destruct (bool_decide_reflect (k = k0)); reflexivity.
    + destruct (bool_decide_reflect (k = k0)) as [->|Hne'].
      * destruct (bool_decide_reflect (k0 = k')); [congruence | reflexivity].
      * exact IH.
Qed.

(** Two lists of pairs with the same keys, and the same values except under
    [skip], give dictionaries that agree except under [skip]. *)
Lemma of_pairs_agree {V} (skip : pystr) (l l' : list (pystr * V)) (d d' : PyDict.t V) :
  Forall2 (fun p p' => fst p = fst p' /\ (fst p <> skip -> snd p = snd p')) l l' ->
  (forall k, k <> skip -> PyDict.get k d = PyDict.get k d') ->
  forall k, k <> skip ->
    PyDict.get k (fold_left (fun d kv => PyDict.set (fst kv) (snd kv) d) l d)
    = PyDict.get k (fold_left (fun d kv => PyDict.set (fst kv) (snd kv) d) l' d').
Proof.
  intros H. revert d d'.
  induction H as [|[k1 v1] [k2 v2] l l' [Hk Hv] _ IH]; intros d d' Hd k Hne.
  - simpl. apply Hd. exact Hne.
  - simpl in *. subst k2. apply IH; [|exact Hne].
    intros k0 Hk0. rewrite !get_set.
    destruct (PyStr.eqb k0 k1) eqn:E.
    + apply bool_decide_eq_true in E. subst k0. rewrite Hv by assumption. reflexivity.
    + apply Hd. exact Hk0.
Qed.

Lemma setitem_names (d : Pandas.DataFrame) (k : pystr) (s : Pandas.Series) :
  Pandas.column_names (Pandas.setitem d k s) = Pandas.column_names d.
Proof.
  unfold Pandas.column_names, Pandas.setitem. simpl.
  rewrite map_map. apply map_ext. intros c.
  destruct (PyStr.eqb (Pandas.name c) k); reflexivity.
Qed.

Lemma setitem_shape (d : Pandas.DataFrame) (k : pystr) (s : Pandas.Series) :
  Pandas.shape (Pandas.setitem d k s) = Pandas.shape d.
Proof.
  unfold Pandas.shape, Pandas.setitem. simpl. rewrite length_map. reflexivity.
Qed.

Lemma setitem_columns_agree {V} (f : Pandas.Series -> V) (d : Pandas.DataFrame)
    (k : pystr) (s : Pandas.Series) :
  Forall2 (fun p p' => fst p = fst p' /\ (fst p <> k -> snd p = snd p'))
    (map (fun c => (Pandas.name c, f c)) (Pandas.columns d))
    (map (fun c => (Pandas.name c, f c)) (Pandas.columns (Pandas.setitem d k s))).
Proof.
  unfold Pandas.setitem. simpl.
  induction (Pandas.columns d) as [|c cs IH]; simpl; constructor; [|exact IH].
  simpl. unfold PyStr.eqb.
  destruct (bool_decide_reflect (Pandas.name c = k)) as [Heq|Hne]; simpl.
  - split; [reflexivity | intros H; congruence].
  - split; [reflexivity | reflexivity].
Qed.

(** What converting the [date] column changes in the description of a
    frame: nothing but the entries of that column. *)
Lemma data_info_of_setitem (d : Pandas.DataFrame) (s : Pandas.Series) :
  let b1 := data_info_of d in
  let b2 := data_info_of (Pandas.setitem d "date" s) in
  shape b1 = shape b2 /\ columns b1 = columns b2
  /\ forall k, k <> ("date" : pystr) ->
       PyDict.get k (dtypes b1) = PyDict.get k (dtypes b2)
       /\ PyDict.get k (null_counts b1) = PyDict.get k (null_counts b2).
Proof.
  cbv zeta. unfold data_info_of. cbn [shape columns dtypes null_counts].
  rewrite setitem_shape, setitem_names.
  split; [reflexivity|]. split; [reflexivity|].
  intros k Hk. unfold Pandas.dtypes, Pandas.null_counts, PyDict.of_pairs.
  split; apply (of_pairs_agree ("date" : pystr)); auto using setitem_columns_agree.
Qed.

End Frames.

(** ** Repeated executions *)
Section Repeated.
Variable rt : Runtime.

(** The frame the sandbox binds is the caller's, or the caller's with its
    [date] column converted. *)
Lemma bind_dataset_cases (d : Pandas.DataFrame) (df1 : option Pandas.DataFrame) :
  bind_dataset rt (Some d) = Ok df1 ->
  df1 = Some d
  \/ (Pandas.has_column d "date" = true
      /\ exists s, df1 = Some (Pandas.setitem d "date" s)).
Proof.
  unfold bind_dataset. destruct (Pandas.has_column d "date") eqn:Hdate.
  - destruct (Pandas.to_datetime _ _) as [s | e |]; try discriminate.
    intros [= <-]. right. split; [reflexivity | eauto].
  - intros [= <-]. left. reflexivity.
Qed.

Lemma after_exec_untouched (code : pystr) (d : Pandas.DataFrame) :
  frame_untouched rt code ->
  after_exec (Some d) (py_exec rt (silence_plotly code) (initial_locals (Some d)))
  = Some d.
Proof.
  intros H. unfold after_exec. rewrite (H _ d (initial_locals_df d)). reflexivity.
Qed.

(** The bundle of a failure result describes the frame as it was handed in. *)
Lemma bundle_describes_input (code : pystr) (d : Pandas.DataFrame) (w w' : World)
    (r : ExecutionResult) (df' : option Pandas.DataFrame) (b : DataInfo) :
  execute_code rt code (Some d) w = (Ok (r, df'), w') ->
  bundle r = Some b -> b = data_info_of d.
Proof.
  intros Hrun Hb.
  apply execute_code_returns in Hrun as [(Hctx & _ & _) | (w1 & _ & Hrun)].
  { unfold bundle in Hb. rewrite Hctx in Hb. discriminate. }
  unfold try_execute, try_block in Hrun. cbv zeta in Hrun.
  destruct (bind_dataset rt (Some d)) as [df1 | e |];
    cbn [exit debug_at_exit frame_at_exit] in Hrun.
  - destruct (raised _) as [e|]; cbn [exit debug_at_exit frame_at_exit] in Hrun.
    + destruct (exc_catchable e); [|discriminate].
      injection Hrun as <- _ _. injection Hb as <-. reflexivity.
    + injection Hrun as <- _ _. discriminate.
  - destruct (exc_catchable e); [|discriminate].
    injection Hrun as <- _ _. injection Hb as <-. reflexivity.
  - discriminate.
Qed.

(** The frame after an execution that does not touch it. *)
Lemma frame_after_execution (code : pystr) (d : Pandas.DataFrame) (w w' : World)
    (r : ExecutionResult) (df' : option Pandas.DataFrame) :
  frame_untouched rt code ->
  execute_code rt code (Some d) w = (Ok (r, df'), w') ->
  df' = Some d
  \/ (Pandas.has_column d "date" = true
      /\ exists s, df' = Some (Pandas.setitem d "date" s)).
Proof.
  intros Hkeep Hrun.
  apply execute_code_returns in Hrun as [(_ & _ & ->) | (w1 & _ & Hrun)];
    [left; reflexivity|].
  unfold try_execute, try_block in Hrun. cbv zeta in Hrun.
  destruct (bind_dataset rt (Some d)) as [df1 | e |] eqn:Hbind;
    cbn [exit debug_at_exit frame_at_exit] in Hrun.
  - assert (df' = df1) as ->.
    { destruct (bind_dataset_cases _ _ Hbind) as [-> | (_ & s & ->)];
        rewrite after_exec_untouched in Hrun by assumption;
        destruct (raised _) as [e|]; cbn [exit debug_at_exit frame_at_exit] in Hrun;
        try (destruct (exc_catchable e); [|discriminate]);
        injection Hrun as _ <- _; reflexivity. }
    apply bind_dataset_cases. exact Hbind.
  - destruct (exc_catchable e); [|discriminate].
    injection Hrun as _ <- _. left. reflexivity.
  - discriminate.
Qed.

(** C3 (as amended).  When a snippet that leaves the frame alone is executed
    twice in succession on the same frame and both results carry a
    diagnostic bundle, the two bundles have the same shape and the same
    columns, and the same type and null count for every column other than
    [date]; for a frame without a [date] column they are equal. *)
Theorem C3_bundles_of_repeated_failures (code : pystr) (d : Pandas.DataFrame)
    (w w1 w2 : World) (r1 r2 : ExecutionResult)
    (df1 df2 : option Pandas.DataFrame) (b1 b2 : DataInfo) :
  frame_untouched rt code ->
  execute_code rt code (Some d) w = (Ok (r1, df1), w1) ->
  execute_code rt code df1 w1 = (Ok (r2, df2), w2) ->
  bundle r1 = Some b1 -> bundle r2 = Some b2 ->
  shape b1 = shape b2 /\ columns b1 = columns b2
  /\ (forall k, k <> ("date" : pystr) ->
        PyDict.get k (dtypes b1) = PyDict.get k (dtypes b2)
        /\ PyDict.get k (null_counts b1) = PyDict.get k (null_counts b2))
  /\ (Pandas.has_column d "date" = false -> b1 = b2).
Proof.
  intros Hkeep Hrun1 Hrun2 Hb1 Hb2.
  pose proof (bundle_describes_input _ _ _ _ _ _ _ Hrun1 Hb1) as ->.
  destruct (frame_after_execution _ _ _ _ _ _ Hkeep Hrun1)
    as [-> | (Hdate & s & ->)].
  - pose proof (bundle_describes_input _ _ _ _ _ _ _ Hrun2 Hb2) as ->.
    repeat split; reflexivity.
  - pose proof (bundle_describes_input _ _ _ _ _ _ _ Hrun2 Hb2) as ->.
    destruct (data_info_of_setitem d s) as (Hshape & Hcols & Hrest).
    split; [exact Hshape|]. split; [exact Hcols|]. split; [exact Hrest|].
    intros Hno. congruence.
Qed.

End Repeated.

Lemma sample_frame_untouched (oracle : nat -> Prompt -> pyresult pystr) :
  frame_untouched (Sample.runtime oracle) "raise ValueError('boom')".
Proof.
  intros ns d Hdf.
  change (dataset_after (py_exec (Sample.runtime oracle)
                           (silence_plotly "raise ValueError('boom')") ns))
    with (Sample.bound_frame ns).
  unfold Sample.bound_frame. rewrite Hdf. reflexivity.
Qed.

(** The theorem at work: the failing snippet, twice, on the sample frame. *)
Lemma C3_bundles_of_repeated_failures_witness :
  let b1 := data_info_of Sample.sales in
  let b2 := data_info_of Sample.dated in
  shape b1 = shape b2 /\ columns b1 = columns b2
  /\ (forall k, k <> ("date" : pystr) ->
        PyDict.get k (dtypes b1) = PyDict.get k (dtypes b2)
        /\ PyDict.get k (null_counts b1) = PyDict.get k (null_counts b2))
  /\ (Pandas.has_column Sample.sales "date" = false -> b1 = b2).
Proof.
  cbv zeta.
  eapply (C3_bundles_of_repeated_failures (Sample.runtime Sample.mute)
            "raise ValueError('boom')" Sample.sales (Sample.quiet_world [])).
  - apply sample_frame_untouched.
  - vm_compute. reflexivity.
  - vm_compute. reflexivity.
  - vm_compute. reflexivity.
  - vm_compute. reflexivity.
Defined.

(** C3 as stated fails.  The first execution converts the [date] column of
    the caller's frame after it has described the frame; the second
    execution describes the converted frame.  Both fail, the snippet touches
    nothing, and the two bundles differ in the type of [date]. *)
Lemma C3_counterexample :
  frame_untouched (Sample.runtime Sample.mute) "raise ValueError('boom')"
  /\ exists r1 df1 w1 r2 df2 w2 b1 b2,
       execute_code (Sample.runtime Sample.mute) "raise ValueError('boom')"
         (Some Sample.sales) (Sample.quiet_world [])
       = (Ok (r1, df1), w1)
       /\ execute_code (Sample.runtime Sample.mute) "raise ValueError('boom')" df1 w1
          = (Ok (r2, df2), w2)
       /\ success r1 = false /\ success r2 = false
       /\ bundle r1 = Some b1 /\ bundle r2 = Some b2
       /\ PyDict.get "date" (dtypes b1) = Some Pandas.object_
       /\ PyDict.get "date" (dtypes b2) = Some Pandas.datetime64
       /\ b1 <> b2.
Proof.
  split; [apply sample_frame_untouched|].
  eexists _, _, _, _, _, _, _, _.
  split; [vm_compute; reflexivity|].
  split; [vm_compute; reflexivity|].
  split; [reflexivity|]. split; [reflexivity|].
  split; [vm_compute; reflexivity|].
  split; [vm_compute; reflexivity|].
  split; [vm_compute; reflexivity|].
  split; [vm_compute; reflexivity|].
  vm_compute. discriminate.
Qed.

(** ** Traces of runs *)
Section Traces.

(** *** Computations that leave the trace alone *)

Lemma silent_ret {A} (a : A) : silent (ret a).
Proof. intros s. reflexivity. Qed.

Lemma silent_raise {A} (e : PyExc) : silent (@raise State A e).
Proof. intros s. reflexivity. Qed.

Lemma silent_diverge {A} : silent (@diverge State A).
Proof. intros s. reflexivity. Qed.

Lemma silent_lift {A} (r : pyresult A) : silent (lift r).
Proof. intros s. reflexivity. Qed.

Lemma silent_gets {A} (f : State -> A) : silent (gets f).
Proof. intros s. reflexivity. Qed.

Lemma silent_on_self (f : ForecastingAgent -> ForecastingAgent) :
  silent (modify (on_self f)).
Proof. intros s. reflexivity. Qed.

Lemma silent_bind {A B} (m : M State A) (k : A -> M State B) :
  silent m -> (forall a, silent (k a)) -> silent (bind m k).
Proof.
  intros Hm Hk s. unfold bind. specialize (Hm s).
  destruct (m s) as [[a | e |] s']; simpl in *; try assumption.
  rewrite <- Hm. apply Hk.
Qed.

Lemma silent_try_except {A} (m : M State A) (h : PyExc -> M State A) :
  silent m -> (forall e, silent (h e)) -> silent (try_except m h).
Proof.
  intros Hm Hh s. unfold try_except. specialize (Hm s).
  destruct (m s) as [[a | e |] s']; simpl in *; try assumption.
  destruct (exc_catchable e); simpl; [|assumption].
  rewrite <- Hm. apply Hh.
Qed.

Lemma silent_lifted {A} (m : M World A) : silent_in_world m -> silent (in_world m).
Proof.
  intros Hm s. unfold in_world. specialize (Hm (world s)).
  destruct (m (world s)) as [r w]. exact Hm.
Qed.

Lemma world_bind_silent {A B} (m : M World A) (k : A -> M World B) :
  silent_in_world m -> (forall a, silent_in_world (k a)) -> silent_in_world (bind m k).
Proof.
  intros Hm Hk w. unfold bind. specialize (Hm w).
  destruct (m w) as [[a | e |] w']; simpl in *; try assumption.
  rewrite <- Hm. apply Hk.
Qed.

Lemma world_ret_silent {A} (a : A) : silent_in_world (ret a).
Proof. intros w. reflexivity. Qed.

Lemma input_silent : silent_in_world input.
Proof. intros w. unfold input. destruct (stdin w); reflexivity. Qed.

Lemma now_silent : silent_in_world now.
Proof. intros w. reflexivity. Qed.

Lemma install_all_silent (rt : Runtime) (packages : list pystr) :
  silent_in_world (install_all rt packages).
Proof.
  induction packages as [|p rest IH]; simpl.
  - apply world_ret_silent.
  - apply world_bind_silent.
    + intros w. unfold install_package. destruct (pip_install rt p); reflexivity.
    + intros [|]; [|apply world_ret_silent].
      apply world_bind_silent; [intros w; reflexivity|].
      intros [|]; [exact IH | apply world_ret_silent].
Qed.

Lemma check_silent (rt : Runtime) (code : pystr) :
  silent_in_world (check_and_install_dependencies rt code).
Proof.
  unfold check_and_install_dependencies.
  apply world_bind_silent; [intros w; reflexivity|].
  intros [|p missing]; [apply world_ret_silent|].
  apply world_bind_silent; [apply input_silent|].
  intros answer. destruct (PyStr.eqb _ _).
  - apply install_all_silent.
  - apply world_ret_silent.
Qed.

Lemma execute_code_silent (rt : Runtime) (code : pystr) (df : option Pandas.DataFrame) :
  silent_in_world (execute_code rt code df).
Proof.
  unfold execute_code. apply world_bind_silent; [apply check_silent|].
  intros [|]; simpl; [|apply world_ret_silent].
  unfold try_execute. destruct (exit _) as [[out res] | e |].
  - apply world_ret_silent.
  - destruct (exc_catchable e); [apply world_ret_silent | intros w; reflexivity].
  - intros w. reflexivity.
Qed.

Lemma invoke_silent (rt : Runtime) (p : Prompt) : silent (invoke rt p).
Proof. intros s. unfold invoke. destruct (llm (self s)); reflexivity. Qed.

Lemma context_get_silent (key : pystr) : silent (context_get key).
Proof. apply silent_gets. Qed.

Lemma store_interaction_silent (q r : pystr) (c e : option pystr) (f : option nat)
    (res : option pystr) :
  silent (store_interaction q r c e f res).
Proof. intros s. reflexivity. Qed.

Lemma store_memory_silent (c : MemoryContent) : silent (store_memory c).
Proof. intros s. reflexivity. Qed.

Lemma process_dataset_silent (rt : Runtime) (csv target sid : option pystr) :
  silent (process_dataset rt csv target sid).
Proof.
  unfold process_dataset.
  apply silent_bind; [apply silent_lift|]. intros df.
  apply silent_bind; [apply store_memory_silent|]. intros _.
  apply silent_bind; [apply silent_lift|]. intros a.
  apply silent_bind; [apply store_memory_silent|]. intros _.
  apply silent_ret.
Qed.

Lemma new_attempt_history_silent : silent new_attempt_history.
Proof. intros s. reflexivity. Qed.

Lemma read_attempt_history_silent (ref : nat) : silent (read_attempt_history ref).
Proof. apply silent_gets. Qed.

Lemma data_context_silent : silent data_context.
Proof.
  unfold data_context. apply silent_bind; [apply silent_gets|].
  intros [d|]; [|apply silent_raise].
  destruct (Pandas.getitem d "date"); try apply silent_raise. apply silent_ret.
Qed.

Lemma query_prompt_silent (query : pystr) : silent (query_prompt query).
Proof.
  unfold query_prompt.
  repeat (apply silent_bind; [first [apply silent_gets | apply context_get_silent]|]; intros ?).
  apply silent_ret.
Qed.

End Traces.

(** ** The events of a run *)
Section Runs.
Variable rt : Runtime.

(** *** Rules for [emits] *)

Lemma emits_ret {A} (a : A) (Q : list Event -> pyresult A -> Prop) :
  Q [] (Ok a) -> emits (ret a) Q.
Proof. intros H s. exists []. rewrite app_nil_r. split; [reflexivity | exact H]. Qed.

Lemma emits_silent {A} (m : M State A) (Q : list Event -> pyresult A -> Prop) :
  silent m -> (forall r, Q [] r) -> emits m Q.
Proof.
  intros Hm HQ s. exists []. rewrite app_nil_r. split; [apply Hm | apply HQ].
Qed.

Lemma emits_mono {A} (m : M State A) (Q Q' : list Event -> pyresult A -> Prop) :
  emits m Q -> (forall evs r, Q evs r -> Q' evs r) -> emits m Q'.
Proof.
  intros Hm HQ s. destruct (Hm s) as (evs & Ht & Hq). exists evs. auto.
Qed.

Lemma emits_bind {A B} (m : M State A) (k : A -> M State B)
    (Qm : list Event -> pyresult A -> Prop) (Q : list Event -> pyresult B -> Prop) :
  emits m Qm ->
  (forall evs a, Qm evs (Ok a) -> emits (k a) (fun evs' r => Q (evs ++ evs') r)) ->
  (forall evs e, Qm evs (Raise e) -> Q evs (Raise e)) ->
  (forall evs, Qm evs Diverged -> Q evs Diverged) ->
  emits (bind m k) Q.
Proof.
  intros Hm Hk He Hd s. unfold bind.
  destruct (Hm s) as (evs & Ht & Hq).
  destruct (m s) as [[a | e |] s']; simpl in *.
  - destruct (Hk evs a Hq s') as (evs' & Ht' & Hq').
    exists (evs ++ evs'). rewrite Ht', Ht, app_assoc. auto.
  - exists evs. auto.
  - exists evs. auto.
Qed.

Lemma emits_bind_silent {A B} (m : M State A) (k : A -> M State B)
    (Q : list Event -> pyresult B -> Prop) :
  silent m -> quiet_fail Q -> (forall a, emits (k a) Q) -> emits (bind m k) Q.
Proof.
  intros Hm [He Hd] Hk.
  apply (emits_bind m k (fun evs _ => evs = [])).
  - apply emits_silent; [exact Hm | reflexivity].
  - intros evs a ->. apply Hk.
  - intros evs e ->. apply He.
  - intros evs ->. apply Hd.
Qed.

Lemma emits_try_except {A} (m : M State A) (h : PyExc -> M State A)
    (Q : list Event -> pyresult A -> Prop) :
  emits m (fun evs r =>
             match r with
             | Raise e =>
                 if exc_catchable e
                 then emits (h e) (fun evs' r' => Q (evs ++ evs') r')
                 else Q evs (Raise e)
             | _ => Q evs r
             end) ->
  emits (try_except m h) Q.
Proof.
  intros Hm s. unfold try_except.
  destruct (Hm s) as (evs & Ht & Hq).
  destruct (m s) as [[a | e |] s']; simpl in *.
  - exists evs. auto.
  - destruct (exc_catchable e).
    + destruct (Hq s') as (evs' & Ht' & Hq').
      exists (evs ++ evs'). rewrite Ht', Ht, app_assoc. auto.
    + exists evs. auto.
  - exists evs. auto.
Qed.

Lemma emits_call {A} (fuel : nat) (k : nat -> M State A)
    (Q : list Event -> pyresult A -> Prop) :
  Q [] Diverged -> (forall fuel', fuel = S fuel' -> emits (k fuel') Q) ->
  emits (call fuel k) Q.
Proof.
  intros Hd Hk. destruct fuel as [|fuel']; simpl.
  - intros s. exists []. rewrite app_nil_r. split; [reflexivity | exact Hd].
  - apply Hk. reflexivity.
Qed.

(** *** The shape of a trace *)

Lemma run_trace_change {A B} (done : ExecutionResult -> pyresult A -> Prop)
    (done' : ExecutionResult -> pyresult B -> Prop)
    (evs : list Event) (res : pyresult A) (res' : pyresult B) :
  run_trace done evs res ->
  (forall r, success r = true -> done r res -> done' r res') ->
  run_trace done' evs res'.
Proof.
  intros H Hd. induction H.
  - apply run_nil.
  - apply run_succeeded; auto.
  - apply run_failed; auto.
  - apply run_recorded; auto.
Qed.

(** A run that did not end on a successful execution can go on. *)
Lemma run_trace_app {A B} (done : ExecutionResult -> pyresult A -> Prop)
    (done' : ExecutionResult -> pyresult B -> Prop)
    (evs evs' : list Event) (res : pyresult A) (res' : pyresult B) :
  run_trace done evs res ->
  (forall r, success r = true -> ~ done r res) ->
  run_trace done' evs' res' ->
  run_trace done' (evs ++ evs') res'.
Proof.
  intros H Hopen H'. induction H; simpl.
  - exact H'.
  - exfalso. eapply Hopen; eassumption.
  - apply run_failed; auto.
  - apply run_recorded; auto.
Qed.

Lemma run_trace_quiet {A} (done : ExecutionResult -> pyresult A -> Prop) :
  quiet_fail (run_trace done).
Proof. split; intros; apply run_nil. Qed.

(** Every attempt record comes right after a failed execution, which it
    describes. *)
Lemma run_trace_recorded {A} (done : ExecutionResult -> pyresult A -> Prop)
    (evs : list Event) (res : pyresult A) :
  run_trace done evs res ->
  forall before a after, evs = before ++ Recorded a :: after ->
    exists before' code r,
      before = before' ++ [Executed code r]
      /\ success r = false /\ records a code r.
Proof.
  intros H.
  induction H as [res | code r res Hs Hd | code r evs res Hs H IH
                 | code r a0 evs res Hs Hr H IH];
    intros before a after E.
  - destruct before; discriminate.
  - destruct before as [|x [|y before]]; discriminate.
  - destruct before as [|x before]; [discriminate|].
    injection E as <- E.
    destruct (IH _ _ _ E) as (before' & c' & r' & -> & Hs' & Hr').
    exists (Executed code r :: before'), c', r'. auto.
  - destruct before as [|x [|y before]]; try discriminate.
    + injection E as <- <- _. exists [], code, r. auto.
    + injection E as <- <- E.
      destruct (IH _ _ _ E) as (before' & c' & r' & -> & Hs' & Hr').
      exists (Executed code r :: Recorded a0 :: before'), c', r'. auto.
Qed.

(** A successful execution is the last event, and the run hands back what
    [done] says. *)
Lemma run_trace_success_last {A} (done : ExecutionResult -> pyresult A -> Prop)
    (evs : list Event) (res : pyresult A) :
  run_trace done evs res ->
  forall before code r after, evs = before ++ Executed code r :: after ->
    success r = true -> after = [] /\ done r res.
Proof.
  intros H.
  induction H as [res | code0 r0 res Hs Hd | code0 r0 evs res Hs H IH
                 | code0 r0 a0 evs res Hs Hr H IH];
    intros before code r after E Hsucc.
  - destruct before; discriminate.
  - destruct before as [|x [|y before]]; try discriminate.
    injection E as <- <- <-. auto.
  - destruct before as [|x before].
    + injection E as <- <- _. congruence.
    + injection E as <- E. eapply IH; eassumption.
  - destruct before as [|x [|y before]]; try discriminate.
    + injection E as <- <- _. congruence.
    + injection E as <- <- E. eapply IH; eassumption.
Qed.

(** *** The two steps that write events *)

Lemma execute_and_remember_emits (code : pystr) :
  emits (execute_and_remember rt code)
    (fun evs r => match r with
                  | Ok result => evs = [Executed code result]
                  | _ => evs = []
                  end).
Proof.
  intros s. unfold execute_and_remember, bind, gets, in_world, modify.
  pose proof (execute_code_silent rt code (current_data (self s)) (world s)) as H.
  destruct (execute_code rt code (current_data (self s)) (world s))
    as [[[result data'] | e |] w'] eqn:E; simpl in *.
  - exists [Executed code result]. rewrite H. auto.
  - exists []. rewrite H, app_nil_r. auto.
  - exists []. rewrite H, app_nil_r. auto.
Qed.

Lemma append_attempt_emits (ref : nat) (a : AttemptRecord) :
  emits (append_attempt ref a) (fun evs r => evs = [Recorded a] /\ r = Ok tt).
Proof. intros s. exists [Recorded a]. simpl. auto. Qed.

(** *** Rules for traces of the shape [run_trace] *)

Lemma reply_done_ok (r : ExecutionResult) (res : pyresult Reply) :
  reply_done rt r res -> exists a, res = Ok a.
Proof. unfold reply_done. intros ->. eauto. Qed.

Lemma flow_done_ok (r : ExecutionResult) (res : pyresult Flow) :
  flow_done rt r res -> exists a, res = Ok a.
Proof. unfold flow_done. intros ->. eauto. Qed.

(** Sequencing: after a value on which the first part may have ended with a
    successful execution, the second part must be silent and hand back what
    [done] asks for; after any other value it may go on with events. *)
Lemma emits_then {A B} (dm : ExecutionResult -> pyresult A -> Prop)
    (d : ExecutionResult -> pyresult B -> Prop)
    (m : M State A) (k : A -> M State B) :
  (forall r res, dm r res -> exists a, res = Ok a) ->
  emits m (run_trace dm) ->
  (forall a,
     ((forall r, success r = true -> ~ dm r (Ok a)) /\ emits (k a) (run_trace d))
     \/ (silent (k a) /\ forall s r, dm r (Ok a) -> d r (fst (k a s)))) ->
  emits (bind m k) (run_trace d).
Proof.
  intros Hok Hm Hk s. unfold bind.
  destruct (Hm s) as (evs & Ht & Hq).
  destruct (m s) as [[a | e |] s']; simpl in *.
  - destruct (Hk a) as [[Hopen Hka] | [Hsil Hd]].
    + destruct (Hka s') as (evs' & Ht' & Hq').
      exists (evs ++ evs'). rewrite Ht', Ht, app_assoc. split; [reflexivity|].
      eapply run_trace_app; eassumption.
    + exists evs. rewrite Hsil. split; [exact Ht|].
      eapply run_trace_change; [exact Hq|]. intros r _. apply Hd.
  - exists evs. split; [exact Ht|].
    eapply run_trace_change; [exact Hq|].
    intros r _ H. apply Hok in H as [a H]. discriminate.
  - exists evs. split; [exact Ht|].
    eapply run_trace_change; [exact Hq|].
    intros r _ H. apply Hok in H as [a H]. discriminate.
Qed.

(** A [try] statement whose handler is silent. *)
Lemma emits_try {A} (d : ExecutionResult -> pyresult A -> Prop)
    (m : M State A) (h : PyExc -> M State A) :
  (forall r res, d r res -> exists a, res = Ok a) ->
  emits m (run_trace d) -> (forall e, silent (h e)) ->
  emits (try_except m h) (run_trace d).
Proof.
  intros Hok Hm Hh. apply emits_try_except.
  eapply emits_mono; [exact Hm|].
  intros evs [a | e |] H; try exact H.
  destruct (exc_catchable e); [|exact H].
  intros s. exists []. rewrite Hh, !app_nil_r. split; [reflexivity|].
  eapply run_trace_change; [exact H|].
  intros r _ Hd. apply Hok in Hd as [a Hd]. discriminate.
Qed.

(** An execution outside the repair loop: logged, then its formatted result
    is handed back. *)
Lemma log_then_return {A} (ev : Event) (f : ForecastingAgent -> ForecastingAgent)
    (x : A) (Q : list Event -> pyresult A -> Prop) :
  Q [ev] (Ok x) ->
  emits (let* _ := modify (on_world (log ev)) in
         let* _ := modify (on_self f) in
         ret x) Q.
Proof. intros H s. exists [ev]. split; [reflexivity | exact H]. Qed.

(** *** The three bodies *)

Ltac quiet := first [apply run_trace_quiet | split; intros; apply run_nil].

Ltac hush :=
  first
    [ apply silent_gets | apply context_get_silent | apply silent_lift
    | apply invoke_silent | apply data_context_silent
    | apply store_interaction_silent | apply query_prompt_silent
    | apply new_attempt_history_silent | apply read_attempt_history_silent
    | apply process_dataset_silent | apply silent_on_self
    | apply silent_ret | apply silent_raise
    | apply silent_lifted; first [apply input_silent | apply execute_code_silent] ].

Ltac step := apply emits_bind_silent; [hush | quiet | intros ?].
Tactic Notation "step" "as" simple_intropattern(x) :=
  apply emits_bind_silent; [hush | quiet | intros x].
Ltac stop := first [apply emits_ret, run_nil | apply emits_silent; [hush | intros; apply run_nil]].

Lemma process_query_body_emits
    (plan : pystr -> pystr -> M State Reply) (query : pystr) :
  (forall r q, emits (plan r q) (run_trace (reply_done rt))) ->
  emits (process_query_body rt plan query) (run_trace (reply_done rt)).
Proof.
  intros Hplan. unfold process_query_body.
  destruct (PyStr.startswith "fix" (PyStr.lower query)).
  - step. step.
    destruct (negb _ || negb _); [stop|].
    destruct (negb _); [stop|].
    step. apply Hplan.
  - step as model. destruct model; [|stop].
    apply emits_try; [apply reply_done_ok | | intros e; hush].
    step. step. step. apply Hplan.
Qed.

Lemma plan_and_execute_body_emits
    (plan : pystr -> pystr -> M State Reply)
    (loop : pystr -> nat -> nat -> pystr -> option pystr -> M State Flow)
    (llm_response original_query : pystr) :
  (forall r q, emits (plan r q) (run_trace (reply_done rt))) ->
  (forall q h n c e, emits (loop q h n c e) (run_trace (flow_done rt))) ->
  emits (plan_and_execute_body rt plan loop llm_response original_query)
    (run_trace (reply_done rt)).
Proof.
  intros Hplan Hloop. unfold plan_and_execute_body.
  apply emits_try; [apply reply_done_ok | | intros e; hush].
  destruct (PyStr.startswith "fix" (PyStr.lower original_query)).
  - step. step. step as [[rows cols] date_dtype].
    step. step. step. apply Hplan.
  - step as parsed. destruct (p_action parsed) as [action|]; [|stop].
    destruct (negb (PyStr.truthy action)); [stop|].
    destruct (PyStr.eqb action "CODE_GENERATION").
    { destruct (negb (PyStr.truthy_opt (p_code parsed))); [stop|].
      step.
      apply (emits_then (flow_done rt)); [apply flow_done_ok | apply Hloop |].
      intros [c e | r | |].
      - left. split; [unfold flow_done; intros r _ [=]|]. step. stop.
      - right. split; [hush|]. unfold flow_done, reply_done. intros s r0 [= ->]. reflexivity.
      - left. split; [unfold flow_done; intros r _ [=]|]. step. stop.
      - left. split; [unfold flow_done; intros r _ [=]|]. step. stop. }
    destruct (PyStr.eqb action "FORECAST").
    { step as data. destruct data; [|stop]. step. step. step. stop. }
    destruct (PyStr.eqb action "DATA_ANALYSIS").
    { step. step. step. step. stop. }
    destruct (PyStr.eqb action "CODE_EXECUTION").
    { step as data. destruct data; [|stop]. step as answer.
      destruct (PyStr.eqb (PyStr.lower answer) "yes"); [|stop].
      destruct (p_explanation parsed) as [snippet|]; [|stop].
      step as [result data'].
      apply log_then_return.
      destruct (success result) eqn:Hs.
      - apply run_succeeded; [exact Hs | reflexivity].
      - apply run_failed; [exact Hs | apply run_nil]. }
    step. stop.
Qed.

Lemma repair_loop_body_emits
    (loop : pystr -> nat -> nat -> pystr -> option pystr -> M State Flow)
    (ask : pystr -> M State Reply)
    (original_query : pystr) (history attempt : nat) (code : pystr)
    (explanation : option pystr) :
  (forall q h n c e, emits (loop q h n c e) (run_trace (flow_done rt))) ->
  (forall q, emits (ask q) (run_trace (reply_done rt))) ->
  emits (repair_loop_body rt loop ask original_query history attempt code explanation)
    (run_trace (flow_done rt)).
Proof.
  intros Hloop Hask. unfold repair_loop_body. cbv zeta.
  step as answer.
  destruct (PyStr.eqb (PyStr.lower answer) "quit"); [stop|].
  destruct (negb (PyStr.eqb (PyStr.lower answer) "yes")); [apply Hloop|].
  eapply emits_bind; [apply execute_and_remember_emits | | |].
  2: { intros evs e ->. apply run_nil. }
  2: { intros evs ->. apply run_nil. }
  intros evs result ->.
  destruct (success result) eqn:Hs.
  { apply emits_ret. apply run_succeeded; [exact Hs | reflexivity]. }
  eapply emits_bind; [apply append_attempt_emits | | |].
  2: { intros evs e [_ [=]]. }
  2: { intros evs [_ [=]]. }
  intros evs [] [-> _].
  eapply emits_mono.
  2: { intros evs r H. simpl. apply run_recorded; [exact Hs | | exact H].
       repeat split. }
  step as [[rows cols] date_dtype].
  step. step. step. step as fix_response.
  apply (emits_then (flow_done rt)); [apply flow_done_ok | |].
  - apply emits_try; [apply flow_done_ok | |].
    + step as found. destruct found as [[code' explanation']|]; [stop|].
      step as choice. destruct (PyStr.eqb choice "2").
      * apply (emits_then (reply_done rt)); [apply reply_done_ok | apply Hask |].
        intros r. right. split; [hush|].
        unfold reply_done, flow_done. intros s r0 [= ->]. reflexivity.
      * destruct (PyStr.eqb choice "3"); stop.
    + intros e. apply silent_bind; [hush|]. intros u.
      destruct (negb _); hush.
  - intros [c e | r | |].
    + left. split; [unfold flow_done; intros r _ [=]|]. apply Hloop.
    + right. split; [hush|]. intros s r0 H. exact H.
    + left. split; [unfold flow_done; intros r _ [=]|]. step. apply Hloop.
    + right. split; [hush|]. intros s r0 H. exact H.
Qed.

(** *** Every run has a trace of that shape *)

Lemma runs_emit (fuel : nat) :
  (forall q, emits (process_query rt fuel q) (run_trace (reply_done rt)))
  /\ (forall r q, emits (plan_and_execute rt fuel r q) (run_trace (reply_done rt)))
  /\ (forall q h n c e,
        emits (repair_loop rt fuel q h n c e) (run_trace (flow_done rt))).
Proof.
  assert (forall fuel,
            (forall fuel', fuel = S fuel' ->
               (forall q, emits (process_query rt fuel' q) (run_trace (reply_done rt)))
               /\ (forall r q, emits (plan_and_execute rt fuel' r q)
                                 (run_trace (reply_done rt)))
               /\ (forall q h n c e, emits (repair_loop rt fuel' q h n c e)
                                       (run_trace (flow_done rt)))) ->
            (forall q, emits (process_query rt fuel q) (run_trace (reply_done rt)))
            /\ (forall r q, emits (plan_and_execute rt fuel r q)
                              (run_trace (reply_done rt)))
            /\ (forall q h n c e, emits (repair_loop rt fuel q h n c e)
                                    (run_trace (flow_done rt)))) as Hstep.
  { clear fuel. intros fuel IH.
    assert (forall r q,
              emits (call fuel (fun fuel' => plan_and_execute rt fuel' r q))
                (run_trace (reply_done rt))) as Hplan.
    { intros r q. apply emits_call; [apply run_nil|].
      intros fuel' E. apply (IH fuel' E). }
    assert (forall q h n c e,
              emits (call fuel (fun fuel' => repair_loop rt fuel' q h n c e))
                (run_trace (flow_done rt))) as Hloop.
    { intros q h n c e. apply emits_call; [apply run_nil|].
      intros fuel' E. apply (IH fuel' E). }
    assert (forall q,
              emits (call fuel (fun fuel' => process_query rt fuel' q))
                (run_trace (reply_done rt))) as Hask.
    { intros q. apply emits_call; [apply run_nil|].
      intros fuel' E. apply (IH fuel' E). }
    split; [|split].
    - intros q. rewrite process_query_unfold.
      apply process_query_body_emits. exact Hplan.
    - intros r q. rewrite plan_and_execute_unfold.
      apply plan_and_execute_body_emits; assumption.
    - intros q h n c e. rewrite repair_loop_unfold.
      apply repair_loop_body_emits; assumption. }
  induction fuel as [|fuel IH]; apply Hstep.
  - intros fuel' [=].
  - intros fuel' [= <-]. exact IH.
Qed.

Lemma run_trace_orderly {A} (done : ExecutionResult -> pyresult A -> Prop)
    (evs : list Event) (res : pyresult A) :
  run_trace done evs res -> orderly done evs res.
Proof.
  intros H. split.
  - apply (run_trace_recorded _ _ _ H).
  - apply (run_trace_success_last _ _ _ H).
Qed.

End Runs.

(** C4.  In every run of the repair loop, and of [_plan_and_execute] around
    it, the events added to the trace are orderly: an attempt record is
    only ever appended right after an execution result with [success] false,
    which it describes; and an execution result with [success] true is the
    last event of the run, so that nothing is executed or recorded after it,
    and the run returns the formatted result at once. *)
Theorem C4_attempts_follow_failures (rt : Runtime) (fuel : nat) (s : State) :
  (forall original_query history attempt code explanation,
     let run := repair_loop rt fuel original_query history attempt code explanation s in
     exists evs,
       trace (world (snd run)) = trace (world s) ++ evs
       /\ orderly (flow_done rt) evs (fst run))
  /\ (forall llm_response original_query,
        let run := plan_and_execute rt fuel llm_response original_query s in
        exists evs,
          trace (world (snd run)) = trace (world s) ++ evs
          /\ orderly (reply_done rt) evs (fst run)).
Proof.
  destruct (runs_emit rt fuel) as (_ & Hplan & Hloop).
  split.
  - intros q h n c e. cbv zeta.
    destruct (Hloop q h n c e s) as (evs & Ht & Hq).
    exists evs. split; [exact Ht | apply run_trace_orderly; exact Hq].
  - intros r q. cbv zeta.
    destruct (Hplan r q s) as (evs & Ht & Hq).
    exists evs. split; [exact Ht | apply run_trace_orderly; exact Hq].
Qed.

(** A run of the loop on the sample frame: the first snippet fails and is
    recorded, the operator hesitates, the repaired snippet succeeds and its
    formatted result is returned. *)
Lemma repair_run_example :
  let oracle := fun (n : nat) (_ : Prompt) =>
                  match n with
                  | O => Ok Sample.closed_block
                  | _ => Ok Sample.repaired
                  end in
  let run := process_query (Sample.runtime oracle) 10 "total value"
               (Sample.session Sample.loaded_agent
                  [("yes" : pystr); ("maybe" : pystr); ("yes" : pystr)]) in
  exists r1 a r2,
    trace (world (snd run))
    = [Executed "raise ValueError('boom')" r1; Recorded a;
       Executed "result = df['value'].sum()" r2]
    /\ success r1 = false /\ attempt_number a = 1%nat /\ success r2 = true
    /\ results r2 = Some [(("result" : pystr), PyInt 6)]
    /\ fst run = Ok (Text (format_code_output (Sample.runtime oracle) r2)).
Proof.
  cbv zeta. eexists _, _, _.
  split; [vm_compute; reflexivity|].
  repeat split; vm_compute; reflexivity.
Qed.

(** * Further properties of the code *)

(** ** The dependency resolver *)
Section Resolver.
Variable rt : Runtime.

(** What the first loop has established when it ends normally. *)
Lemma missing_packages_Ok (required : list pystr) (w : World) :
  forall missing,
    missing_packages rt required w = Ok missing ->
    forall module, module ∈ required ->
      module ∈ stdlib_module_names rt \/ module ∈ importable w \/ module ∈ missing.
Proof.
  induction required as [|m required IH]; intros missing H module Hin.
  - inversion Hin.
  - cbn [missing_packages] in H.
    destruct (bool_decide_reflect (m ∈ stdlib_module_names rt)) as [Hs|Hs].
    + apply elem_of_cons in Hin as [-> | Hin]; [left; exact Hs|].
      exact (IH missing H module Hin).
    + unfold import_module in H. destruct m as [|c m]; [discriminate|].
      destruct (bool_decide_reflect ((c :: m) ∈ importable w)) as [Hi|Hi].
      * apply elem_of_cons in Hin as [-> | Hin]; [right; left; exact Hi|].
        exact (IH missing H module Hin).
      * change (is_import_error _) with true in H. cbv iota in H.
        destruct (missing_packages rt required w) as [l | e |]; try discriminate.
        injection H as <-.
        apply elem_of_cons in Hin as [-> | Hin].
        -- right. right. apply elem_of_cons. left. reflexivity.
        -- destruct (IH l eq_refl module Hin) as [? | [? | ?]]; auto.
           right. right. apply elem_of_cons. right. assumption.
Qed.

(** An empty name among the modules outside the standard library stops the
    loop. *)
Lemma missing_packages_empty_name (required : list pystr) (w : World) :
  ([] : pystr) ∈ required -> ([] : pystr) ∉ stdlib_module_names rt ->
  missing_packages rt required w = Raise (py_error "ValueError" "Empty module name").
Proof.
  intros Hin Hstd. induction required as [|m required IH]; [inversion Hin|].
  cbn [missing_packages].
  destruct (bool_decide_reflect (m ∈ stdlib_module_names rt)) as [Hs|Hs].
  - apply elem_of_cons in Hin as [<- | Hin]; [contradiction | auto].
  - destruct m as [|c m]; [reflexivity|].
    apply elem_of_cons in Hin as [Hin | Hin]; [discriminate|].
    unfold import_module.
    destruct (bool_decide ((c :: m) ∈ importable w)); [auto|].
    change (is_import_error _) with true. cbv iota. rewrite (IH Hin). reflexivity.
Qed.

Lemma install_all_true (packages : list pystr) (w : World) :
  fst (install_all rt packages w) = Ok true ->
  forall p, p ∈ packages -> exists mods, pip_install rt p = Some mods.
Proof.
  revert w. induction packages as [|p rest IH]; intros w H q Hq.
  - inversion Hq.
  - simpl in H. unfold bind, gets, install_package in H.
    destruct (pip_install rt p) as [mods|] eqn:Hpip; simpl in H; [|discriminate].
    destruct (bool_decide (p ∈ mods ++ importable w)); simpl in H; [|discriminate].
    apply elem_of_cons in Hq as [-> | Hq]; [eauto|].
    eapply IH; eassumption.
Qed.

(** X1.  [check_and_install_dependencies] answers [True] only when every
    module name that [extract_imports_from_code] reports for the snippet is
    in the standard library, or could be imported when the check began, or
    has been installed by pip during the check; and no reported name is
    empty then.  The snippet is taken to be ASCII, so that the names the
    fallback of [extract_imports_from_code] reports are those Python's
    [strip] gives. *)
Theorem dependencies_satisfied_are_importable (code : pystr) (w w' : World) :
  PyStr.isascii code = true ->
  check_and_install_dependencies rt code w = (Ok true, w') ->
  forall module, module ∈ extract_imports_from_code rt code ->
    module ∈ stdlib_module_names rt
    \/ module <> [] /\ (module ∈ importable w
                        \/ exists mods, pip_install rt module = Some mods).
Proof.
  unfold check_and_install_dependencies.
  set (required := extract_imports_from_code rt code).
  intros _ H module Hreq. unfold bind at 1 in H.
  destruct (bool_decide_reflect (module ∈ stdlib_module_names rt)) as [Hs|Hs];
    [left; exact Hs|].
  right. split.
  { intros ->. rewrite (missing_packages_empty_name required w Hreq Hs) in H.
    discriminate. }
  destruct (missing_packages rt required w) as [missing | e |] eqn:Hmissing;
    try discriminate.
  destruct (missing_packages_Ok _ _ _ Hmissing module Hreq) as [? | [? | Hm]];
    [contradiction | left; assumption |].
  right. destruct missing as [|p missing]; [inversion Hm|].
  unfold bind, input in H. destruct (stdin w) as [|answer rest]; [discriminate|].
  destruct (PyStr.eqb (PyStr.lower answer) "yes"); [|discriminate].
  apply (install_all_true (p :: missing) (set_stdin rest w)); [|exact Hm].
  destruct (install_all rt (p :: missing) (set_stdin rest w)) as [res w2].
  injection H as -> _. reflexivity.
Qed.

Lemma dependencies_declined (code answer : pystr) (rest missing : list pystr) (w : World) :
  missing_packages rt (extract_imports_from_code rt code) w = Ok missing ->
  missing <> [] ->
  stdin w = answer :: rest ->
  PyStr.lower answer <> ("yes" : pystr) ->
  check_and_install_dependencies rt code w = (Ok false, set_stdin rest w).
Proof.
  intros Hmissing Hne Hin Hno.
  unfold check_and_install_dependencies, bind. rewrite Hmissing.
  destruct missing as [|p missing]; [congruence|].
  unfold input. rewrite Hin. unfold PyStr.eqb.
  rewrite bool_decide_eq_false_2 by assumption. reflexivity.
Qed.

(** X3.  When the first loop of the check ends normally with a missing
    module and the operator answers anything but "yes" (in any case),
    [execute_code] returns the "packages not installed" failure without an
    error context.  It has read that one line, installed nothing, and hands
    the frame back as it got it: not even the date conversion has run.  The
    snippet is taken to be ASCII, as for the names reported. *)
Theorem execute_code_after_declined_install (code answer : pystr)
    (rest missing : list pystr) (df : option Pandas.DataFrame) (w : World) :
  PyStr.isascii code = true ->
  missing_packages rt (extract_imports_from_code rt (silence_plotly code)) w
  = Ok missing ->
  missing <> [] ->
  stdin w = answer :: rest ->
  PyStr.lower answer <> ("yes" : pystr) ->
  execute_code rt code df w
  = (Ok ({| output := "Required packages not installed. Cannot execute code.";
            results := None; success := false;
            debug_info := None; error_context := None |}, df),
     set_stdin rest w).
Proof.
  intros _ Hmissing Hne Hin Hno. unfold execute_code, bind.
  rewrite (dependencies_declined _ _ _ _ _ Hmissing Hne Hin Hno). reflexivity.
Qed.

(** X4.  The check runs before the [try] of [execute_code], so what it
    raises is raised to the caller of [execute_code], not turned into a
    failure result.  When a module is missing and the input is at its end,
    that is the [EOFError] of the prompt; when an empty module name is
    reported (as for [import a,,b]), it is the [ValueError] of the import,
    and the operator is not asked anything.  The snippet is taken to be
    ASCII, as for the names reported. *)
Theorem execute_code_lets_prompt_failure_out (code : pystr)
    (df : option Pandas.DataFrame) (w : World) :
  PyStr.isascii code = true ->
  (forall missing,
     missing_packages rt (extract_imports_from_code rt (silence_plotly code)) w
     = Ok missing ->
     missing <> [] ->
     stdin w = [] ->
     execute_code rt code df w
     = (Raise (py_error "EOFError" "EOF when reading a line"), w))
  /\ (([] : pystr) ∈ extract_imports_from_code rt (silence_plotly code) ->
      ([] : pystr) ∉ stdlib_module_names rt ->
      execute_code rt code df w
      = (Raise (py_error "ValueError" "Empty module name"), w)).
Proof.
  intros _. split.
  - intros missing Hmissing Hne Hin.
    unfold execute_code, check_and_install_dependencies, bind. rewrite Hmissing.
    destruct missing as [|p missing]; [congruence|].
    unfold input. rewrite Hin. reflexivity.
  - intros Hempty Hstd.
    unfold execute_code, check_and_install_dependencies, bind.
    rewrite (missing_packages_empty_name _ w Hempty Hstd). reflexivity.
Qed.

End Resolver.

Lemma dependencies_satisfied_are_importable_witness :
  ("numpy" : pystr) ∈ stdlib_module_names (Bench.runtime "torch" Sample.mute)
  \/ ("numpy" : pystr) <> []
     /\ (("numpy" : pystr) ∈ importable (Sample.quiet_world [("YES" : pystr)])
         \/ exists mods,
              pip_install (Bench.runtime "torch" Sample.mute) "numpy" = Some mods).
Proof.
  apply (dependencies_satisfied_are_importable (Bench.runtime "torch" Sample.mute)
           "import requests, numpy.linalg" (Sample.quiet_world [("YES" : pystr)])
           {| stdin := []; llm_calls := 0;
              importable := [("numpy" : pystr); ("requests" : pystr)];
              clock := 0; attempt_lists := []; trace := [] |}).
  - reflexivity.
  - vm_compute. reflexivity.
  - vm_compute. repeat constructor.
Defined.

Lemma execute_code_after_declined_install_witness :
  execute_code (Sample.runtime Sample.mute) "import requests" (Some Sample.sales)
    (Sample.quiet_world [("no" : pystr); ("yes" : pystr)])
  = (Ok ({| output := "Required packages not installed. Cannot execute code.";
            results := None; success := false;
            debug_info := None; error_context := None |}, Some Sample.sales),
     set_stdin [("yes" : pystr)] (Sample.quiet_world [("no" : pystr); ("yes" : pystr)])).
Proof.
  apply (execute_code_after_declined_install _ _ ("no" : pystr) _
           [("requests" : pystr)]).
  - reflexivity.
  - vm_compute. reflexivity.
  - discriminate.
  - reflexivity.
  - vm_compute. discriminate.
Defined.

Lemma execute_code_lets_prompt_failure_out_witness :
  execute_code (Sample.runtime Sample.mute) "import requests" (Some Sample.sales)
    (Sample.quiet_world [])
  = (Raise (py_error "EOFError" "EOF when reading a line"), Sample.quiet_world [])
  /\ execute_code (Sample.runtime Sample.mute) "import a,,b" (Some Sample.sales)
       (Sample.quiet_world [("yes" : pystr)])
     = (Raise (py_error "ValueError" "Empty module name"),
        Sample.quiet_world [("yes" : pystr)]).
Proof.
  split.
  - apply (proj1 (execute_code_lets_prompt_failure_out (Sample.runtime Sample.mute)
                    "import requests" (Some Sample.sales) (Sample.quiet_world [])
                    eq_refl)
             [("requests" : pystr)]).
    + vm_compute. reflexivity.
    + discriminate.
    + reflexivity.
  - apply (proj2 (execute_code_lets_prompt_failure_out (Sample.runtime Sample.mute)
                    "import a,,b" (Some Sample.sales)
                    (Sample.quiet_world [("yes" : pystr)]) eq_refl)).
    + vm_compute. repeat constructor.
    + vm_compute. intros H. repeat (apply elem_of_cons in H as [H | H]; [discriminate|]).
      inversion H.
Defined.

(** ** More on the execution sandbox *)
Section SandboxShape.
Variable rt : Runtime.

(** X5.  The two shapes of a result of [execute_code].  A success carries
    its bindings and a [debug_info] whose step is "collecting results", and
    no [error_context]; a failure carries neither bindings nor a
    [debug_info] of its own.  So the [result.get('debug_info', {})] of the
    repair loop, which only sees failures, always gets the default. *)
Theorem execute_code_result_shapes (code : pystr) (df df' : option Pandas.DataFrame)
    (w w' : World) (r : ExecutionResult) :
  execute_code rt code df w = (Ok (r, df'), w') ->
  (success r = true ->
   error_context r = None
   /\ exists res, results r = Some res
   /\ debug_info r = Some {| data_info := option_map data_info_of df;
                              imports_loaded := [];
                              execution_step := "collecting results" |})
  /\ (success r = false -> results r = None /\ debug_info r = None).
Proof.
  unfold execute_code, bind.
  destruct (check_and_install_dependencies rt (silence_plotly code) w)
    as [[[|] | e |] w1]; try discriminate; simpl.
  - unfold try_execute, try_block. cbv zeta.
    destruct (bind_dataset rt df) as [df1 | e |];
      cbn [exit debug_at_exit frame_at_exit].
    + destruct (raised _) as [e|]; cbn [exit debug_at_exit frame_at_exit].
      * destruct (exc_catchable e); [|discriminate].
        intros [= <- _ _]. split; [discriminate | auto].
      * intros [= <- _ _]. split; [|discriminate].
        intros _. split; [reflexivity|]. eexists. split; reflexivity.
    + destruct (exc_catchable e); [|discriminate].
      intros [= <- _ _]. split; [discriminate | auto].
    + discriminate.
  - intros [= <- _ _]. split; [discriminate | auto].
Qed.

(** X6.  When the conversion of the [date] column raises, [execute_code]
    returns a failure whose step is still "initializing" and which names the
    exception; the snippet has not run and the caller's frame is handed back
    unchanged. *)
Theorem execute_code_unconvertible_dates (code : pystr) (d : Pandas.DataFrame)
    (w w1 : World) (e : PyExc) :
  check_and_install_dependencies rt (silence_plotly code) w = (Ok true, w1) ->
  Pandas.has_column d "date" = true ->
  Pandas.to_datetime (parse_datetime rt) (Pandas.getitem d "date") = Raise e ->
  exc_catchable e = true ->
  exists r,
    execute_code rt code (Some d) w = (Ok (r, Some d), w1)
    /\ success r = false
    /\ error_context r
       = Some {| error_type := exc_type e; error_msg := exc_msg e;
                 err_debug_info := {| data_info := Some (data_info_of d);
                                      imports_loaded := [];
                                      execution_step := "initializing" |};
                 traceback := exc_traceback e |}.
Proof.
  intros Hcheck Hdate Hconv Hcatch.
  rewrite (execute_code_checked _ _ _ _ _ Hcheck).
  unfold try_execute, try_block, bind_dataset. cbv zeta.
  rewrite Hdate, Hconv. cbn [exit debug_at_exit frame_at_exit]. rewrite Hcatch.
  eexists. split; [reflexivity|]. split; reflexivity.
Qed.

(** *** The date conversion *)

Lemma to_datetime_cells_converted (l vs : list Pandas.cell) :
  Pandas.to_datetime_cells (parse_datetime rt) l = Ok vs ->
  length vs = length l
  /\ Forall (fun c => c = Pandas.NaN \/ exists t, c = Pandas.Timestamp t) vs.
Proof.
  revert vs. induction l as [|c l IH]; intros vs; simpl.
  - intros [= <-]. split; [reflexivity | constructor].
  - destruct (Pandas.to_datetime_cell (parse_datetime rt) c) as [c' | e |] eqn:Ec;
      try discriminate.
    destruct (Pandas.to_datetime_cells (parse_datetime rt) l) as [r | e |];
      try discriminate.
    intros [= <-]. destruct (IH r eq_refl) as [Hlen Hall].
    split; [simpl; congruence|]. constructor; [|exact Hall].
    destruct c as [| s | z | b | t]; simpl in Ec.
    + injection Ec as <-. left. reflexivity.
    + destruct (parse_datetime rt s) as [[t|] | e |]; try discriminate;
        injection Ec as <-; eauto.
    + injection Ec as <-. eauto.
    + discriminate.
    + injection Ec as <-. eauto.
Qed.

Lemma to_datetime_cells_again (vs : list Pandas.cell) :
  Forall (fun c => c = Pandas.NaN \/ exists t, c = Pandas.Timestamp t) vs ->
  Pandas.to_datetime_cells (parse_datetime rt) vs = Ok vs.
Proof.
  induction 1 as [|c vs Hc _ IH]; simpl; [reflexivity|].
  destruct Hc as [-> | [t ->]]; simpl; rewrite IH; reflexivity.
Qed.

Lemma has_column_filter (d : Pandas.DataFrame) (k : pystr) :
  Pandas.has_column d k = true <->
  List.filter (fun s => PyStr.eqb (Pandas.name s) k) (Pandas.columns d) <> [].
Proof.
  unfold Pandas.has_column. induction (Pandas.columns d) as [|c cs IH]; simpl.
  - split; [discriminate | congruence].
  - destruct (PyStr.eqb (Pandas.name c) k); simpl.
    + split; [discriminate | reflexivity].
    + exact IH.
Qed.

Lemma filter_setitem (cs : list Pandas.Series) (k : pystr) (s : Pandas.Series) :
  List.filter (fun c => PyStr.eqb (Pandas.name c) k)
    (map (fun c => if PyStr.eqb (Pandas.name c) k
                   then {| Pandas.name := Pandas.name c;
                           Pandas.dtype_of := Pandas.dtype_of s;
                           Pandas.values := Pandas.values s |}
                   else c) cs)
  = map (fun c => {| Pandas.name := Pandas.name c;
                     Pandas.dtype_of := Pandas.dtype_of s;
                     Pandas.values := Pandas.values s |})
      (List.filter (fun c => PyStr.eqb (Pandas.name c) k) cs).
Proof.
  induction cs as [|c cs IH]; simpl; [reflexivity|].
  destruct (PyStr.eqb (Pandas.name c) k) eqn:E; simpl; rewrite ?E, IH; reflexivity.
Qed.

(** What a successful conversion is made of. *)
Lemma bind_dataset_converted (d d1 : Pandas.DataFrame) :
  Pandas.has_column d "date" = true ->
  bind_dataset rt (Some d) = Ok (Some d1) ->
  exists c vs,
    Pandas.getitem d "date" = Pandas.OneColumn c
    /\ Pandas.to_datetime_cells (parse_datetime rt) (Pandas.values c) = Ok vs
    /\ d1 = Pandas.setitem d "date"
              {| Pandas.name := Pandas.name c; Pandas.dtype_of := Pandas.datetime64;
                 Pandas.values := vs |}.
Proof.
  intros Hdate. unfold bind_dataset. rewrite Hdate.
  destruct (Pandas.getitem d "date") as [| c | l] eqn:Hget; simpl; try discriminate.
  destruct (Pandas.to_datetime_cells (parse_datetime rt) (Pandas.values c))
    as [vs | e |] eqn:Hvs; try discriminate.
  intros [= <-]. eauto.
Qed.

(** Converting twice changes nothing more: a frame that came out of the
    conversion is bound as it is. *)
Lemma date_conversion_idempotent (d d1 : Pandas.DataFrame) :
  bind_dataset rt (Some d) = Ok (Some d1) ->
  bind_dataset rt (Some d1) = Ok (Some d1).
Proof.
  intros Hbind.
  destruct (Pandas.has_column d "date") eqn:Hdate.
  2: { unfold bind_dataset in Hbind. rewrite Hdate in Hbind. injection Hbind as <-.
       unfold bind_dataset. rewrite Hdate. reflexivity. }
  destruct (bind_dataset_converted _ _ Hdate Hbind) as (c0 & vs & Hget & Hvs & ->).
  destruct (to_datetime_cells_converted _ _ Hvs) as [_ Hall].
  set (s := {| Pandas.name := Pandas.name c0; Pandas.dtype_of := Pandas.datetime64;
               Pandas.values := vs |}).
  assert (Pandas.getitem (Pandas.setitem d "date" s) "date" = Pandas.OneColumn s) as Hget1.
  { unfold Pandas.getitem, Pandas.setitem in *. cbn [Pandas.columns].
    rewrite (filter_setitem (Pandas.columns d) "date" s).
    destruct (List.filter _ (Pandas.columns d)) as [|x [|y l]] eqn:Hf; try discriminate.
    injection Hget as <-. reflexivity. }
  assert (Pandas.has_column (Pandas.setitem d "date" s) "date" = true) as Hdate1.
  { apply has_column_filter. fold (Pandas.getitem (Pandas.setitem d "date" s) "date") in Hget1.
    unfold Pandas.getitem in Hget1.
    destruct (List.filter _ (Pandas.columns (Pandas.setitem d "date" s)));
      [discriminate | discriminate]. }
  unfold bind_dataset. rewrite Hdate1, Hget1. unfold Pandas.to_datetime.
  change (Pandas.values s) with vs. rewrite (to_datetime_cells_again _ Hall).
  do 2 f_equal. unfold Pandas.setitem. simpl. f_equal.
  rewrite map_map. apply map_ext. intros c.
  destruct (PyStr.eqb (Pandas.name c) "date") eqn:E; simpl; rewrite E; reflexivity.
Qed.

(** The frame a failed execution with a bundle leaves, when the snippet does
    not touch it. *)
Lemma frame_after_failure (code : pystr) (d : Pandas.DataFrame) (w w' : World)
    (r : ExecutionResult) (df' : option Pandas.DataFrame) (b : DataInfo) :
  frame_untouched rt code ->
  execute_code rt code (Some d) w = (Ok (r, df'), w') ->
  bundle r = Some b ->
  b = data_info_of d
  /\ ((exists e, bind_dataset rt (Some d) = Raise e /\ df' = Some d)
      \/ exists d1, bind_dataset rt (Some d) = Ok (Some d1) /\ df' = Some d1).
Proof.
  intros Hkeep Hrun Hb.
  split; [eapply bundle_describes_input; eassumption|].
  apply execute_code_returns in Hrun as [(Hctx & _ & _) | (w1 & _ & Hrun)].
  { unfold bundle in Hb. rewrite Hctx in Hb. discriminate. }
  unfold try_execute, try_block in Hrun. cbv zeta in Hrun.
  destruct (bind_dataset rt (Some d)) as [df1 | e |] eqn:Hbind;
    cbn [exit debug_at_exit frame_at_exit] in Hrun.
  - right. destruct df1 as [d1|].
    2: { destruct (bind_dataset_cases _ _ _ Hbind) as [? | (_ & s & ?)]; discriminate. }
    exists d1. split; [reflexivity|].
    rewrite after_exec_untouched in Hrun by assumption.
    destruct (raised _) as [e|]; cbn [exit debug_at_exit frame_at_exit] in Hrun.
    + destruct (exc_catchable e); [|discriminate]. injection Hrun as _ <- _. reflexivity.
    + injection Hrun as _ <- _. reflexivity.
  - left. destruct (exc_catchable e); [|discriminate].
    injection Hrun as _ <- _. eauto.
  - discriminate.
Qed.

(** X8.  From the second execution on the bundle no longer changes: when a
    snippet that leaves the frame alone fails three times in succession on
    the same frame, each time with a diagnostic bundle, the second and the
    third bundle are equal. *)
Theorem bundles_settle_after_first_execution (code : pystr) (d : Pandas.DataFrame)
    (w w1 w2 w3 : World) (r1 r2 r3 : ExecutionResult)
    (df1 df2 df3 : option Pandas.DataFrame) (b1 b2 b3 : DataInfo) :
  frame_untouched rt code ->
  execute_code rt code (Some d) w = (Ok (r1, df1), w1) ->
  execute_code rt code df1 w1 = (Ok (r2, df2), w2) ->
  execute_code rt code df2 w2 = (Ok (r3, df3), w3) ->
  bundle r1 = Some b1 -> bundle r2 = Some b2 -> bundle r3 = Some b3 ->
  b2 = b3.
Proof.
  intros Hkeep Hrun1 Hrun2 Hrun3 Hb1 Hb2 Hb3.
  destruct (frame_after_failure _ _ _ _ _ _ _ Hkeep Hrun1 Hb1)
    as [_ [(e & Hbind & ->) | (d1 & Hbind & ->)]].
  - destruct (frame_after_failure _ _ _ _ _ _ _ Hkeep Hrun2 Hb2)
      as [-> [(e' & _ & ->) | (d2 & Hbind' & _)]]; [|congruence].
    destruct (frame_after_failure _ _ _ _ _ _ _ Hkeep Hrun3 Hb3) as [-> _].
    reflexivity.
  - pose proof (date_conversion_idempotent _ _ Hbind) as Hagain.
    destruct (frame_after_failure _ _ _ _ _ _ _ Hkeep Hrun2 Hb2)
      as [-> [(e' & Hbind' & _) | (d2 & Hbind' & ->)]]; [congruence|].
    assert (d2 = d1) as -> by congruence.
    destruct (frame_after_failure _ _ _ _ _ _ _ Hkeep Hrun3 Hb3) as [-> _].
    reflexivity.
Qed.

(** *** What is shown and what is remembered *)

Lemma join_header (head : pystr) (rest : list pystr) :
  exists tail, PyStr.join PyStr.nl (head :: rest) = head ++ tail.
Proof.
  destruct rest as [|x rest]; simpl.
  - exists []. rewrite app_nil_r. reflexivity.
  - eexists. reflexivity.
Qed.

Lemma format_code_output_begins (r : ExecutionResult) :
  exists tail, format_code_output rt r
               = PyStr.nl ++ ("=== Code Execution Results ===" : pystr) ++ tail.
Proof.
  unfold format_code_output. cbv zeta. cbn [app].
  match goal with
  | |- context [PyStr.join PyStr.nl (?head :: ?rest)] =>
      destruct (join_header head rest) as [tail ->]
  end.
  exists tail. rewrite <- app_assoc. reflexivity.
Qed.

Lemma format_code_output_truthy (r : ExecutionResult) :
  PyStr.truthy (format_code_output rt r) = true.
Proof.
  destruct (format_code_output_begins r) as [tail ->]. reflexivity.
Qed.

(** X9.  Whatever the result, [format_code_output] gives a text that begins
    with the header line, hence is never empty; for a failure it is exactly
    the header, the line "Execution Failed:" and the output of the result. *)
Theorem format_code_output_header (r : ExecutionResult) :
  (exists tail, format_code_output rt r
                = PyStr.nl ++ ("=== Code Execution Results ===" : pystr) ++ tail)
  /\ PyStr.truthy (format_code_output rt r) = true
  /\ (success r = false ->
      format_code_output rt r
      = PyStr.nl ++ ("=== Code Execution Results ===" : pystr) ++ PyStr.nl
        ++ PyStr.nl ++ ("Execution Failed:" : pystr) ++ PyStr.nl ++ output r).
Proof.
  split; [apply format_code_output_begins|].
  split; [apply format_code_output_truthy|].
  unfold format_code_output. cbv zeta.
  intros ->. cbn [app PyStr.join]. rewrite <- !app_assoc. reflexivity.
Qed.

End SandboxShape.

Lemma execute_code_result_shapes_witness :
  exists r df' w',
    execute_code (Sample.runtime Sample.mute) "result = df['value'].sum()"
      (Some Sample.sales) (Sample.quiet_world [])
    = (Ok (r, df'), w')
    /\ success r = true
    /\ ((success r = true ->
         error_context r = None
         /\ exists res, results r = Some res
         /\ debug_info r = Some {| data_info := option_map data_info_of (Some Sample.sales);
                                    imports_loaded := [];
                                    execution_step := "collecting results" |})
        /\ (success r = false -> results r = None /\ debug_info r = None)).
Proof.
  eexists _, _, _. split; [vm_compute; reflexivity|]. split; [reflexivity|].
  eapply (execute_code_result_shapes (Sample.runtime Sample.mute)
            "result = df['value'].sum()" (Some Sample.sales) _ (Sample.quiet_world [])).
  vm_compute. reflexivity.
Defined.

Lemma execute_code_unconvertible_dates_witness :
  exists r,
    execute_code (Sample.runtime Sample.mute) "df.head()" (Some Sample.undated)
      (Sample.quiet_world [])
    = (Ok (r, Some Sample.undated), Sample.quiet_world [])
    /\ success r = false
    /\ error_context r
       = Some {| error_type := "ValueError";
                 error_msg := "Unknown datetime string format, unable to parse: soon";
                 err_debug_info := {| data_info := Some (data_info_of Sample.undated);
                                      imports_loaded := [];
                                      execution_step := "initializing" |};
                 traceback := exc_traceback
                                (py_error "ValueError"
                                   "Unknown datetime string format, unable to parse: soon") |}.
Proof.
  apply (execute_code_unconvertible_dates (Sample.runtime Sample.mute) "df.head()"
           Sample.undated (Sample.quiet_world []) (Sample.quiet_world [])
           (py_error "ValueError"
              "Unknown datetime string format, unable to parse: soon")).
  - vm_compute. reflexivity.
  - vm_compute. reflexivity.
  - vm_compute. reflexivity.
  - reflexivity.
Defined.

(** The failing snippet, three times in succession on the sample frame: the
    first bundle differs from the second, the second is the third. *)
Lemma bundles_settle_after_first_execution_witness :
  exists r1 df1 r2 df2 r3 df3 b1 b2 b3,
    execute_code (Sample.runtime Sample.mute) "raise ValueError('boom')"
      (Some Sample.sales) (Sample.quiet_world [])
    = (Ok (r1, df1), Sample.quiet_world [])
    /\ execute_code (Sample.runtime Sample.mute) "raise ValueError('boom')"
         df1 (Sample.quiet_world [])
       = (Ok (r2, df2), Sample.quiet_world [])
    /\ execute_code (Sample.runtime Sample.mute) "raise ValueError('boom')"
         df2 (Sample.quiet_world [])
       = (Ok (r3, df3), Sample.quiet_world [])
    /\ bundle r1 = Some b1 /\ bundle r2 = Some b2 /\ bundle r3 = Some b3
    /\ b1 <> b2 /\ b2 = b3.
Proof.
  eexists _, _, _, _, _, _, _, _, _.
  split; [vm_compute; reflexivity|].
  split; [vm_compute; reflexivity|].
  split; [vm_compute; reflexivity|].
  split; [vm_compute; reflexivity|].
  split; [vm_compute; reflexivity|].
  split; [vm_compute; reflexivity|].
  split; [vm_compute; discriminate|].
  eapply (bundles_settle_after_first_execution (Sample.runtime Sample.mute)
            "raise ValueError('boom')" Sample.sales
            (Sample.quiet_world []) (Sample.quiet_world []) (Sample.quiet_world [])
            (Sample.quiet_world [])).
  - apply sample_frame_untouched.
  - vm_compute. reflexivity.
  - vm_compute. reflexivity.
  - vm_compute. reflexivity.
  - vm_compute. reflexivity.
  - vm_compute. reflexivity.
  - vm_compute. reflexivity.
Defined.

(** ** What every turn keeps *)
Section Kept.
Variable rt : Runtime.
Variable R : State -> State -> Prop.
Hypothesis R_refl : forall s, R s s.
Hypothesis R_trans : forall s1 s2 s3, R s1 s2 -> R s2 s3 -> R s1 s3.
Hypothesis R_input : keeps R (in_world input).
Hypothesis R_execute : forall code df, keeps R (in_world (execute_code rt code df)).
Hypothesis R_invoke : forall p, keeps R (invoke rt p).
Hypothesis R_interaction : forall q r c e f res,
  keeps R (store_interaction q r c e f res).
Hypothesis R_memory : forall c, keeps R (store_memory c).
Hypothesis R_log : forall ev, keeps R (modify (on_world (log ev))).
Hypothesis R_data : forall d, keeps R (modify (on_self (with_current_data d))).
Hypothesis R_last : forall c e r, keeps R (modify (on_self (with_last c e r))).
Hypothesis R_new : keeps R new_attempt_history.
Hypothesis R_append : forall ref a, keeps R (append_attempt ref a).

Lemma keeps_ret {A} (a : A) : keeps R (ret a).
Proof. intros s. apply R_refl. Qed.

Lemma keeps_raise {A} (e : PyExc) : keeps R (@raise State A e).
Proof. intros s. apply R_refl. Qed.

Lemma keeps_diverge {A} : keeps R (@diverge State A).
Proof. intros s. apply R_refl. Qed.

Lemma keeps_lift {A} (r : pyresult A) : keeps R (lift r).
Proof. intros s. apply R_refl. Qed.

Lemma keeps_gets {A} (f : State -> A) : keeps R (gets f).
Proof. intros s. apply R_refl. Qed.

Lemma keeps_bind {A B} (m : M State A) (k : A -> M State B) :
  keeps R m -> (forall a, keeps R (k a)) -> keeps R (bind m k).
Proof.
  intros Hm Hk s. unfold bind. specialize (Hm s).
  destruct (m s) as [[a | e |] s']; simpl in *; try assumption.
  eapply R_trans; [exact Hm | apply Hk].
Qed.

Lemma keeps_try_except {A} (m : M State A) (h : PyExc -> M State A) :
  keeps R m -> (forall e, keeps R (h e)) -> keeps R (try_except m h).
Proof.
  intros Hm Hh s. unfold try_except. specialize (Hm s).
  destruct (m s) as [[a | e |] s']; simpl in *; try assumption.
  destruct (exc_catchable e); simpl; [|assumption].
  eapply R_trans; [exact Hm | apply Hh].
Qed.

Lemma keeps_call {A} (fuel : nat) (k : nat -> M State A) :
  (forall fuel', fuel = S fuel' -> keeps R (k fuel')) -> keeps R (call fuel k).
Proof.
  intros Hk. destruct fuel as [|fuel']; simpl.
  - apply keeps_diverge.
  - apply Hk. reflexivity.
Qed.

Lemma keeps_data_context : keeps R data_context.
Proof.
  unfold data_context. apply keeps_bind; [apply keeps_gets|].
  intros [d|]; [|apply keeps_raise].
  destruct (Pandas.getitem d "date"); try apply keeps_raise. apply keeps_ret.
Qed.

Lemma keeps_query_prompt (query : pystr) : keeps R (query_prompt query).
Proof.
  unfold query_prompt, context_get.
  repeat (apply keeps_bind; [apply keeps_gets|]; intros ?).
  apply keeps_ret.
Qed.

Lemma keeps_process_dataset (csv target sid : option pystr) :
  keeps R (process_dataset rt csv target sid).
Proof.
  unfold process_dataset.
  apply keeps_bind; [apply keeps_lift|]. intros df.
  apply keeps_bind; [apply R_memory|]. intros _.
  apply keeps_bind; [apply keeps_lift|]. intros a.
  apply keeps_bind; [apply R_memory|]. intros _.
  apply keeps_ret.
Qed.

Lemma keeps_execute_and_remember (code : pystr) :
  keeps R (execute_and_remember rt code).
Proof.
  unfold execute_and_remember.
  apply keeps_bind; [apply keeps_gets|]. intros data.
  apply keeps_bind; [apply R_execute|]. intros [result data'].
  apply keeps_bind; [apply R_log|]. intros _.
  apply keeps_bind; [apply R_data|]. intros _.
  apply keeps_bind; [apply R_last|]. intros _.
  apply keeps_ret.
Qed.

Ltac calm :=
  first
    [ apply keeps_ret | apply keeps_raise | apply keeps_lift | apply keeps_gets
    | apply keeps_data_context | apply keeps_query_prompt
    | apply keeps_process_dataset | apply keeps_execute_and_remember
    | apply R_input | apply R_execute | apply R_invoke | apply R_interaction
    | apply R_memory | apply R_log | apply R_data | apply R_last | apply R_new
    | apply R_append | apply (keeps_gets (fun s => current_context (self s) !! _)) ].

Ltac pace := apply keeps_bind; [calm | intros ?].
Tactic Notation "pace" "as" simple_intropattern(x) :=
  apply keeps_bind; [calm | intros x].

Lemma process_query_body_keeps (plan : pystr -> pystr -> M State Reply) (query : pystr) :
  (forall r q, keeps R (plan r q)) ->
  keeps R (process_query_body rt plan query).
Proof.
  intros Hplan. unfold process_query_body.
  destruct (PyStr.startswith "fix" (PyStr.lower query)).
  - pace. pace.
    destruct (negb _ || negb _); [calm|].
    destruct (negb _); [calm|].
    pace. apply Hplan.
  - pace as model. destruct model; [|calm].
    apply keeps_try_except; [|intros e; calm].
    pace. pace. pace. apply Hplan.
Qed.

Lemma plan_and_execute_body_keeps
    (plan : pystr -> pystr -> M State Reply)
    (loop : pystr -> nat -> nat -> pystr -> option pystr -> M State Flow)
    (llm_response original_query : pystr) :
  (forall r q, keeps R (plan r q)) ->
  (forall q h n c e, keeps R (loop q h n c e)) ->
  keeps R (plan_and_execute_body rt plan loop llm_response original_query).
Proof.
  intros Hplan Hloop. unfold plan_and_execute_body, context_get.
  apply keeps_try_except; [|intros e; calm].
  destruct (PyStr.startswith "fix" (PyStr.lower original_query)).
  - pace. pace. pace as [[rows cols] date_dtype]. pace. pace. pace. apply Hplan.
  - pace as parsed. destruct (p_action parsed) as [action|]; [|calm].
    destruct (negb (PyStr.truthy action)); [calm|].
    destruct (PyStr.eqb action "CODE_GENERATION").
    { destruct (negb (PyStr.truthy_opt (p_code parsed))); [calm|].
      pace. apply keeps_bind; [apply Hloop|].
      intros [c e | r | |]; try calm; pace; calm. }
    destruct (PyStr.eqb action "FORECAST").
    { pace as data. destruct data; [|calm]. pace. pace. pace. calm. }
    destruct (PyStr.eqb action "DATA_ANALYSIS").
    { pace. pace. pace. pace. calm. }
    destruct (PyStr.eqb action "CODE_EXECUTION").
    { pace as data. destruct data; [|calm]. pace as answer.
      destruct (PyStr.eqb (PyStr.lower answer) "yes"); [|calm].
      destruct (p_explanation parsed) as [snippet|]; [|calm].
      pace as [result data']. pace. pace. calm. }
    pace. calm.
Qed.

Lemma repair_loop_body_keeps
    (loop : pystr -> nat -> nat -> pystr -> option pystr -> M State Flow)
    (ask : pystr -> M State Reply)
    (original_query : pystr) (history attempt : nat) (code : pystr)
    (explanation : option pystr) :
  (forall q h n c e, keeps R (loop q h n c e)) ->
  (forall q, keeps R (ask q)) ->
  keeps R (repair_loop_body rt loop ask original_query history attempt code explanation).
Proof.
  intros Hloop Hask. unfold repair_loop_body, context_get, read_attempt_history.
  cbv zeta.
  pace as answer.
  destruct (PyStr.eqb (PyStr.lower answer) "quit"); [calm|].
  destruct (negb (PyStr.eqb (PyStr.lower answer) "yes")); [apply Hloop|].
  pace as result. destruct (success result); [calm|].
  pace. pace as [[rows cols] date_dtype]. pace. pace. pace. pace as fix_response.
  apply keeps_bind.
  - apply keeps_try_except.
    + pace as found. destruct found as [[code' explanation']|]; [calm|].
      pace as choice. destruct (PyStr.eqb choice "2").
      * apply keeps_bind; [apply Hask | intros r; calm].
      * destruct (PyStr.eqb choice "3"); calm.
    + intros e. pace as answer'. destruct (negb _); calm.
  - intros [c e | r | |]; try calm.
    + apply Hloop.
    + pace. apply Hloop.
Qed.

(** Every turn keeps a relation that each step of the program keeps. *)
Lemma turns_keep (fuel : nat) :
  (forall q, keeps R (process_query rt fuel q))
  /\ (forall r q, keeps R (plan_and_execute rt fuel r q))
  /\ (forall q h n c e, keeps R (repair_loop rt fuel q h n c e)).
Proof.
  induction fuel as [fuel IH] using lt_wf_ind.
  assert (forall r q,
            keeps R (call fuel (fun fuel' => plan_and_execute rt fuel' r q))) as Hplan.
  { intros r q. apply keeps_call. intros fuel' ->. apply (IH fuel'). lia. }
  assert (forall q h n c e,
            keeps R (call fuel (fun fuel' => repair_loop rt fuel' q h n c e))) as Hloop.
  { intros q h n c e. apply keeps_call. intros fuel' ->. apply (IH fuel'). lia. }
  assert (forall q,
            keeps R (call fuel (fun fuel' => process_query rt fuel' q))) as Hask.
  { intros q. apply keeps_call. intros fuel' ->. apply (IH fuel'). lia. }
  split; [|split].
  - intros q. rewrite process_query_unfold.
    apply process_query_body_keeps. exact Hplan.
  - intros r q. rewrite plan_and_execute_unfold.
    apply plan_and_execute_body_keeps; assumption.
  - intros q h n c e. rewrite repair_loop_unfold.
    apply repair_loop_body_keeps; assumption.
Qed.

End Kept.

(** ** The session memory *)

Lemma settled_refl (a : ForecastingAgent) : settled a a.
Proof. repeat split; reflexivity. Qed.

Lemma settled_trans (a b c : ForecastingAgent) :
  settled a b -> settled b c -> settled a c.
Proof.
  intros (H1 & H2 & H3 & H4 & H5 & H6) (G1 & G2 & G3 & G4 & G5 & G6).
  repeat split; try congruence; etransitivity; eassumption.
Qed.

(** X10.  A turn only appends to the memories: after [process_query], the
    short-term memory and the conversation history have their old contents
    as a prefix, and the long-term memory, the session identifier, the
    model and the current context are what they were. *)
Theorem memory_is_append_only (rt : Runtime) (fuel : nat) (query : pystr) (s : State) :
  settled (self s) (self (snd (process_query rt fuel query s))).
Proof.
  apply (turns_keep rt (fun s s' => settled (self s) (self s'))).
  - intros s0. apply settled_refl.
  - intros s1 s2 s3. apply settled_trans.
  - intros s0. unfold in_world. destruct (input (world s0)). apply settled_refl.
  - intros code df s0. unfold in_world.
    destruct (execute_code rt code df (world s0)). apply settled_refl.
  - intros p s0. unfold invoke. destruct (llm (self s0)); apply settled_refl.
  - intros q r c e f res s0. simpl.
    repeat split; try reflexivity; apply prefix_app_r; reflexivity.
  - intros c s0. simpl.
    repeat split; try reflexivity. apply prefix_app_r. reflexivity.
  - intros ev s0. apply settled_refl.
  - intros d s0. repeat split; reflexivity.
  - intros c e r s0. repeat split; reflexivity.
  - intros s0. apply settled_refl.
  - intros ref a s0. apply settled_refl.
Qed.

(** X11.  [last_execution] stays the latest entry of the conversation
    history through every turn. *)
Theorem last_execution_is_latest (rt : Runtime) (fuel : nat) (query : pystr) (s : State) :
  latest_recorded (memory_manager (self s)) ->
  latest_recorded (memory_manager (self (snd (process_query rt fuel query s)))).
Proof.
  apply (turns_keep rt (fun s s' => latest_recorded (memory_manager (self s)) ->
                                    latest_recorded (memory_manager (self s')))).
  - auto.
  - auto.
  - intros s0. unfold in_world. destruct (input (world s0)). auto.
  - intros code df s0. unfold in_world.
    destruct (execute_code rt code df (world s0)). auto.
  - intros p s0. unfold invoke. destruct (llm (self s0)); auto.
  - intros q r c e f res s0 _. unfold latest_recorded. simpl.
    rewrite last_snoc. reflexivity.
  - intros c s0. auto.
  - intros ev s0. auto.
  - intros d s0. auto.
  - intros c e r s0. auto.
  - intros s0. auto.
  - intros ref a s0. auto.
Qed.

Lemma last_execution_is_latest_witness :
  latest_recorded
    (memory_manager
       (self (snd (process_query (Sample.runtime (fun _ _ => Ok Sample.two_actions)) 5
                     "what now" (Sample.session Sample.loaded_agent []))))).
Proof.
  apply last_execution_is_latest. reflexivity.
Defined.

(** ** More on the parser and the turn handler *)
Section Handler.
Variable rt : Runtime.

(** X13.  The parsers never raise: every [split(...)[1]] of
    [_plan_and_execute] is guarded by a test that the marker is there. *)
Theorem parsers_never_raise (text : pystr) :
  (exists p, parse_response text = Ok p)
  /\ (exists found, parse_repair text = Ok found).
Proof.
  split.
  - unfold parse_response.
    destruct (PyStr.contains "ACTION: CODE_GENERATION" text).
    + destruct (parse_code_generation_ok text) as (p & -> & _). eauto.
    + destruct (parse_lines_ok (PyStr.split text PyStr.nl) None None)
        as (a & e & ->). eauto.
  - unfold parse_repair.
    destruct ((_ >=? 0) && _); [|eauto].
    destruct (PyStr.contains "EXPLANATION:" _) eqn:E; [|eauto].
    destruct (after_marker_contains _ _ E) as [r ->]. eauto.
Qed.



(** X15.  An action that is none of the four the handler knows is not an
    error: the oracle is asked the original query once more, and its answer
    is the reply.  The response is taken to be ASCII, so that the action
    parsed is the one Python's [strip] and [upper] give. *)
Theorem other_actions_ask_the_oracle (fuel : nat) (text query action model answer : pystr)
    (p : Parsed) (s : State) :
  PyStr.isascii text = true ->
  PyStr.startswith "fix" (PyStr.lower query) = false ->
  parse_response text = Ok p ->
  p_action p = Some action -> action <> [] ->
  action <> ("CODE_GENERATION" : pystr) -> action <> ("FORECAST" : pystr) ->
  action <> ("DATA_ANALYSIS" : pystr) -> action <> ("CODE_EXECUTION" : pystr) ->
  llm (self s) = Some model ->
  llm_invoke rt model (llm_calls (world s)) (RawPrompt query) = Ok answer ->
  plan_and_execute rt fuel text query s
  = (Ok (Text answer), on_world (set_llm_calls (S (llm_calls (world s)))) s).
Proof.
  intros _ Hfix Hp Ha Hne H1 H2 H3 H4 Hllm Hanswer.
  rewrite plan_and_execute_unfold.
  unfold plan_and_execute_body, try_except, bind, lift.
  rewrite Hfix, Hp, Ha.
  destruct action as [|c action]; [congruence|].
  cbn [PyStr.truthy negb]. unfold PyStr.eqb.
  rewrite !bool_decide_eq_false_2 by assumption.
  unfold invoke. rewrite Hllm, Hanswer. reflexivity.
Qed.



(** X17.  Without a model, an ordinary query is answered "Error: LLM not
    initialized" and changes nothing; but a "fix" query with instructions,
    after an execution, reaches the oracle call before that test and raises
    [AttributeError].  For the second part the query is taken to be ASCII,
    so that its instructions are empty exactly when Python's [strip] leaves
    nothing. *)
Theorem queries_without_a_model (fuel : nat) (query : pystr) (s : State) :
  llm (self s) = None ->
  (PyStr.startswith "fix" (PyStr.lower query) = false ->
   process_query rt fuel query s = (Ok (Text "Error: LLM not initialized"), s))
  /\ (PyStr.isascii query = true ->
      PyStr.startswith "fix" (PyStr.lower query) = true ->
      PyStr.truthy_opt (_last_code (self s)) = true ->
      PyStr.truthy_opt (_last_result (self s)) = true ->
      PyStr.strip (PyStr.slice_from query 3) <> [] ->
      process_query rt fuel query s
      = (Raise (py_error "AttributeError" "'NoneType' object has no attribute 'invoke'"), s)).
Proof.
  intros Hllm. split.
  - intros Hfix. rewrite process_query_unfold. unfold process_query_body.
    rewrite Hfix. unfold bind, gets. rewrite Hllm. reflexivity.
  - intros _ Hfix Hcode Hresult Hins. rewrite process_query_unfold.
    unfold process_query_body. rewrite Hfix. unfold bind, gets.
    rewrite Hcode, Hresult. cbn [negb orb].
    destruct (PyStr.strip (PyStr.slice_from query 3)) as [|c ins] eqn:E; [congruence|].
    cbn [PyStr.truthy negb]. unfold invoke. rewrite Hllm. reflexivity.
Qed.

(** X18.  A "fix" query needs a dataset: with an execution on record, a
    model and instructions but no current data, the oracle is invoked once
    and its answer thrown away; the reply is the error of taking the length
    of [None].  The query is taken to be ASCII, so that its instructions are
    those Python's [strip] gives. *)
Theorem fix_without_dataset (fuel : nat) (query model answer : pystr) (s : State) :
  PyStr.isascii query = true ->
  PyStr.startswith "fix" (PyStr.lower query) = true ->
  PyStr.truthy_opt (_last_code (self s)) = true ->
  PyStr.truthy_opt (_last_result (self s)) = true ->
  PyStr.strip (PyStr.slice_from query 3) <> [] ->
  llm (self s) = Some model ->
  llm_invoke rt model (llm_calls (world s))
    (FixRequestPrompt (_last_code (self s)) (_last_result (self s))
       (PyStr.strip (PyStr.slice_from query 3))) = Ok answer ->
  current_data (self s) = None ->
  process_query rt (S fuel) query s
  = (Ok (Text "Error executing action: object of type 'NoneType' has no len()"),
     on_world (set_llm_calls (S (llm_calls (world s)))) s).
Proof.
  intros _ Hfix Hcode Hresult Hins Hllm Hanswer Hdata.
  rewrite process_query_unfold. unfold process_query_body. rewrite Hfix.
  unfold bind at 1 2. unfold gets at 1 2. rewrite Hcode, Hresult. cbn [negb orb].
  destruct (PyStr.strip (PyStr.slice_from query 3)) as [|c ins] eqn:E; [congruence|].
  cbn [PyStr.truthy negb]. unfold bind at 1. unfold invoke at 1.
  rewrite Hllm, Hanswer. cbn [call].
  rewrite plan_and_execute_unfold. unfold plan_and_execute_body. rewrite Hfix.
  cbv beta iota delta [try_except data_context bind gets on_world].
  cbn [self]. rewrite Hdata. reflexivity.
Qed.

End Handler.


Lemma other_actions_ask_the_oracle_witness :
  plan_and_execute (Sample.runtime (fun _ _ => Ok ("Prophet is a forecasting library." : pystr)))
    3 "ACTION: GENERAL
EXPLANATION: a question about a library" "what is prophet"
    (Sample.session Sample.loaded_agent [])
  = (Ok (Text "Prophet is a forecasting library."),
     on_world (set_llm_calls 1) (Sample.session Sample.loaded_agent [])).
Proof.
  eapply (other_actions_ask_the_oracle _ 3 _ "what is prophet" "GENERAL" "llama2").
  - reflexivity.
  - vm_compute. reflexivity.
  - vm_compute. reflexivity.
  - reflexivity.
  - discriminate.
  - discriminate.
  - discriminate.
  - discriminate.
  - discriminate.
  - reflexivity.
  - reflexivity.
Defined.


Lemma queries_without_a_model_witness :
  process_query (Sample.runtime Sample.mute) 3 "what do you see"
    (Sample.session (with_llm None Sample.coded_agent) [])
  = (Ok (Text "Error: LLM not initialized"),
     Sample.session (with_llm None Sample.coded_agent) [])
  /\ process_query (Sample.runtime Sample.mute) 3 "fix the plot"
       (Sample.session (with_llm None Sample.coded_agent) [])
     = (Raise (py_error "AttributeError" "'NoneType' object has no attribute 'invoke'"),
        Sample.session (with_llm None Sample.coded_agent) []).
Proof.
  split.
  - apply (queries_without_a_model (Sample.runtime Sample.mute) 3 "what do you see");
      [reflexivity | vm_compute; reflexivity].
  - apply (queries_without_a_model (Sample.runtime Sample.mute) 3 "fix the plot").
    + reflexivity.
    + reflexivity.
    + vm_compute. reflexivity.
    + reflexivity.
    + reflexivity.
    + vm_compute. discriminate.
Defined.

Lemma fix_without_dataset_witness :
  process_query (Sample.runtime (fun _ _ => Ok Sample.closed_block)) 3 "fix the plot"
    (Sample.session Sample.coded_agent [])
  = (Ok (Text "Error executing action: object of type 'NoneType' has no len()"),
     on_world (set_llm_calls 1) (Sample.session Sample.coded_agent [])).
Proof.
  eapply (fix_without_dataset _ 2 "fix the plot" "llama2").
  - reflexivity.
  - vm_compute. reflexivity.
  - reflexivity.
  - reflexivity.
  - vm_compute. discriminate.
  - reflexivity.
  - reflexivity.
  - reflexivity.
Defined.

(** ** The confirmation prompt of the repair loop *)
Section Confirmation.
Variable rt : Runtime.

(** The state in which the loop of a code-generation turn starts: the attempt
    history of the turn has been created, empty. *)
Lemma code_generation_enters_loop (fuel : nat) (text query code : pystr)
    (p : Parsed) (s : State) :
  PyStr.startswith "fix" (PyStr.lower query) = false ->
  parse_response text = Ok p ->
  p_action p = Some ("CODE_GENERATION" : pystr) ->
  p_code p = Some code -> code <> [] ->
  plan_and_execute rt (S fuel) text query s
  = try_except
      (let* flow :=
         repair_loop rt fuel query (length (attempt_lists (world s))) 0 code
           (p_explanation p) in
       match flow with
       | Return r => ret r
       | _ => let* r := invoke rt (RawPrompt query) in ret (Text r)
       end)
      (fun e => ret (Text (("Error executing action: " : pystr) ++ exc_msg e)))
      (on_world (fun w => set_attempt_lists (attempt_lists w ++ [[]]) w) s).
Proof.
  intros Hfix Hp Ha Hc Hne.
  rewrite plan_and_execute_unfold.
  unfold plan_and_execute_body, try_except.
  rewrite Hfix. unfold bind at 1. unfold lift at 1. rewrite Hp, Ha, Hc.
  destruct code as [|c code]; [congruence|].
  cbn [PyStr.truthy PyStr.truthy_opt negb].
  change (PyStr.eqb ("CODE_GENERATION" : pystr) "CODE_GENERATION") with true.
  cbv iota. unfold bind at 1. unfold new_attempt_history at 1.
  cbn [call default]. reflexivity.
Qed.

(** X20.  An answer to the confirmation prompt that is neither "yes" nor
    "quit" (in any case) runs nothing: the loop asks again with the same code
    and explanation, and the attempt counter has gone up by one all the
    same. *)
Theorem declined_confirmation_asks_again (fuel : nat) (query : pystr)
    (history attempt : nat) (code answer : pystr) (rest : list pystr)
    (explanation : option pystr) (s : State) :
  stdin (world s) = answer :: rest ->
  PyStr.lower answer <> ("quit" : pystr) ->
  PyStr.lower answer <> ("yes" : pystr) ->
  repair_loop rt (S fuel) query history attempt code explanation s
  = repair_loop rt fuel query history (S attempt) code explanation
      (on_world (set_stdin rest) s).
Proof.
  intros Hin Hquit Hyes.
  rewrite (repair_loop_unfold rt (S fuel)).
  unfold repair_loop_body. unfold bind at 1. unfold in_world at 1. unfold input at 1.
  rewrite Hin. unfold PyStr.eqb.
  rewrite !bool_decide_eq_false_2 by assumption. reflexivity.
Qed.

(** X21.  Answering "quit" to the first confirmation prompt of a
    code-generation turn ends the turn with "Code execution cancelled by
    user": the line is consumed and an empty attempt history is left behind;
    nothing is executed, and neither the agent nor the trace changes.  The
    response is taken to be ASCII, so that the code parsed from it is empty
    exactly when Python's [strip] leaves nothing. *)
Theorem quit_cancels_the_turn (fuel : nat) (text query code answer : pystr)
    (rest : list pystr) (p : Parsed) (s : State) :
  PyStr.isascii text = true ->
  PyStr.startswith "fix" (PyStr.lower query) = false ->
  parse_response text = Ok p ->
  p_action p = Some ("CODE_GENERATION" : pystr) ->
  p_code p = Some code -> code <> [] ->
  stdin (world s) = answer :: rest ->
  PyStr.lower answer = ("quit" : pystr) ->
  plan_and_execute rt (S fuel) text query s
  = (Ok (Text "Code execution cancelled by user"),
     {| self := self s;
        world := set_stdin rest
                   (set_attempt_lists (attempt_lists (world s) ++ [[]]) (world s)) |}).
Proof.
  intros _ Hfix Hp Ha Hc Hne Hin Hquit.
  rewrite (code_generation_enters_loop fuel text query code p s) by assumption.
  unfold try_except. unfold bind at 1. rewrite repair_loop_unfold.
  unfold repair_loop_body. unfold bind at 1. unfold in_world at 1. unfold input at 1.
  cbn [world on_world stdin set_attempt_lists]. rewrite Hin, Hquit.
  reflexivity.
Qed.

End Confirmation.

Lemma declined_confirmation_asks_again_witness :
  repair_loop (Sample.runtime Sample.mute) 3 "total value" 0 0 "df.head()" None
    (Sample.session Sample.loaded_agent [("maybe" : pystr); ("YES" : pystr)])
  = repair_loop (Sample.runtime Sample.mute) 2 "total value" 0 1 "df.head()" None
      (on_world (set_stdin [("YES" : pystr)])
         (Sample.session Sample.loaded_agent [("maybe" : pystr); ("YES" : pystr)])).
Proof.
  apply (declined_confirmation_asks_again _ _ _ _ _ _ ("maybe" : pystr)).
  - reflexivity.
  - vm_compute. discriminate.
  - vm_compute. discriminate.
Defined.

Lemma quit_cancels_the_turn_witness :
  plan_and_execute (Sample.runtime Sample.mute) 3 Sample.closed_block "total value"
    (Sample.session Sample.loaded_agent [("Quit" : pystr); ("yes" : pystr)])
  = (Ok (Text "Code execution cancelled by user"),
     {| self := Sample.loaded_agent;
        world := set_stdin [("yes" : pystr)]
                   (set_attempt_lists [[]]
                      (Sample.quiet_world [("Quit" : pystr); ("yes" : pystr)])) |}).
Proof.
  eapply (quit_cancels_the_turn _ 2 Sample.closed_block "total value"
            "raise ValueError('boom')" "Quit").
  - reflexivity.
  - vm_compute. reflexivity.
  - vm_compute. reflexivity.
  - reflexivity.
  - reflexivity.
  - discriminate.
  - reflexivity.
  - vm_compute. reflexivity.
Defined.

(** ** Datasets and confirmed executions *)
Section Dataset.
Variable rt : Runtime.

(** X22.  What [process_dataset] leaves in the memory once the file has been
    read.  When the analysis succeeds, exactly two records are appended to
    the short-term memory, the description of the dataset and then the
    analysis, which is the one [get_relevant_context] finds from then on.
    When the analysis raises, the description has been stored already and
    stays.  In both cases the conversation history and the current data of
    the agent are untouched: [process_dataset] does not load the frame it
    read. *)
Theorem process_dataset_records (csv_path target sid : option pystr)
    (df : Pandas.DataFrame) (s : State) :
  read_csv rt csv_path = Ok df ->
  let info := {| content := dataset_info target sid (Pandas.shape df)
                              (Pandas.column_names df);
                 stored_at := clock (world s) |} in
  (forall a, describe rt df target sid = Ok a ->
     exists s',
       process_dataset rt csv_path target sid s = (Ok a, s')
       /\ short_term_memory (memory_manager (self s'))
          = short_term_memory (memory_manager (self s))
            ++ [info; {| content := analysis a; stored_at := S (clock (world s)) |}]
       /\ last_analysis_of (memory_manager (self s')) = Some a
       /\ conversation_history (memory_manager (self s'))
          = conversation_history (memory_manager (self s))
       /\ current_data (self s') = current_data (self s))
  /\ (forall e, describe rt df target sid = Raise e ->
     exists s',
       process_dataset rt csv_path target sid s = (Raise e, s')
       /\ short_term_memory (memory_manager (self s'))
          = short_term_memory (memory_manager (self s)) ++ [info]
       /\ last_analysis_of (memory_manager (self s'))
          = last_analysis_of (memory_manager (self s))
       /\ conversation_history (memory_manager (self s'))
          = conversation_history (memory_manager (self s))
       /\ current_data (self s') = current_data (self s)).
Proof.
  intros Hread info. split.
  - intros a Ha. eexists. split.
    + unfold process_dataset, bind, lift, store_memory, bind, in_world, now, modify.
      rewrite Hread. cbn [world self on_self]. rewrite Ha. reflexivity.
    + unfold last_analysis_of.
      cbn [self on_self memory_manager with_memory store_record with_short_term
             short_term_memory conversation_history current_data world clock set_clock].
      split; [rewrite <- app_assoc; reflexivity|].
      split; [|split; reflexivity].
      rewrite rev_unit. reflexivity.
  - intros e He. eexists. split.
    + unfold process_dataset, bind, lift, store_memory, bind, in_world, now, modify.
      rewrite Hread. cbn [world self on_self]. rewrite He. reflexivity.
    + unfold last_analysis_of.
      cbn [self on_self memory_manager with_memory store_record with_short_term
             short_term_memory conversation_history current_data world clock set_clock].
      split; [reflexivity|].
      split; [|split; reflexivity].
      rewrite rev_unit. reflexivity.
Qed.

(** X23.  A confirmed execution that succeeds ends the loop with the
    formatted result.  It is remembered as the last code and the last
    result, which is never empty, so that a "fix" query finds something to
    work on; the current data become the frame the execution hands back; and
    nothing is added to the memory: the loop stores an interaction only after
    a failure. *)
Theorem confirmed_success_is_remembered (fuel : nat) (query : pystr)
    (history attempt : nat) (code answer : pystr) (rest : list pystr)
    (explanation : option pystr) (s : State) (r : ExecutionResult)
    (df' : option Pandas.DataFrame) (w' : World) :
  stdin (world s) = answer :: rest ->
  PyStr.lower answer = ("yes" : pystr) ->
  execute_code rt code (current_data (self s)) (set_stdin rest (world s))
  = (Ok (r, df'), w') ->
  success r = true ->
  exists s',
    repair_loop rt fuel query history attempt code explanation s
    = (Ok (Return (Text (format_code_output rt r))), s')
    /\ _last_code (self s') = Some code
    /\ _last_result (self s') = Some (format_code_output rt r)
    /\ PyStr.truthy_opt (_last_result (self s')) = true
    /\ current_data (self s') = df'
    /\ memory_manager (self s') = memory_manager (self s)
    /\ world s' = log (Executed code r) w'.
Proof.
  intros Hin Hyes Hrun Hok. eexists. split.
  - rewrite repair_loop_unfold. unfold repair_loop_body.
    unfold bind at 1. unfold in_world at 1. unfold input at 1.
    rewrite Hin, Hyes.
    change (PyStr.eqb ("yes" : pystr) "quit") with false.
    change (PyStr.eqb ("yes" : pystr) "yes") with true.
    cbn [negb]. cbv iota.
    unfold bind at 1. unfold execute_and_remember.
    unfold bind at 1. unfold gets at 1. unfold bind at 1. unfold in_world at 1.
    cbn [self world]. rewrite Hrun.
    unfold bind, modify. rewrite Hok. unfold ret. cbv beta iota. rewrite Hok.
    reflexivity.
  - cbn [self world on_self on_world with_last with_current_data _last_code
           _last_result current_data memory_manager PyStr.truthy_opt].
    repeat split.
    apply format_code_output_truthy.
Qed.

End Dataset.

Lemma process_dataset_records_witness :
  exists s',
    process_dataset (Bench.runtime "torch" Sample.mute) (Some ("sales.csv" : pystr))
      (Some ("value" : pystr)) (Some ("series" : pystr))
      (Sample.session Sample.fresh_agent [])
    = (Ok {| analysis_text := "analysis" |}, s')
    /\ short_term_memory (memory_manager (self s'))
       = [] ++ [ {| content := dataset_info (Some ("value" : pystr))
                                 (Some ("series" : pystr)) (Pandas.shape Sample.sales)
                                 (Pandas.column_names Sample.sales);
                    stored_at := 0 |};
                 {| content := analysis {| analysis_text := "analysis" |};
                    stored_at := 1 |} ]
    /\ last_analysis_of (memory_manager (self s')) = Some {| analysis_text := "analysis" |}
    /\ conversation_history (memory_manager (self s')) = []
    /\ current_data (self s') = None.
Proof.
  pose proof (process_dataset_records (Bench.runtime "torch" Sample.mute)
                (Some ("sales.csv" : pystr)) (Some ("value" : pystr))
                (Some ("series" : pystr)) Sample.sales
                (Sample.session Sample.fresh_agent [])) as H.
  destruct H as [H _]; [vm_compute; reflexivity|].
  apply (H {| analysis_text := "analysis" |}). reflexivity.
Defined.

Lemma confirmed_success_is_remembered_witness :
  exists r s',
    repair_loop (Sample.runtime Sample.mute) 0 "total value" 0 0
      "result = df['value'].sum()" None
      (Sample.session Sample.loaded_agent [("Yes" : pystr)])
    = (Ok (Return (Text (format_code_output (Sample.runtime Sample.mute) r))), s')
    /\ _last_code (self s') = Some ("result = df['value'].sum()" : pystr)
    /\ _last_result (self s') = Some (format_code_output (Sample.runtime Sample.mute) r)
    /\ PyStr.truthy_opt (_last_result (self s')) = true
    /\ current_data (self s') = Some Sample.dated
    /\ memory_manager (self s') = Sample.fresh_memory
    /\ world s' = log (Executed "result = df['value'].sum()" r) (Sample.quiet_world []).
Proof.
  eexists.
  eapply (confirmed_success_is_remembered (Sample.runtime Sample.mute) 0 "total value"
            0 0 "result = df['value'].sum()" "Yes" [] None
            (Sample.session Sample.loaded_agent [("Yes" : pystr)])).
  - reflexivity.
  - vm_compute. reflexivity.
  - vm_compute. reflexivity.
  - reflexivity.
Defined.



Section Boot.
Variable rt : Runtime.
Variable host : Host.

(** The process after [n] more requests and [seconds] more of sleep. *)
Lemma get_models_from_down (remaining : nat) :
  forall (attempt max_retries retry_delay : Z) (p : Process),
    0 <= retry_delay ->
    attempt + Z.of_nat (S remaining) = max_retries ->
    (forall k, (k <= remaining)%nat ->
       exists e, service host (requests p + k) = RequestFailed e) ->
    get_models_from host (S remaining) attempt max_retries retry_delay p
    = (Ok (Some fallback_models),
       {| session := session p; requests := requests p + S remaining;
          slept := slept p + Z.of_nat remaining * retry_delay;
          written := written p |}).
Proof.
  induction remaining as [|remaining IH]; intros attempt max_retries retry_delay p
    Hdelay Hmax Hdown.
  - destruct (Hdown 0%nat) as [e He]; [lia|].
    rewrite Nat.add_0_r in He.
    cbn [get_models_from]. unfold bind, fetch_models. rewrite He.
    replace (attempt =? max_retries - 1) with true by (symmetry; apply Z.eqb_eq; lia).
    unfold ret. do 2 f_equal; [lia | simpl; lia].
  - destruct (Hdown 0%nat) as [e He]; [lia|].
    rewrite Nat.add_0_r in He.
    change (get_models_from host (S (S remaining)) attempt max_retries retry_delay p)
      with ((let* answer := fetch_models host in
             match answer with
             | Listed names => ret (Some names)
             | RequestFailed _ =>
                 if attempt =? max_retries - 1
                 then ret (Some fallback_models)
                 else
                   let* _ := sleep retry_delay in
                   get_models_from host (S remaining) (attempt + 1) max_retries
                     retry_delay
             | Broken e => raise e
             end) p).
    unfold bind at 1. unfold fetch_models at 1. rewrite He.
    replace (attempt =? max_retries - 1) with false by (symmetry; apply Z.eqb_neq; lia).
    unfold bind at 1. unfold sleep at 1.
    replace (retry_delay <? 0) with false by (symmetry; apply Z.ltb_ge; lia).
    rewrite IH; [| assumption | lia |].
    + cbn [session requests slept written]. do 2 f_equal; [lia | lia].
    + intros k Hk. cbn [requests]. destruct (Hdown (S k)) as [e' He']; [lia|].
      exists e'. rewrite <- He'. f_equal. lia.
Qed.

Lemma get_models_from_answer (k : nat) :
  forall (remaining : nat) (attempt max_retries retry_delay : Z) (p : Process)
         (result : pyresult (option (list pystr))),
    0 <= retry_delay ->
    attempt + Z.of_nat remaining = max_retries ->
    (k < remaining)%nat ->
    (forall j, (j < k)%nat -> exists e, service host (requests p + j) = RequestFailed e) ->
    match service host (requests p + k) with
    | Listed names => result = Ok (Some names)
    | RequestFailed _ => False
    | Broken e => result = Raise e
    end ->
    get_models_from host remaining attempt max_retries retry_delay p
    = (result,
       {| session := session p; requests := requests p + S k;
          slept := slept p + Z.of_nat k * retry_delay;
          written := written p |}).
Proof.
  induction k as [|k IH]; intros remaining attempt max_retries retry_delay p result
    Hdelay Hmax Hk Hdown Hanswer.
  - destruct remaining as [|remaining]; [lia|].
    rewrite Nat.add_0_r in Hanswer.
    cbn [get_models_from]. unfold bind, fetch_models.
    destruct (service host (requests p)) as [names | e | e]; [| contradiction |];
      subst result; unfold ret, raise; do 2 f_equal; lia.
  - destruct remaining as [|remaining]; [lia|].
    destruct (Hdown 0%nat) as [e He]; [lia|].
    rewrite Nat.add_0_r in He.
    cbn [get_models_from]. unfold bind at 1. unfold fetch_models at 1. rewrite He.
    replace (attempt =? max_retries - 1) with false by (symmetry; apply Z.eqb_neq; lia).
    unfold bind at 1. unfold sleep at 1.
    replace (retry_delay <? 0) with false by (symmetry; apply Z.ltb_ge; lia).
    rewrite (IH remaining (attempt + 1) max_retries retry_delay _ result);
      [| assumption | lia | lia | |].
    + cbn [session requests slept written]. do 2 f_equal; lia.
    + intros j Hj. cbn [requests]. destruct (Hdown (S j)) as [e' He']; [lia|].
      exists e'. rewrite <- He'. f_equal. lia.
    + cbn [requests].
      replace (S (requests p) + k)%nat with (requests p + S k)%nat by lia.
      exact Hanswer.
Qed.

(** X24.  [get_available_models] does not let the failure of a request out.
    When each of its [max_retries] requests fails, it returns the two
    fall-back names, after exactly [max_retries] requests and
    [max_retries - 1] pauses of [retry_delay] seconds.  With no retry
    allowed, it sends no request and returns [None], not a list. *)
Theorem models_when_the_service_is_down (max_retries retry_delay : Z) (p : Process) :
  (max_retries <= 0 ->
   get_available_models host max_retries retry_delay p = (Ok None, p))
  /\ (0 < max_retries -> 0 <= retry_delay ->
      (forall k, Z.of_nat k < max_retries ->
         exists e, service host (requests p + k) = RequestFailed e) ->
      get_available_models host max_retries retry_delay p
      = (Ok (Some [("llama2" : pystr); ("codellama" : pystr)]),
         {| session := session p;
            requests := requests p + Z.to_nat max_retries;
            slept := slept p + (max_retries - 1) * retry_delay;
            written := written p |})).
Proof.
  unfold get_available_models. split.
  - intros Hmax. rewrite Z2Nat.nonpos by assumption. reflexivity.
  - intros Hmax Hdelay Hdown.
    destruct (Z.to_nat max_retries) as [|n] eqn:Hn; [lia|].
    rewrite (get_models_from_down n 0 max_retries retry_delay p); [| assumption | lia |].
    + do 2 f_equal. f_equal. lia.
    + intros k Hk. apply Hdown. lia.
Qed.

(** X25.  When the first [k] requests fail and request number [k + 1] is
    answered, with [k] below [max_retries], the names listed are returned
    after [k + 1] requests and [k] pauses; an answer that raises anything but
    a request exception is not retried, the exception is raised to the
    caller. *)
Theorem models_after_failures (k : nat) (max_retries retry_delay : Z) (p : Process) :
  Z.of_nat k < max_retries -> 0 <= retry_delay ->
  (forall j, (j < k)%nat -> exists e, service host (requests p + j) = RequestFailed e) ->
  let p' := {| session := session p; requests := requests p + S k;
               slept := slept p + Z.of_nat k * retry_delay;
               written := written p |} in
  (forall names, service host (requests p + k) = Listed names ->
     get_available_models host max_retries retry_delay p = (Ok (Some names), p'))
  /\ (forall e, service host (requests p + k) = Broken e ->
        get_available_models host max_retries retry_delay p = (Raise e, p')).
Proof.
  intros Hk Hdelay Hdown p'. unfold get_available_models.
  split; intros x Hx.
  - apply get_models_from_answer; try assumption; try lia. rewrite Hx. reflexivity.
  - apply get_models_from_answer; try assumption; try lia. rewrite Hx. reflexivity.
Qed.


End Boot.

Lemma models_when_the_service_is_down_witness :
  get_available_models (Bench.host (Bench.down_for 5 [("llama3" : pystr)])) 3 1
    (Bench.process (Sample.session Bench.new_agent []))
  = (Ok (Some [("llama2" : pystr); ("codellama" : pystr)]),
     {| session := Sample.session Bench.new_agent [];
        requests := 0 + Z.to_nat 3; slept := 0 + (3 - 1) * 1; written := [] |}).
Proof.
  apply (proj2 (models_when_the_service_is_down
                  (Bench.host (Bench.down_for 5 [("llama3" : pystr)])) 3 1
                  (Bench.process (Sample.session Bench.new_agent [])))).
  - lia.
  - lia.
  - intros k Hk. eexists.
    assert (k = 0 \/ k = 1 \/ k = 2)%nat as [-> | [-> | ->]] by lia; reflexivity.
Defined.

Lemma models_after_failures_witness :
  get_available_models (Bench.host (Bench.down_for 2 [("llama3" : pystr)])) 3 1
    (Bench.process (Sample.session Bench.new_agent []))
  = (Ok (Some [("llama3" : pystr)]),
     {| session := Sample.session Bench.new_agent [];
        requests := 3; slept := 2; written := [] |}).
Proof.
  pose proof (models_after_failures (Bench.host (Bench.down_for 2 [("llama3" : pystr)]))
                2 3 1 (Bench.process (Sample.session Bench.new_agent []))) as H.
  destruct H as [H _].
  - lia.
  - lia.
  - intros j Hj. eexists.
    assert (j = 0 \/ j = 1)%nat as [-> | ->] by lia; reflexivity.
  - apply H. reflexivity.
Defined.


(** ** The command loop *)
Section Commands.
Variable rt : Runtime.
Variable host : Host.

Lemma analyze_is_no_other_command (command : pystr) :
  PyStr.startswith "analyze" command = true ->
  PyStr.eqb command "/bye" = false /\ PyStr.eqb command "help" = false.
Proof.
  intros H. unfold PyStr.eqb.
  split; apply bool_decide_eq_false; intros ->; vm_compute in H; discriminate.
Qed.

(** The iteration up to the dispatch on the command. *)
Lemma main_turn_reads (fuel : nat) (line : pystr) (rest : list pystr) (p : Process) :
  stdin (world (session p)) = line :: rest ->
  main_turn rt host fuel p
  = try_except
      (let command := PyStr.strip line in
       if PyStr.eqb command "/bye"
       then
         let* _ := save_session host in
         ret (Bye [("Session saved. Goodbye!" : pystr)])
       else if PyStr.eqb command "help"
       then ret (Again help_text)
       else if PyStr.startswith "analyze" command
       then analyze rt host command
       else
         let* response := in_session (process_query rt fuel command) in
         ret (Again [PyStr.nl ++ ("Agent Response:" : pystr); str_reply response]))
      (fun e => ret (Again [("Error: " : pystr) ++ exc_msg e]))
      (on_session (on_world (set_stdin rest)) p).
Proof.
  intros Hin. unfold main_turn, try_except.
  unfold bind at 1. unfold in_session at 1. unfold in_world at 1. unfold input at 1.
  rewrite Hin. reflexivity.
Qed.

Lemma main_turn_at_end_of_input (fuel : nat) (p : Process) :
  stdin (world (session p)) = [] ->
  main_turn rt host fuel p
  = (Ok (Again [("Error: EOF when reading a line" : pystr)]), p).
Proof.
  intros Hin. destruct p as [[a w] n z wr]. cbn [session world] in Hin.
  unfold main_turn, try_except.
  unfold bind at 1. unfold in_session at 1. unfold in_world at 1. unfold input at 1.
  cbn [session world self requests slept written]. rewrite Hin. reflexivity.
Qed.

(** X27.  At the end of the input the loop does not end: the [EOFError] of
    [input] is caught in the loop like any other exception, its message is
    printed, nothing changes, and the next iteration meets it again.
    Whatever the number of iterations allowed, the loop is still running
    after them. *)
Theorem end_of_input_loops_forever (fuel : nat) (p : Process) :
  stdin (world (session p)) = [] ->
  main_turn rt host fuel p
  = (Ok (Again [("Error: EOF when reading a line" : pystr)]), p)
  /\ main_loop rt host fuel p = (Diverged, p).
Proof.
  intros Hin. split; [apply main_turn_at_end_of_input; exact Hin|].
  induction fuel as [|fuel IH]; [reflexivity|].
  cbn [main_loop]. unfold bind at 1.
  rewrite (main_turn_at_end_of_input _ _ Hin).
  unfold bind at 1. rewrite IH. reflexivity.
Qed.

(** X28.  A command that begins with "analyze" and does not consist of
    exactly four words only prints the usage line; so does a command such as
    "analyzer", which begins with the word.  Nothing but the input
    changes.  The line is taken to be ASCII, so that its words are those
    Python's [split] gives. *)
Theorem analyze_wants_four_words (fuel : nat) (line : pystr) (rest : list pystr)
    (p : Process) :
  PyStr.isascii line = true ->
  stdin (world (session p)) = line :: rest ->
  PyStr.startswith "analyze" (PyStr.strip line) = true ->
  length (words (PyStr.strip line)) <> 4%nat ->
  main_turn rt host fuel p
  = (Ok (Again [("Usage: analyze <csv_path> <target_column> <series_id_column>" : pystr)]),
     on_session (on_world (set_stdin rest)) p).
Proof.
  intros _ Hin Hstart Hwords.
  rewrite (main_turn_reads fuel line rest p Hin). cbv zeta.
  destruct (analyze_is_no_other_command _ Hstart) as [-> ->]. rewrite Hstart.
  unfold try_except, analyze.
  destruct (words (PyStr.strip line)) as [|w0 [|w1 [|w2 [|w3 [|w4 l]]]]];
    try reflexivity.
  simpl in Hwords. congruence.
Qed.

(** X29.  [main] loads the frame and the context before the analysis runs.
    When the analysis then raises, the command has failed, its message is
    printed, and yet the agent works on the new dataset from then on: the
    current data and the context are those of the new file, while the last
    analysis in the memory is still the old one.  The line is taken to be
    ASCII, so that its words are those Python's [split] gives. *)
Theorem failed_analysis_keeps_the_dataset (fuel : nat) (line w0 csv_path target sid : pystr)
    (rest : list pystr) (df : Pandas.DataFrame) (e : PyExc) (p : Process) :
  PyStr.isascii line = true ->
  stdin (world (session p)) = line :: rest ->
  PyStr.startswith "analyze" (PyStr.strip line) = true ->
  words (PyStr.strip line) = [w0; csv_path; target; sid] ->
  read_csv_file rt csv_path = Ok df ->
  describe rt df (Some target) (Some sid) = Raise e ->
  exc_catchable e = true ->
  exists p',
    main_turn rt host fuel p = (Ok (Again [("Error: " : pystr) ++ exc_msg e]), p')
    /\ current_data (self (session p')) = Some df
    /\ current_context (self (session p')) = analysis_context csv_path target sid df
    /\ last_analysis_of (memory_manager (self (session p')))
       = last_analysis_of (memory_manager (self (session p))).
Proof.
  intros _ Hin Hstart Hwords Hread Hdescribe Hcatch.
  rewrite (main_turn_reads fuel line rest p Hin). cbv zeta.
  destruct (analyze_is_no_other_command _ Hstart) as [-> ->]. rewrite Hstart.
  unfold try_except, analyze. rewrite Hwords.
  unfold bind at 1. unfold lift at 1. cbn [read_csv]. rewrite Hread.
  unfold bind at 1. unfold in_session at 1. unfold modify at 1.
  unfold bind at 1. unfold in_session at 1.
  unfold process_dataset, store_memory, bind, lift, in_world, now, modify.
  cbn [read_csv session self world on_session on_self on_world]. rewrite Hread.
  rewrite Hdescribe. rewrite Hcatch.
  eexists. split; [reflexivity|].
  unfold last_analysis_of.
  cbn [session self on_self on_world with_dataset with_memory store_record
         with_short_term current_data current_context memory_manager short_term_memory].
  repeat split. rewrite rev_unit. reflexivity.
Qed.

(** X30.  "/bye" ends the loop only when the session could be saved: the
    memories are written under the session identifier and the loop stops.
    When the writing raises, the message is printed like any other error and
    the loop goes on. *)
Theorem bye_saves_or_stays (fuel : nat) (line : pystr) (rest : list pystr)
    (p : Process) :
  stdin (world (session p)) = line :: rest ->
  PyStr.strip line = ("/bye" : pystr) ->
  let m := memory_manager (self (session p)) in
  (write_memory host (session_id m) (short_term_memory m) (long_term_memory m) = Ok tt ->
   main_turn rt host fuel p
   = (Ok (Bye [("Session saved. Goodbye!" : pystr)]),
      {| session := on_world (set_stdin rest) (session p);
         requests := requests p; slept := slept p;
         written := written p ++ [(session_id m, short_term_memory m,
                                   long_term_memory m)] |}))
  /\ (forall e,
        write_memory host (session_id m) (short_term_memory m) (long_term_memory m)
        = Raise e ->
        exc_catchable e = true ->
        main_turn rt host fuel p
        = (Ok (Again [("Error: " : pystr) ++ exc_msg e]),
           on_session (on_world (set_stdin rest)) p)).
Proof.
  intros Hin Hbye m.
  rewrite (main_turn_reads fuel line rest p Hin). cbv zeta. rewrite Hbye.
  change (PyStr.eqb ("/bye" : pystr) "/bye") with true. cbv iota.
  unfold try_except, bind, save_session.
  cbn [session self on_session on_world requests slept written]. fold m.
  split.
  - intros ->. reflexivity.
  - intros e -> ->. reflexivity.
Qed.

End Commands.

Lemma end_of_input_loops_forever_witness :
  main_turn (Sample.runtime Sample.mute) (Bench.host (Bench.down_for 0 [])) 7
    (Bench.process (Sample.session Sample.fresh_agent []))
  = (Ok (Again [("Error: EOF when reading a line" : pystr)]),
     Bench.process (Sample.session Sample.fresh_agent []))
  /\ main_loop (Sample.runtime Sample.mute) (Bench.host (Bench.down_for 0 [])) 7
       (Bench.process (Sample.session Sample.fresh_agent []))
     = (Diverged, Bench.process (Sample.session Sample.fresh_agent [])).
Proof.
  apply end_of_input_loops_forever. reflexivity.
Defined.

Lemma analyze_wants_four_words_witness :
  main_turn (Bench.runtime "torch" Sample.mute) (Bench.host (Bench.down_for 0 [])) 7
    (Bench.process (Sample.session Sample.fresh_agent
                      [("analyzer sales.csv value" : pystr); ("help" : pystr)]))
  = (Ok (Again [("Usage: analyze <csv_path> <target_column> <series_id_column>" : pystr)]),
     on_session (on_world (set_stdin [("help" : pystr)]))
       (Bench.process (Sample.session Sample.fresh_agent
                         [("analyzer sales.csv value" : pystr); ("help" : pystr)]))).
Proof.
  apply (analyze_wants_four_words _ _ _ ("analyzer sales.csv value" : pystr)).
  - reflexivity.
  - reflexivity.
  - vm_compute. reflexivity.
  - vm_compute. lia.
Defined.

Lemma failed_analysis_keeps_the_dataset_witness :
  exists p',
    main_turn (Bench.runtime "torch" Sample.mute) (Bench.host (Bench.down_for 0 [])) 7
      (Bench.process (Sample.session Sample.fresh_agent
                        [("analyze sales.csv price series" : pystr)]))
    = (Ok (Again [("Error: " : pystr)
                  ++ exc_msg (py_error "KeyError" (repr_str "price"))]), p')
    /\ current_data (self (session p')) = Some Sample.sales
    /\ current_context (self (session p'))
       = analysis_context "sales.csv" "price" "series" Sample.sales
    /\ last_analysis_of (memory_manager (self (session p')))
       = last_analysis_of
           (memory_manager
              (self (session (Bench.process
                                (Sample.session Sample.fresh_agent
                                   [("analyze sales.csv price series" : pystr)]))))).
Proof.
  apply (failed_analysis_keeps_the_dataset (Bench.runtime "torch" Sample.mute)
           (Bench.host (Bench.down_for 0 [])) 7 "analyze sales.csv price series"
           "analyze" "sales.csv" "price" "series" []).
  - reflexivity.
  - reflexivity.
  - vm_compute. reflexivity.
  - vm_compute. reflexivity.
  - vm_compute. reflexivity.
  - vm_compute. reflexivity.
  - reflexivity.
Defined.

Lemma bye_saves_or_stays_witness :
  main_turn (Sample.runtime Sample.mute) (Bench.host (Bench.down_for 0 [])) 7
    (Bench.process (Sample.session Sample.fresh_agent [(" /bye" : pystr)]))
  = (Ok (Bye [("Session saved. Goodbye!" : pystr)]),
     {| session := on_world (set_stdin []) (Sample.session Sample.fresh_agent [(" /bye" : pystr)]);
        requests := 0; slept := 0; written := [] ++ [(0%nat, [], [])] |}).
Proof.
  pose proof (bye_saves_or_stays (Sample.runtime Sample.mute)
                (Bench.host (Bench.down_for 0 [])) 7 " /bye" []
                (Bench.process (Sample.session Sample.fresh_agent [(" /bye" : pystr)])))
    as H.
  destruct H as [H _].
  - reflexivity.
  - vm_compute. reflexivity.
  - apply H. reflexivity.
Defined.
